(** * ISS tracker: the computational core of [iss_tracker_app.py]

    The three functions of the application that compute something are
    [calc_speed_3d], [current_location] and [find_location].  They are
    embedded here as state-passing computations over the sequence of
    emitted log records, with Python exceptions as an explicit outcome.

    - Python floats are IEEE 754 binary64 values ([spec_float] at
      precision 53 and maximal exponent 1024), with the rounding of
      every operation written out by the [SF*] operations.
    - Time stamps ([time.time()], [time.mktime]) are finite doubles and
      are only ever compared; they are carried as rationals.
    - A state vector is a Python [dict]: a finite map from strings to
      values.
    - Library calls whose result is decided outside the program (C's
      [pow] behind [**], [math.atan2], [str] of a float, [time.mktime],
      the wall clock, the reverse geocoder) are parameters of the
      embedding. *)

From Stdlib Require Import ZArith QArith String Ascii List Lia Bool.
From Stdlib Require Import Floats.SpecFloat.
From stdpp Require Import gmap strings pretty.

Local Open Scope string_scope.
Local Open Scope list_scope.
Local Open Scope Z_scope.

(** ** Python values, exceptions and the logging state *)

Module Py.

(** The exception classes that the three functions can meet.
    [GeocoderError] stands for whatever the geocoding client raises. *)
Inductive exn : Type :=
  | TypeError
  | ValueError
  | KeyError
  | IndexError
  | OverflowError
  | GeocoderError.

Definition exn_eqb (a b : exn) : bool :=
  match a, b with
  | TypeError, TypeError | ValueError, ValueError | KeyError, KeyError
  | IndexError, IndexError | OverflowError, OverflowError
  | GeocoderError, GeocoderError => true
  | _, _ => false
  end.

(** What a call ends with: a returned value or a raised exception. *)
Inductive outcome (A : Type) : Type :=
  | Returned (a : A)
  | Raised (e : exn).
Arguments Returned {A} a.
Arguments Raised {A} e.

(** The [logging] module: each call appends one record. *)
Inductive level : Type := DEBUG | ERROR.

Record log_record : Type := LogRecord { levelname : level; msg : string }.

(** A computation reads the log written so far and returns its outcome
    with the log it leaves behind. *)
Definition M (A : Type) : Type := list log_record -> outcome A * list log_record.

Definition ret {A} (a : A) : M A := fun w => (Returned a, w).

Definition raise {A} (e : exn) : M A := fun w => (Raised e, w).

Definition bind {A B} (m : M A) (k : A -> M B) : M B :=
  fun w =>
    match m w with
    | (Returned a, w') => k a w'
    | (Raised e, w') => (Raised e, w')
    end.

(** [try: body except cls: handler]: only an exception of class [cls]
    is handled; any other one goes on to the caller. *)
Definition try_except {A} (body : M A) (cls : exn) (handler : M A) : M A :=
  fun w =>
    match body w with
    | (Raised e, w') => if exn_eqb e cls then handler w' else (Raised e, w')
    | r => r
    end.

Definition logging_debug (s : string) : M unit :=
  fun w => (Returned tt, w ++ [LogRecord DEBUG s]).

Definition logging_error (s : string) : M unit :=
  fun w => (Returned tt, w ++ [LogRecord ERROR s]).

Definition lift {A} (o : outcome A) : M A := fun w => (o, w).

(** The values that reach the core: floats, (unbounded) ints, strings
    and [None]. *)
Inductive pyval : Type :=
  | PyFloat (f : spec_float)
  | PyInt (n : Z)
  | PyStr (s : string)
  | PyNone.

End Py.
Export Py.

Declare Scope py_scope.
Delimit Scope py_scope with py.
Notation "x <- m ;; k" := (bind m (fun x => k))
  (at level 100, m at next level, right associativity) : py_scope.
Notation "m ;;; k" := (bind m (fun _ => k))
  (at level 100, right associativity) : py_scope.
Local Open Scope py_scope.

(** ** Binary64 arithmetic as Python performs it *)

Module Float.

Definition prec : Z := 53.
Definition emax : Z := 1024.

Definition fadd := SFadd prec emax.
Definition fsub := SFsub prec emax.
Definition fmul := SFmul prec emax.
Definition fdiv := SFdiv prec emax.
Definition fsqrt := SFsqrt prec emax.

(** The double nearest to an integer (ties to even); an infinity when
    the integer is beyond the largest double. *)
Definition of_Z (n : Z) : spec_float := binary_normalize prec emax n 0 false.

Definition is_nan (f : spec_float) : bool :=
  match f with S754_nan => true | _ => false end.

Definition is_inf (f : spec_float) : bool :=
  match f with S754_infinity _ => true | _ => false end.

Definition is_finite (f : spec_float) : bool :=
  match f with S754_zero _ | S754_finite _ _ _ => true | _ => false end.

(** Neither a negative number nor minus infinity. *)
Definition nonneg (f : spec_float) : bool :=
  match f with
  | S754_finite true _ _ | S754_infinity true => false
  | _ => true
  end.

(** [a > b] and [a < b] on doubles: false as soon as one side is NaN. *)
Definition fgt (a b : spec_float) : bool := SFltb b a.
Definition flt (a b : spec_float) : bool := SFltb a b.

(** The double [1.0]. *)
Definition one : spec_float := S754_finite false 4503599627370496 (-52).

(** [float.__pow__] at exponent 2 (floatobject.c, [float_pow]): NaN
    stays NaN, an infinity gives [+inf], a zero gives [+0.0]; a negative
    base is replaced by its absolute value; the base 1.0 gives 1.0;
    otherwise C's [pow(|x|, 2.0)] is called, which is [pow2 |x|] here,
    and an infinite result of that call raises [OverflowError]. *)
Definition float_pow2 (pow2 : spec_float -> spec_float) (x : spec_float)
  : outcome spec_float :=
  match x with
  | S754_nan => Returned S754_nan
  | S754_infinity _ => Returned (S754_infinity false)
  | S754_zero _ => Returned (S754_zero false)
  | S754_finite _ m e =>
      let a := S754_finite false m e in
      if SFeqb a one then Returned one
      else
        let r := pow2 a in
        if is_inf r then Raised OverflowError else Returned r
  end.

(** [PyLong_AsDouble]: an int too large for a double raises. *)
Definition int_as_double (n : Z) : outcome spec_float :=
  let r := of_Z n in
  if is_inf r then Raised OverflowError else Returned r.

(** [PyFloat_AsDouble], the argument conversion of the [math] module. *)
Definition as_double (v : pyval) : outcome spec_float :=
  match v with
  | PyFloat f => Returned f
  | PyInt n => int_as_double n
  | PyStr _ | PyNone => Raised TypeError
  end.

(** [int / int]: the correctly rounded quotient.  Both operands are
    below 2^53 wherever the core divides, so their conversion is exact. *)
Definition int_truediv (a b : Z) : spec_float := fdiv (of_Z a) (of_Z b).

End Float.
Export Float.

(** ** The operators [**2] and [+] on Python values *)

Definition py_add (a b : pyval) : M pyval :=
  match a, b with
  | PyFloat x, PyFloat y => ret (PyFloat (fadd x y))
  | PyInt m, PyInt n => ret (PyInt (m + n))
  | PyInt m, PyFloat y =>
      match int_as_double m with
      | Returned x => ret (PyFloat (fadd x y))
      | Raised e => raise e
      end
  | PyFloat x, PyInt n =>
      match int_as_double n with
      | Returned y => ret (PyFloat (fadd x y))
      | Raised e => raise e
      end
  | PyStr s, PyStr t => ret (PyStr (String.append s t))
  | _, _ => raise TypeError
  end.

(** [math.sqrt]: the argument is converted to a double; a negative
    double (minus infinity included, minus zero excluded) is a "math
    domain error"; NaN goes through. *)
Definition math_sqrt (v : pyval) : M spec_float :=
  x <- lift (as_double v) ;;
  if nonneg x then ret (fsqrt x) else raise ValueError.

Definition speed_error_msg : string :=
  "Non numerical values detected. Calculation cannot be performed".

Section SpeedCalculator.

(** C's [pow(a, 2.0)] on a positive finite double other than 1.0, as
    the C library of the process computes it; it need not be the
    correctly rounded square. *)
Variable pow2 : spec_float -> spec_float.

Definition py_pow2 (v : pyval) : M pyval :=
  match v with
  | PyFloat f =>
      match float_pow2 pow2 f with
      | Returned r => ret (PyFloat r)
      | Raised e => raise e
      end
  | PyInt n => ret (PyInt (n * n))
  | PyStr _ | PyNone => raise TypeError
  end.

(** ** [calc_speed_3d] *)

(** [x**2 + y**2 + z**2], evaluated left to right. *)
Definition sum_of_squares (x y z : pyval) : M pyval :=
  x2 <- py_pow2 x ;;
  y2 <- py_pow2 y ;;
  s <- py_add x2 y2 ;;
  z2 <- py_pow2 z ;;
  py_add s z2.

Definition calc_speed_3d (x y z : pyval) : M spec_float :=
  try_except
    (s <- sum_of_squares x y z ;; math_sqrt s)
    TypeError
    (logging_error speed_error_msg ;;; ret (S754_zero false)).

End SpeedCalculator.

(** ** Strings: slicing and [int(str)] *)

Module Str.

(** [s[a:b]] for [0 <= a <= b]: both ends are clamped to the length. *)
Definition slice (a b : nat) (s : string) : string := substring a (b - a) s.

Definition code (c : ascii) : Z := Z.of_nat (nat_of_ascii c).

Definition is_digit (c : ascii) : bool := (48 <=? code c) && (code c <=? 57).

Definition digit_value (c : ascii) : Z := code c - 48.

(** White space as [int] strips it, for code points below 256: the
    characters of C's [isspace], and the two other spaces of Latin-1,
    which the conversion of a non-ASCII string turns into blanks.  The
    separators [chr(28)] to [chr(31)] are not stripped. *)
Definition is_space (c : ascii) : bool :=
  let n := code c in
  ((9 <=? n) && (n <=? 13)) || (n =? 32) || (n =? 133) || (n =? 160).

Definition is_underscore (c : ascii) : bool := code c =? 95.

Fixpoint lstrip (s : list ascii) : list ascii :=
  match s with
  | c :: s' => if is_space c then lstrip s' else s
  | [] => []
  end.

(** [sys.int_info.default_max_str_digits]: a literal with more digits
    is refused. *)
Definition int_max_str_digits : Z := 4300.

(** Digits after a first digit, a single underscore allowed between two
    digits; returns the value read, the number of digits read and what
    is left. *)
Fixpoint int_digits (acc count : Z) (s : list ascii) : Z * Z * list ascii :=
  match s with
  | c :: s' =>
      if is_digit c then int_digits (10 * acc + digit_value c) (count + 1) s'
      else if is_underscore c then
        match s' with
        | d :: s'' =>
            if is_digit d then
              int_digits (10 * acc + digit_value d) (count + 1) s''
            else (acc, count, s)
        | [] => (acc, count, s)
        end
      else (acc, count, s)
  | [] => (acc, count, [])
  end.

Definition int_unsigned (s : list ascii) : option Z :=
  match s with
  | d :: r =>
      if is_digit d then
        let '(v, count, rest) := int_digits (digit_value d) 1 r in
        if (count <=? int_max_str_digits) && forallb is_space rest
        then Some v else None
      else None
  | [] => None
  end.

(** [int(s)] in base 10: surrounding white space, an optional sign, then
    at most [int_max_str_digits] digits.  [None] is the [ValueError] of
    an invalid literal. *)
Definition int_of_str (s : string) : option Z :=
  match lstrip (list_ascii_of_string s) with
  | c :: r =>
      if code c =? 43 then int_unsigned r
      else if code c =? 45 then option_map Z.opp (int_unsigned r)
      else int_unsigned (c :: r)
  | [] => None
  end.

Definition py_int (s : string) : M Z :=
  match int_of_str s with
  | Some n => ret n
  | None => raise ValueError
  end.

End Str.
Export Str.

(** ** [time.strptime(s, '%Y-%jT%H:%M:%S')]

    [_strptime] turns the format into a regular expression, matched
    from the start of the string with leftmost-first alternatives and
    without regard to letter case; text left after the match is an
    error.  The five fields are then read as decimal numbers and the
    date is rebuilt from the year and the day of the year. *)

Module Strptime.

(** One alternative of a directive: a sequence of digit classes, each
    given by its least and greatest character code. *)
Definition alternative : Type := list (Z * Z).

Inductive item : Type :=
  | Group (alts : list alternative)
  | Lit (c : ascii).

Definition d_ (lo hi : Z) : Z * Z := (48 + lo, 48 + hi).
Definition any : Z * Z := d_ 0 9.

(** The directives, as [TimeRE] lists them. *)
Definition re_Y : list alternative := [[any; any; any; any]].
Definition re_j : list alternative :=
  [ [d_ 3 3; d_ 6 6; d_ 0 6]; [d_ 3 3; d_ 0 5; any]; [d_ 1 2; any; any];
    [d_ 0 0; d_ 1 9; any]; [d_ 0 0; d_ 0 0; d_ 1 9]; [d_ 1 9; any];
    [d_ 0 0; d_ 1 9]; [d_ 1 9] ].
Definition re_H : list alternative :=
  [ [d_ 2 2; d_ 0 3]; [d_ 0 1; any]; [any] ].
Definition re_M : list alternative := [ [d_ 0 5; any]; [any] ].
Definition re_S : list alternative :=
  [ [d_ 6 6; d_ 0 1]; [d_ 0 5; any]; [any] ].

(** ['%Y-%jT%H:%M:%S'] *)
Definition format_regex : list item :=
  [ Group re_Y; Lit "-"; Group re_j; Lit "T"; Group re_H; Lit ":";
    Group re_M; Lit ":"; Group re_S ].

Definition lower (c : ascii) : Z :=
  let n := code c in if (65 <=? n) && (n <=? 90) then n + 32 else n.

Definition eq_ignore_case (a b : ascii) : bool := lower a =? lower b.

Fixpoint match_alternative (p : alternative) (s : list ascii)
  : option (list ascii * list ascii) :=
  match p with
  | [] => Some ([], s)
  | (lo, hi) :: p' =>
      match s with
      | c :: s' =>
          if (lo <=? code c) && (code c <=? hi) then
            match match_alternative p' s' with
            | Some (txt, rest) => Some (c :: txt, rest)
            | None => None
            end
          else None
      | [] => None
      end
  end.

(** The first alternative after which the rest of the expression still
    matches. *)
Fixpoint try_alternatives {R} (alts : list alternative)
    (k : list ascii -> option R) (s : list ascii) : option (list ascii * R) :=
  match alts with
  | [] => None
  | p :: alts' =>
      match match_alternative p s with
      | Some (txt, rest) =>
          match k rest with
          | Some r => Some (txt, r)
          | None => try_alternatives alts' k s
          end
      | None => try_alternatives alts' k s
      end
  end.

(** The captured groups, in order, and the unmatched end of the string. *)
Fixpoint match_regex (re : list item) (s : list ascii)
  : option (list (list ascii) * list ascii) :=
  match re with
  | [] => Some ([], s)
  | Lit c :: re' =>
      match s with
      | a :: s' => if eq_ignore_case a c then match_regex re' s' else None
      | [] => None
      end
  | Group alts :: re' =>
      match try_alternatives alts (fun rest => match_regex re' rest) s with
      | Some (txt, (groups, rest)) => Some (txt :: groups, rest)
      | None => None
      end
  end.

Definition decimal (txt : list ascii) : Z :=
  fold_left (fun acc c => 10 * acc + digit_value c) txt 0.

Record struct_time : Type := StructTime {
  tm_year : Z; tm_mon : Z; tm_mday : Z;
  tm_hour : Z; tm_min : Z; tm_sec : Z;
  tm_wday : Z; tm_yday : Z; tm_isdst : Z
}.

(** The proleptic Gregorian calendar of [datetime.date]. *)
Definition is_leap (y : Z) : bool :=
  (y mod 4 =? 0) && (negb (y mod 100 =? 0) || (y mod 400 =? 0)).

Definition days_before_year (y : Z) : Z :=
  let p := y - 1 in p * 365 + p / 4 - p / 100 + p / 400.

Definition days_in_year (y : Z) : Z := if is_leap y then 366 else 365.

Definition month_lengths (y : Z) : list Z :=
  [31; if is_leap y then 29 else 28; 31; 30; 31; 30; 31; 31; 30; 31; 30; 31].

Fixpoint month_day (lens : list Z) (m d : Z) : Z * Z :=
  match lens with
  | [] => (m, d)
  | n :: rest => if d <=? n then (m, d) else month_day rest (m + 1) (d - n)
  end.

Fixpoint days_before_month (lens : list Z) (m : Z) : Z :=
  match lens with
  | [] => 0
  | n :: rest => if m <=? 1 then 0 else n + days_before_month rest (m - 1)
  end.

(** [date(y, m, d).toordinal()] *)
Definition toordinal (y m d : Z) : Z :=
  days_before_year y + days_before_month (month_lengths y) m + d.

(** [date.max.toordinal()], the ordinal of 9999-12-31. *)
Definition max_ordinal : Z := 3652059.

(** [date.fromordinal(julian - 1 + date(year, 1, 1).toordinal())] for a
    day of the year between 1 and 366: the year, month and day.  Both
    constructors refuse a date outside years 1 to 9999. *)
Definition date_of_yday (year julian : Z) : option (Z * Z * Z) :=
  if year <? 1 then None
  else if max_ordinal <? julian - 1 + toordinal year 1 1 then None
  else if julian <=? days_in_year year then
    let '(m, d) := month_day (month_lengths year) 1 julian in
    Some (year, m, d)
  else Some (year + 1, 1, julian - days_in_year year).

(** [None] is the [ValueError] of [strptime]. *)
Definition strptime (s : string) : option struct_time :=
  match match_regex format_regex (list_ascii_of_string s) with
  | Some ([tY; tj; tH; tM; tS], []) =>
      let julian := decimal tj in
      match date_of_yday (decimal tY) julian with
      | Some (y, m, d) =>
          Some {| tm_year := y; tm_mon := m; tm_mday := d;
                  tm_hour := decimal tH; tm_min := decimal tM;
                  tm_sec := decimal tS;
                  tm_wday := (toordinal y m d + 6) mod 7;
                  tm_yday := julian; tm_isdst := -1 |}
      | None => None
      end
  | _ => None
  end.

(** [time.mktime] in a process whose time zone is UTC: seconds since
    1970-01-01, from the date and time of day (the week day and the day
    of the year are not read). *)
Definition mktime_utc (t : struct_time) : Q :=
  inject_Z
    ((toordinal (tm_year t) (tm_mon t) (tm_mday t) - toordinal 1970 1 1) * 86400
     + tm_hour t * 3600 + tm_min t * 60 + tm_sec t).

End Strptime.
Export Strptime.

(** ** Containers *)

(** A state vector as [xmltodict] hands it over. *)
Abbreviation dict := (gmap string pyval).

(** [d[k]] *)
Definition getitem (d : dict) (k : string) : M pyval :=
  match d !! k with
  | Some v => ret v
  | None => raise KeyError
  end.

(** [v[:n]]: only a string can be sliced among the values modelled. *)
Definition str_prefix (v : pyval) (n : nat) : M string :=
  match v with
  | PyStr s => ret (slice 0 n s)
  | _ => raise TypeError
  end.

(** [l[i]]: a negative index counts from the end. *)
Definition list_getitem {A} (l : list A) (i : Z) : M A :=
  let n := Z.of_nat (length l) in
  let j := if i <? 0 then i + n else i in
  if (0 <=? j) && (j <? n) then
    match l !! Z.to_nat j with
    | Some a => ret a
    | None => raise IndexError
    end
  else raise IndexError.

(** [a < b] on time stamps. *)
Definition Qltb (a b : Q) : bool := negb (Qle_bool b a).

(** ** Constants of the module and of [math] *)

(** [MEAN_EARTH_RADIUS = 6378.1] *)
Definition MEAN_EARTH_RADIUS : spec_float :=
  Eval vm_compute in int_truediv 63781 10.

(** The double [math.pi], 0x1.921fb54442d18p+1. *)
Definition math_pi : spec_float := S754_finite false 7074237752028440 (-51).

(** [math.degrees(x)] is [x * (180.0 / math.pi)]. *)
Definition math_degrees (x : spec_float) : spec_float :=
  fmul x (fdiv (of_Z 180) math_pi).

Definition time_format_msg (what : string) : string :=
  "Invalid time format, ensure that the epoch timestring is in the format 'yyyy-dddThh:mm:ss.xxxZ'. "
  +:+ what.

(** ** [current_location] and [find_location] *)

Section Core.

(** C's [pow(a, 2.0)], as in [py_pow2]. *)
Variable pow2 : spec_float -> spec_float.

(** [time.mktime]: the seconds since the epoch of a broken-down local
    time, as the time zone of the process decides. *)
Variable mktime : struct_time -> Q.

(** [str] of a time stamp and of a double. *)
Variable str_time : Q -> string.
Variable str_float : spec_float -> string.

(** [math.atan2] on two doubles; it raises for no pair of doubles. *)
Variable atan2 : spec_float -> spec_float -> spec_float.

(** [Nominatim(...).reverse((lat, lon), zoom=20, language='en')]:
    the address of the location found, [None] when the service finds
    none, or an exception of the client. *)
Variable geocoder_reverse : spec_float -> spec_float -> outcome (option string).

(** The loop of [current_location]: the value of [curr_index] when
    the loop is left, by [break] or at the end of the list. *)
Fixpoint scan_epochs (current_time : Q) (key_string : string)
    (items : list dict) (curr_index : Z) : M Z :=
  match items with
  | [] => ret curr_index
  | item :: rest =>
      v <- getitem item key_string ;;
      epoch <- str_prefix v 17 ;;
      epoch_time_obj <-
        match strptime epoch with
        | Some t => ret t
        | None => raise ValueError
        end ;;
      let epoch_time := mktime epoch_time_obj in
      if Qltb current_time epoch_time then
        logging_debug ("epoch time: " +:+ str_time epoch_time) ;;;
        ret curr_index
      else scan_epochs current_time key_string rest (curr_index + 1)
  end.

(** The function from line 55 on, for the reading [current_time] that
    line 54 took of the wall clock; [current_location_called] below is
    the function with line 54. *)
Definition current_location (current_time : Q)
    (list_of_dicts : list dict) (key_string : string) : M dict :=
  logging_debug ("current time: " +:+ str_time current_time) ;;;
  r <- try_except
         (curr_index <- scan_epochs current_time key_string list_of_dicts 0 ;;
          ret (inr curr_index))
         ValueError
         (logging_error (time_format_msg "Empty python dictionary returned.") ;;;
          ret (inl (∅ : dict))) ;;
  match r with
  | inl d => ret d
  | inr curr_index => list_getitem list_of_dicts (curr_index - 1)
  end.

(** [math.atan2(a, b)] on Python values. *)
Definition math_atan2 (a b : pyval) : M spec_float :=
  x <- lift (as_double a) ;;
  y <- lift (as_double b) ;;
  ret (atan2 x y).

(** The longitude before line 102, from [math.atan2(y, x)] and the
    hour and minute of the epoch. *)
Definition raw_longitude (angle : spec_float) (hrs mins : Z) : spec_float :=
  fadd
    (fsub (math_degrees angle)
          (fmul (fadd (of_Z (hrs - 12)) (int_truediv mins 60))
                (int_truediv 360 24)))
    (of_Z 19).

Definition find_location (x y z : pyval) (epoch : string) : M (list string) :=
  r <- try_except
         (hrs <- py_int (slice 9 11 epoch) ;;
          mins <- py_int (slice 12 14 epoch) ;;
          ret (inr (hrs, mins)))
         ValueError
         (logging_error (time_format_msg "Empty list returned.") ;;;
          ret (inl [])) ;;
  match r with
  | inl l => ret l
  | inr (hrs, mins) =>
      x2 <- py_pow2 pow2 x ;;
      y2 <- py_pow2 pow2 y ;;
      s <- py_add x2 y2 ;;
      h <- math_sqrt s ;;
      lat <- math_atan2 z (PyFloat h) ;;
      let latitude := math_degrees lat in
      angle <- math_atan2 y x ;;
      let longitude := raw_longitude angle hrs mins in
      logging_debug ("longitude before conversion" +:+ str_float longitude) ;;;
      let longitude :=
        if fgt longitude (of_Z 180) then
          fadd (of_Z (-180)) (fsub longitude (of_Z 180))
        else if flt longitude (of_Z (-180)) then
          fadd (of_Z 180) (fadd longitude (of_Z 180))
        else longitude in
      s <- sum_of_squares pow2 x y z ;;
      r <- math_sqrt s ;;
      let altitude := fsub r MEAN_EARTH_RADIUS in
      geolocation <- lift (geocoder_reverse latitude longitude) ;;
      let location :=
        match geolocation with
        | Some address => address
        | None => "Over Ocean"
        end in
      ret [str_float latitude; str_float longitude; str_float altitude; location]
  end.

End Core.

(** ** The functions as a caller has them

    A call depends on its arguments and on the process it is made in:
    the moment of the call decides what [time.time()] reads and what
    the geocoding service answers, and the log holds the records
    emitted so far. *)



Section Calls.

Variable pow2 : spec_float -> spec_float.
Variable mktime : struct_time -> Q.
Variable str_time : Q -> string.
Variable str_float : spec_float -> string.
Variable atan2 : spec_float -> spec_float -> spec_float.

(** What the wall clock reads and what the geocoding service answers at
    each moment. *)
Variable clock : nat -> Q.
Variable service : nat -> spec_float -> spec_float -> outcome (option string).




End Calls.

(** ** Vocabulary of the statements *)

(** A float or an int. *)
Definition is_number (v : pyval) : bool :=
  match v with
  | PyFloat _ | PyInt _ => true
  | PyStr _ | PyNone => false
  end.

(** [f**2] raises [OverflowError]. *)
Definition square_overflows (pow2 : spec_float -> spec_float) (f : spec_float)
  : bool :=
  match float_pow2 pow2 f with
  | Raised _ => true
  | Returned _ => false
  end.

(** The double that [f**2] is; the infinity of [pow] where it raises. *)
Definition float_sq (pow2 : spec_float -> spec_float) (f : spec_float)
  : spec_float :=
  match float_pow2 pow2 f with
  | Returned r => r
  | Raised _ => S754_infinity false
  end.

(** Squaring the value, and bringing the square to a double, raises no
    [OverflowError]. *)
Definition square_fits (pow2 : spec_float -> spec_float) (v : pyval) : bool :=
  match v with
  | PyFloat f => negb (square_overflows pow2 f)
  | PyInt n => negb (is_inf (of_Z (n * n)))
  | PyStr _ | PyNone => true
  end.

(** A number that [+] brings to a double without [OverflowError]. *)
Definition addable (v : pyval) : bool :=
  match v with
  | PyFloat _ => true
  | PyInt n => negb (is_inf (of_Z n))
  | PyStr _ | PyNone => false
  end.

(** The arithmetic of Python on floats and ints where it raises
    nothing: [v**2], [a + b] (an int next to a float is converted) and
    the conversion to a double that the [math] functions make. *)
Definition num_square (pow2 : spec_float -> spec_float) (v : pyval) : pyval :=
  match v with
  | PyFloat f => PyFloat (float_sq pow2 f)
  | PyInt n => PyInt (n * n)
  | PyStr _ | PyNone => v
  end.

Definition num_add (a b : pyval) : pyval :=
  match a, b with
  | PyFloat x, PyFloat y => PyFloat (fadd x y)
  | PyInt m, PyInt n => PyInt (m + n)
  | PyInt m, PyFloat y => PyFloat (fadd (of_Z m) y)
  | PyFloat x, PyInt n => PyFloat (fadd x (of_Z n))
  | _, _ => a
  end.

Definition num_double (v : pyval) : spec_float :=
  match v with
  | PyFloat f => f
  | PyInt n => of_Z n
  | PyStr _ | PyNone => S754_nan
  end.

(** Where that arithmetic raises no [OverflowError]: the square of a
    float, the conversion of a number to a double, and the sum of two
    numbers, which converts the int of a mixed pair. *)
Definition pow_in_range (pow2 : spec_float -> spec_float) (v : pyval) : bool :=
  match v with
  | PyFloat f => negb (square_overflows pow2 f)
  | PyInt _ | PyStr _ | PyNone => true
  end.

Definition double_in_range (v : pyval) : bool :=
  match v with
  | PyInt n => negb (is_inf (of_Z n))
  | PyFloat _ | PyStr _ | PyNone => true
  end.

Definition add_in_range (a b : pyval) : bool :=
  match a, b with
  | PyInt _, PyFloat _ => double_in_range a
  | PyFloat _, PyInt _ => double_in_range b
  | _, _ => true
  end.

(** Line 36 raises no [OverflowError] on the numbers [x], [y], [z]:
    the checks are those of its operations, in the order in which they
    are made. *)
Definition speed_in_range (pow2 : spec_float -> spec_float) (x y z : pyval)
  : bool :=
  let x2 := num_square pow2 x in
  let y2 := num_square pow2 y in
  let z2 := num_square pow2 z in
  pow_in_range pow2 x && pow_in_range pow2 y && add_in_range x2 y2
  && pow_in_range pow2 z && add_in_range (num_add x2 y2) z2
  && double_in_range (num_add (num_add x2 y2) z2).

(** Lines 97 to 107 raise no [OverflowError] on the numbers [x], [y],
    [z]. *)
Definition location_in_range (pow2 : spec_float -> spec_float) (x y z : pyval)
  : bool :=
  let x2 := num_square pow2 x in
  let y2 := num_square pow2 y in
  pow_in_range pow2 x && pow_in_range pow2 y && add_in_range x2 y2
  && double_in_range (num_add x2 y2) && double_in_range z
  && double_in_range y && double_in_range x
  && speed_in_range pow2 x y z.

(** A float that is not negative, or an int that is not. *)
Definition nonneg_number (v : pyval) : bool :=
  match v with
  | PyFloat f => nonneg f
  | PyInt n => 0 <=? n
  | PyStr _ | PyNone => false
  end.

(** What [v**2], and a sum of such squares, can end with: a float or
    an int that is not negative, a [TypeError] or an [OverflowError]. *)
Inductive square_like : outcome pyval -> Prop :=
  | square_like_float f : nonneg f = true -> square_like (Returned (PyFloat f))
  | square_like_int n : 0 <= n -> square_like (Returned (PyInt n))
  | square_like_type_error : square_like (Raised TypeError)
  | square_like_overflow : square_like (Raised OverflowError).

(** The latitude, the altitude and the place that [find_location]
    returns for numbers [x], [y], [z], as lines 97, 107 and 112 to 115
    compute them. *)
Definition latitude_of (pow2 : spec_float -> spec_float)
    (atan2 : spec_float -> spec_float -> spec_float) (x y z : pyval)
  : spec_float :=
  math_degrees
    (atan2 (num_double z)
       (fsqrt (num_double (num_add (num_square pow2 x) (num_square pow2 y))))).

Definition altitude_of (pow2 : spec_float -> spec_float) (x y z : pyval)
  : spec_float :=
  fsub
    (fsqrt (num_double (num_add (num_add (num_square pow2 x) (num_square pow2 y))
                                (num_square pow2 z))))
    MEAN_EARTH_RADIUS.

Definition place_of (geolocation : option string) : string :=
  match geolocation with
  | Some address => address
  | None => "Over Ocean"
  end.

(** What lines 102 to 105 make of a longitude. *)
Definition normalize_longitude (longitude : spec_float) : spec_float :=
  if fgt longitude (of_Z 180) then
    fadd (of_Z (-180)) (fsub longitude (of_Z 180))
  else if flt longitude (of_Z (-180)) then
    fadd (of_Z 180) (fadd longitude (of_Z 180))
  else longitude.

(** The layout [yyyy-dddThh:mm:ss] at the start of an epoch: digits and
    separators at fixed places; what follows them is free. *)
Definition epoch_layout : list (ascii -> bool) :=
  [ is_digit; is_digit; is_digit; is_digit; Ascii.eqb "-";
    is_digit; is_digit; is_digit; Ascii.eqb "T";
    is_digit; is_digit; Ascii.eqb ":";
    is_digit; is_digit; Ascii.eqb ":";
    is_digit; is_digit ]%char.

Fixpoint has_layout (layout : list (ascii -> bool)) (s : string) : bool :=
  match layout, s with
  | [], _ => true
  | p :: layout', String c s' => p c && has_layout layout' s'
  | _ :: _, EmptyString => false
  end.

Definition well_formed_epoch (s : string) : bool := has_layout epoch_layout s.

(** The time stamp that lines 60 to 62 of [current_location] compute
    for a record, when they raise nothing. *)
Definition epoch_time_of (mktime : struct_time -> Q) (key_string : string)
    (item : dict) : option Q :=
  match item !! key_string with
  | Some (PyStr s) => option_map mktime (strptime (slice 0 17 s))
  | _ => None
  end.

(** The record has a string under the key, and [strptime] refuses it. *)
Definition epoch_unparsable (key_string : string) (item : dict) : Prop :=
  exists s, item !! key_string = Some (PyStr s) /\ strptime (slice 0 17 s) = None.

(** Time stamps in ascending order. *)
Definition ascending (ts : list Q) : Prop :=
  forall (i j : nat) (ti tj : Q),
    (i <= j)%nat -> ts !! i = Some ti -> ts !! j = Some tj -> (ti <= tj)%Q.

(** How many leading time stamps are not after [now]. *)
Fixpoint count_past (now : Q) (ts : list Q) : nat :=
  match ts with
  | [] => 0%nat
  | t :: rest => if Qltb now t then 0%nat else S (count_past now rest)
  end.

(** The computation neither reads the log nor does anything but append
    to it: outcome and appended records are the same from every log. *)
Definition log_independent {A} (m : M A) : Prop :=
  exists (o : outcome A) (d : list log_record), forall w, m w = (o, w ++ d).



(** The double [1e200]. *)
Definition float_1e200 : spec_float := Eval vm_compute in of_Z (10 ^ 200).

(** An environment to run the functions in: a process in the UTC time
    zone, and stand-ins for the other library calls. *)
Module Sample.

(** A [pow] that rounds the square correctly. *)
Definition pow2 (a : spec_float) : spec_float := fmul a a.

Definition str_time (t : Q) : string := EmptyString.

(** A [str] that tells any two doubles apart: the decimal digits of an
    integral value followed by [.0], and mantissa and binary exponent
    otherwise. *)
Definition str_float (f : spec_float) : string :=
  match f with
  | S754_zero s => if s then "-0.0" else "0.0"
  | S754_infinity s => if s then "-inf" else "inf"
  | S754_nan => "nan"
  | S754_finite s m e =>
      let sign := if s then "-" else EmptyString in
      if 0 <=? e then sign +:+ pretty (Z.pos m * 2 ^ e) +:+ ".0"
      else if Z.pos m mod 2 ^ (- e) =? 0 then
        sign +:+ pretty (Z.pos m / 2 ^ (- e)) +:+ ".0"
      else sign +:+ pretty (Z.pos m) +:+ "p" +:+ pretty e
  end.

(** An [atan2] that answers the angle 0.0 for every point. *)
Definition atan2 (y x : spec_float) : spec_float := S754_zero false.

Definition geocoder_reverse (lat lon : spec_float) : outcome (option string) :=
  Returned None.

Definition geocoder_houston (lat lon : spec_float) : outcome (option string) :=
  Returned (Some "Houston").

Definition geocoder_down (lat lon : spec_float) : outcome (option string) :=
  Raised GeocoderError.

(** [{'epoch': s}] *)
Definition record (s : string) : dict := {[ "epoch" := PyStr s ]}.




End Sample.

(** ** The documents of [xmltodict] and the route handlers

    A parsed document is made of strings, [None], lists and nested
    dictionaries.  Each handler is modelled on the value that
    [get_data()], or the lookup of the [COMMENT] section, handed it. *)

#[local] Set Warnings "-register-all".
Inductive xval : Type :=
  | XNone
  | XStr (s : string)
  | XList (l : list xval)
  | XDict (m : gmap string xval).

(** [v == s] for a string [s]. *)
Definition eq_str (v : xval) (s : string) : bool :=
  match v with
  | XStr t => String.eqb t s
  | _ => false
  end.

(** [v == None] *)
Definition eq_none (v : xval) : bool :=
  match v with
  | XNone => true
  | _ => false
  end.

(** [v[k]] for a string key: only a dictionary takes one. *)
Definition xgetitem (v : xval) (k : string) : M xval :=
  match v with
  | XDict m =>
      match m !! k with
      | Some x => ret x
      | None => raise KeyError
      end
  | XNone | XStr _ | XList _ => raise TypeError
  end.

(** The line feed of ['\n']. *)
Definition newline : string := String (ascii_of_nat 10) EmptyString.

(** *** [return_all] *)

(** [int(v)] where [v] is the query parameter when the request has it,
    and the int [default] otherwise. *)
Definition int_of_arg (arg : option string) (default : Z) : M Z :=
  match arg with
  | Some s => py_int s
  | None => ret default
  end.

(** [range(n)] *)
Definition py_range (n : Z) : list Z := map Z.of_nat (seq 0 (Z.to_nat n)).

(** The loop of lines 201 to 203 over the values of [i] still to come. *)
Fixpoint collect_page {A} (data : list A) (offset : Z) (indices : list Z)
    (new_data : list A) : M (list A) :=
  match indices with
  | [] => ret new_data
  | i :: rest =>
      if i + offset <? Z.of_nat (length data) then
        item <- list_getitem data (i + offset) ;;
        collect_page data offset rest (new_data ++ [item])
      else collect_page data offset rest new_data
  end.

Definition return_all {A} (data : list A) (limit offset : option string)
  : M (list A) :=
  limit <- try_except (int_of_arg limit (Z.of_nat (length data))) ValueError
             (logging_error "'limit' parameter must be a positive integer" ;;;
              ret (Z.of_nat (length data))) ;;
  offset <- try_except (int_of_arg offset 0) ValueError
              (logging_error "'offset' parameter must be a positive integer" ;;;
               ret 0) ;;
  collect_page data offset (py_range limit) [].

(** *** [return_comments] *)

(** The loop of lines 137 to 139 on a list, over the indices still to
    come; the assignment updates the list in place. *)
Fixpoint blank_comments (indices : list nat) (comments : list xval)
  : M (list xval) :=
  match indices with
  | [] => ret comments
  | i :: rest =>
      match comments !! i with
      | Some c =>
          if eq_none c then blank_comments rest (<[i := XStr EmptyString]> comments)
          else blank_comments rest comments
      | None => raise IndexError
      end
  end.

(** [comments] is the [COMMENT] entry of the document.  A string has
    one-character strings as items, none of which is [None]; [None] has
    no [len]; a dictionary has no int key. *)
Definition return_comments (comments : xval) : M xval :=
  match comments with
  | XList l => l' <- blank_comments (seq 0 (length l)) l ;; ret (XList l')
  | XStr s => ret (XStr s)
  | XNone => raise TypeError
  | XDict m =>
      match size m with
      | O => ret (XDict m)
      | S _ => raise KeyError
      end
  end.

(** *** The routes under [/epochs/<epoch>] *)

Definition epoch_not_found_msg (what : string) : string :=
  "Epoch not found. Ensure that the epoch is in the format " +:+ what.

(** Lines 219 to 224. *)
Fixpoint return_epoch (data : list xval) (epoch : string) : M xval :=
  match data with
  | [] =>
      logging_error
        (epoch_not_found_msg "'yyyy-dddThh:mm:ss.xxxZ'. Empty dictionary returned") ;;;
      ret (XDict ∅)
  | item :: rest =>
      e <- xgetitem item "EPOCH" ;;
      if eq_str e epoch then ret item else return_epoch rest epoch
  end.

Section Routes.

(** C's [pow(a, 2.0)], as in [py_pow2]. *)
Variable pow2 : spec_float -> spec_float.

(** [float(s)] on a string; [None] is its [ValueError]. *)
Variable float_of_str : string -> option spec_float.

(** [str] of a double and of a document value. *)
Variable str_float : spec_float -> string.
Variable str_xval : xval -> string.

Variable atan2 : spec_float -> spec_float -> spec_float.
Variable geocoder_reverse : spec_float -> spec_float -> outcome (option string).

(** [float(v)] *)
Definition py_float (v : xval) : M spec_float :=
  match v with
  | XStr s =>
      match float_of_str s with
      | Some f => ret f
      | None => raise ValueError
      end
  | XNone | XList _ | XDict _ => raise TypeError
  end.

(** [float(item[field]['#text'])] *)
Definition float_field (item : xval) (field : string) : M spec_float :=
  v <- xgetitem item field ;;
  t <- xgetitem v "#text" ;;
  py_float t.

(** Lines 238 to 246. *)
Fixpoint return_epoch_speed (data : list xval) (epoch : string) : M string :=
  match data with
  | [] =>
      logging_error
        (epoch_not_found_msg "'yyyy-dddThh:mm:ss.xxxZ'. Zero value returned") ;;;
      ret (str_float (S754_zero false) +:+ newline)
  | item :: rest =>
      e <- xgetitem item "EPOCH" ;;
      if eq_str e epoch then
        logging_debug (str_xval item) ;;;
        x_dot <- float_field item "X_DOT" ;;
        y_dot <- float_field item "Y_DOT" ;;
        z_dot <- float_field item "Z_DOT" ;;
        speed <- calc_speed_3d pow2 (PyFloat x_dot) (PyFloat y_dot) (PyFloat z_dot) ;;
        ret (str_float speed +:+ newline)
      else return_epoch_speed rest epoch
  end.

(** Lines 262 to 268.  The last argument of the call is [item['EPOCH']],
    which the test of line 263 has found equal to [epoch]. *)
Fixpoint return_epoch_location (data : list xval) (epoch : string)
  : M (list string) :=
  match data with
  | [] =>
      logging_error
        (epoch_not_found_msg "'yyyy-dddThh:mm:ss'. Empty list returned") ;;;
      ret []
  | item :: rest =>
      e <- xgetitem item "EPOCH" ;;
      if eq_str e epoch then
        x <- float_field item "X" ;;
        y <- float_field item "Y" ;;
        z <- float_field item "Z" ;;
        e' <- xgetitem item "EPOCH" ;;
        match e' with
        | XStr t =>
            find_location pow2 str_float atan2 geocoder_reverse
              (PyFloat x) (PyFloat y) (PyFloat z) t
        | XNone | XList _ | XDict _ => raise TypeError
        end
      else return_epoch_location rest epoch
  end.

End Routes.

(** *** Vocabulary for the routes *)

(** The int that lines 186 to 198 settle on for a query parameter: its
    value when it reads as an int, the default when it is absent or
    does not. *)
Definition arg_value (arg : option string) (default : Z) : Z :=
  match arg with
  | Some s => match int_of_str s with Some n => n | None => default end
  | None => default
  end.

(** The error logged for a parameter that is present and no int. *)
Definition arg_errors (arg : option string) (message : string) : list log_record :=
  match arg with
  | Some s => match int_of_str s with Some _ => [] | None => [LogRecord ERROR message] end
  | None => []
  end.

(** A string of decimal digits only. *)
Definition all_digits (s : string) : bool :=
  forallb is_digit (list_ascii_of_string s).

(** What line 139 makes of an entry. *)
Definition blank_none (c : xval) : xval :=
  if eq_none c then XStr EmptyString else c.

(** The item is a dictionary whose ["EPOCH"] entry is not [epoch]. *)
Definition other_epoch (epoch : string) (item : xval) : Prop :=
  exists (m : gmap string xval) (e : xval),
    item = XDict m /\ m !! "EPOCH" = Some e /\ eq_str e epoch = false.

(** The item is a dictionary whose ["EPOCH"] entry is the string [epoch]. *)
Definition has_epoch (epoch : string) (item : xval) : Prop :=
  exists m : gmap string xval, item = XDict m /\ m !! "EPOCH" = Some (XStr epoch).

(** The string under [item[field]['#text']], when the path is there. *)
Definition text_field (item : xval) (field : string) : option string :=
  match item with
  | XDict m =>
      match m !! field with
      | Some (XDict f) =>
          match f !! "#text" with
          | Some (XStr s) => Some s
          | _ => None
          end
      | _ => None
      end
  | _ => None
  end.

(** A state vector as the feed has it: an epoch and three fields with
    a text. *)
Definition vector (epoch : string) (f1 f2 f3 : string) (t1 t2 t3 : string) : xval :=
  XDict (<[ "EPOCH" := XStr epoch ]>
         (<[ f1 := XDict {[ "#text" := XStr t1 ]} ]>
          (<[ f2 := XDict {[ "#text" := XStr t2 ]} ]>
           {[ f3 := XDict {[ "#text" := XStr t3 ]} ]}))).

(** A feed of two state vectors and stand-ins for [float] and [str], to
    run the routes on; [float] is given on int literals only. *)
Module SampleFeed.

Definition float_of_str (s : string) : option spec_float :=
  option_map of_Z (int_of_str s).

Definition str_xval (v : xval) : string := EmptyString.

Definition velocity (epoch : string) (t1 t2 t3 : string) : xval :=
  vector epoch "X_DOT" "Y_DOT" "Z_DOT" t1 t2 t3.

Definition position (epoch : string) (t1 t2 t3 : string) : xval :=
  vector epoch "X" "Y" "Z" t1 t2 t3.

End SampleFeed.

(** * Proofs *)

(** ** Signs of the double operations *)

Lemma binary_round_aux_nonneg m e l :
  nonneg (binary_round_aux prec emax false m e l) = true.
Proof.
  unfold binary_round_aux.
  destruct (shr_fexp prec emax m e l) as [mrs' e'].
  destruct (shr_fexp prec emax _ e' loc_Exact) as [mrs'' e''].
  destruct (shr_m mrs''); try reflexivity.
  destruct (e'' <=? emax - prec); reflexivity.
Qed.

Lemma binary_round_nonneg m e :
  nonneg (binary_round prec emax false m e) = true.
Proof.
  unfold binary_round.
  destruct (shl_align m e _) as [mz ez].
  apply binary_round_aux_nonneg.
Qed.

Lemma fmul_self_nonneg x : nonneg (fmul x x) = true.
Proof.
  destruct x as [s | s | | s m e]; simpl; try reflexivity.
  - destruct s; reflexivity.
  - destruct s; simpl; apply binary_round_aux_nonneg.
Qed.

(** The sample [pow] returns no negative number. *)
Lemma sample_pow2_nonneg : forall a, nonneg (Sample.pow2 a) = true.
Proof. exact fmul_self_nonneg. Qed.

Lemma fadd_nonneg x y :
  nonneg x = true -> nonneg y = true -> nonneg (fadd x y) = true.
Proof.
  destruct x as [sx | sx | | sx mx ex], y as [sy | sy | | sy my ey];
    simpl; intros Hx Hy; try reflexivity; try assumption;
    try (destruct sx, sy; simpl in *; congruence).
  destruct sx; [discriminate |]. destruct sy; [discriminate |].
  simpl. apply binary_round_nonneg.
Qed.

Lemma of_Z_nonneg n : 0 <= n -> nonneg (of_Z n) = true.
Proof.
  intros Hn. unfold of_Z, binary_normalize.
  destruct n as [| p | p]; [reflexivity | apply binary_round_nonneg | lia].
Qed.

(** ** Running the operators *)

Section Operators.

Variable pow2 : spec_float -> spec_float.

Lemma float_pow2_fits x :
  square_overflows pow2 x = false ->
  float_pow2 pow2 x = Returned (float_sq pow2 x).
Proof.
  unfold square_overflows, float_sq.
  destruct (float_pow2 pow2 x); [reflexivity | discriminate].
Qed.

(** [**] raises nothing but [OverflowError]. *)
Lemma float_pow2_raises x e : float_pow2 pow2 x = Raised e -> e = OverflowError.
Proof.
  destruct x as [s | s | | s m e0]; try discriminate.
  unfold float_pow2.
  destruct (SFeqb _ _); [discriminate |].
  destruct (is_inf _); [| discriminate].
  intros H. injection H as <-. reflexivity.
Qed.

Lemma float_pow2_overflows x :
  square_overflows pow2 x = true -> float_pow2 pow2 x = Raised OverflowError.
Proof.
  unfold square_overflows.
  destruct (float_pow2 pow2 x) as [r | e] eqn:E; [discriminate |].
  intros _. rewrite (float_pow2_raises x e E). reflexivity.
Qed.

Lemma float_pow2_returns_nonneg x r :
  (forall a, nonneg (pow2 a) = true) ->
  float_pow2 pow2 x = Returned r -> nonneg r = true.
Proof.
  intros Hpow. destruct x as [s | s | | s m e]; unfold float_pow2.
  - intros H. injection H as <-. reflexivity.
  - intros H. injection H as <-. reflexivity.
  - intros H. injection H as <-. reflexivity.
  - destruct (SFeqb _ _); [intros H; injection H as <-; reflexivity |].
    destruct (is_inf _); [discriminate |].
    intros H. injection H as <-. apply Hpow.
Qed.

Lemma float_sq_nonneg x :
  (forall a, nonneg (pow2 a) = true) -> nonneg (float_sq pow2 x) = true.
Proof.
  intros Hpow. unfold float_sq.
  destruct (float_pow2 pow2 x) as [r | e] eqn:E; [| reflexivity].
  exact (float_pow2_returns_nonneg x r Hpow E).
Qed.

Lemma py_pow2_float x w :
  square_overflows pow2 x = false ->
  py_pow2 pow2 (PyFloat x) w = (Returned (PyFloat (float_sq pow2 x)), w).
Proof. intros H. unfold py_pow2. rewrite (float_pow2_fits x H). reflexivity. Qed.

Lemma math_sqrt_float f w :
  nonneg f = true -> math_sqrt (PyFloat f) w = (Returned (fsqrt f), w).
Proof. intros H. unfold math_sqrt, bind, lift. simpl. rewrite H. reflexivity. Qed.

Lemma math_sqrt_int n w :
  0 <= n -> is_inf (of_Z n) = false ->
  math_sqrt (PyInt n) w = (Returned (fsqrt (of_Z n)), w).
Proof.
  intros Hn Hfin. unfold math_sqrt, bind, lift. simpl.
  unfold int_as_double. rewrite Hfin, (of_Z_nonneg n Hn). reflexivity.
Qed.

Lemma sum_of_squares_floats x y z w :
  square_overflows pow2 x = false -> square_overflows pow2 y = false ->
  square_overflows pow2 z = false ->
  sum_of_squares pow2 (PyFloat x) (PyFloat y) (PyFloat z) w
  = (Returned (PyFloat (fadd (fadd (float_sq pow2 x) (float_sq pow2 y))
                             (float_sq pow2 z))), w).
Proof.
  intros Hx Hy Hz. unfold sum_of_squares, bind.
  rewrite (py_pow2_float x w Hx), (py_pow2_float y w Hy).
  cbn [py_add ret]. rewrite (py_pow2_float z w Hz). reflexivity.
Qed.

Lemma sum_of_squares_ints a b c w :
  sum_of_squares pow2 (PyInt a) (PyInt b) (PyInt c) w
  = (Returned (PyInt (a * a + b * b + c * c)), w).
Proof. reflexivity. Qed.

Lemma sum_float_squares_nonneg x y z :
  (forall a, nonneg (pow2 a) = true) ->
  nonneg (fadd (fadd (float_sq pow2 x) (float_sq pow2 y)) (float_sq pow2 z)) = true.
Proof. intros Hpow. repeat apply fadd_nonneg; apply float_sq_nonneg, Hpow. Qed.

Lemma float_pow2_cases f :
  float_pow2 pow2 f = Raised OverflowError
  \/ exists r, float_pow2 pow2 f = Returned r.
Proof.
  destruct (float_pow2 pow2 f) as [r | e] eqn:E.
  - right. exists r. reflexivity.
  - left. rewrite (float_pow2_raises f e E). reflexivity.
Qed.

(** What squaring and adding squares can end with. *)
Lemma py_pow2_square_like v w :
  (forall a, nonneg (pow2 a) = true) ->
  exists o, py_pow2 pow2 v w = (o, w) /\ square_like o.
Proof.
  intros Hpow. destruct v as [f | n | s |]; unfold py_pow2.
  - destruct (float_pow2 pow2 f) as [r | e] eqn:E.
    + eexists; split; [reflexivity |].
      constructor. exact (float_pow2_returns_nonneg f r Hpow E).
    + rewrite (float_pow2_raises f e E).
      eexists; split; [reflexivity | constructor].
  - eexists; split; [reflexivity | constructor; nia].
  - eexists; split; [reflexivity | constructor].
  - eexists; split; [reflexivity | constructor].
Qed.

Lemma int_as_double_cases n :
  0 <= n ->
  int_as_double n = Raised OverflowError
  \/ exists f, int_as_double n = Returned f /\ nonneg f = true.
Proof.
  intros Hn. unfold int_as_double. destruct (is_inf (of_Z n)).
  - left; reflexivity.
  - right. eexists; split; [reflexivity | apply of_Z_nonneg, Hn].
Qed.

Lemma py_add_square_like a b w :
  square_like (Returned a) -> square_like (Returned b) ->
  exists o, py_add a b w = (o, w) /\ square_like o.
Proof.
  intros Ha Hb. inversion Ha as [x Hx | m Hm | |]; subst;
    inversion Hb as [y Hy | n Hn | |]; subst; simpl.
  - eexists; split; [reflexivity | constructor; apply fadd_nonneg; assumption].
  - destruct (int_as_double_cases n Hn) as [E | [f [E Hf]]]; rewrite E.
    + eexists; split; [reflexivity | constructor].
    + eexists; split; [reflexivity | constructor; apply fadd_nonneg; assumption].
  - destruct (int_as_double_cases m Hm) as [E | [f [E Hf]]]; rewrite E.
    + eexists; split; [reflexivity | constructor].
    + eexists; split; [reflexivity | constructor; apply fadd_nonneg; assumption].
  - eexists; split; [reflexivity | constructor; lia].
Qed.

Lemma sum_of_squares_square_like x y z w :
  (forall a, nonneg (pow2 a) = true) ->
  exists o, sum_of_squares pow2 x y z w = (o, w) /\ square_like o.
Proof.
  intros Hpow. unfold sum_of_squares, bind.
  destruct (py_pow2_square_like x w Hpow) as [ox [Ex Hx]]. rewrite Ex.
  destruct ox as [x2 | e]; [| eexists; split; [reflexivity | assumption]].
  destruct (py_pow2_square_like y w Hpow) as [oy [Ey Hy]]. rewrite Ey.
  destruct oy as [y2 | e]; [| eexists; split; [reflexivity | assumption]].
  destruct (py_add_square_like x2 y2 w Hx Hy) as [os [Es Hs]]. rewrite Es.
  destruct os as [s | e]; [| eexists; split; [reflexivity | assumption]].
  destruct (py_pow2_square_like z w Hpow) as [oz [Ez Hz]]. rewrite Ez.
  destruct oz as [z2 | e]; [| eexists; split; [reflexivity | assumption]].
  apply py_add_square_like; assumption.
Qed.

Lemma math_sqrt_square_like v w :
  square_like (Returned v) ->
  (exists r, math_sqrt v w = (Returned r, w))
  \/ math_sqrt v w = (Raised OverflowError, w).
Proof.
  intros Hv. inversion Hv as [f Hf | n Hn | |]; subst.
  - left. eexists. apply math_sqrt_float, Hf.
  - unfold math_sqrt, bind, lift. simpl.
    destruct (int_as_double_cases n Hn) as [E | [f [E Hf]]]; rewrite E.
    + right; reflexivity.
    + left. rewrite Hf. eexists; reflexivity.
Qed.

Lemma py_pow2_fits v w :
  is_number v = true -> square_fits pow2 v = true ->
  exists v2, py_pow2 pow2 v w = (Returned v2, w) /\ addable v2 = true.
Proof.
  destruct v as [f | n | s |]; simpl; intros Hn Hf; try discriminate.
  - apply negb_true_iff in Hf. rewrite (float_pow2_fits f Hf).
    eexists; split; reflexivity.
  - eexists; split; [reflexivity | exact Hf].
Qed.

Lemma py_pow2_not_number v w :
  is_number v = false -> py_pow2 pow2 v w = (Raised TypeError, w).
Proof. destruct v; simpl; intros H; (discriminate || reflexivity). Qed.

Lemma py_add_addable a b w :
  addable a = true -> addable b = true ->
  exists s, py_add a b w = (Returned s, w).
Proof.
  destruct a as [x | m | |], b as [y | n | |]; simpl; intros Ha Hb;
    try discriminate; try (eexists; reflexivity).
  - unfold int_as_double. apply negb_true_iff in Hb. rewrite Hb.
    eexists; reflexivity.
  - unfold int_as_double. apply negb_true_iff in Ha. rewrite Ha.
    eexists; reflexivity.
Qed.

(** *** Numbers of either kind *)

Lemma is_number_num_square v : is_number (num_square pow2 v) = is_number v.
Proof. destruct v; reflexivity. Qed.

Lemma is_number_num_add a b :
  is_number a = true -> is_number b = true -> is_number (num_add a b) = true.
Proof. destruct a, b; simpl; intros; (discriminate || reflexivity). Qed.

Lemma nonneg_number_num_square v :
  (forall a, nonneg (pow2 a) = true) ->
  is_number v = true -> nonneg_number (num_square pow2 v) = true.
Proof.
  intros Hpow. destruct v as [f | n | s |]; simpl; intros H; try discriminate.
  - apply float_sq_nonneg, Hpow.
  - apply Z.leb_le. nia.
Qed.

Lemma nonneg_number_num_add a b :
  nonneg_number a = true -> nonneg_number b = true ->
  nonneg_number (num_add a b) = true.
Proof.
  destruct a as [x | m | |], b as [y | n | |]; simpl; intros Ha Hb;
    try discriminate.
  - apply fadd_nonneg; assumption.
  - apply fadd_nonneg; [assumption |]. apply of_Z_nonneg, Z.leb_le, Hb.
  - apply fadd_nonneg; [| assumption]. apply of_Z_nonneg, Z.leb_le, Ha.
  - apply Z.leb_le. apply Z.leb_le in Ha, Hb. lia.
Qed.

Lemma nonneg_number_double v :
  nonneg_number v = true -> nonneg (num_double v) = true.
Proof.
  destruct v as [f | n | |]; simpl; intros H; try discriminate.
  - exact H.
  - apply of_Z_nonneg, Z.leb_le, H.
Qed.

Lemma nonneg_number_is_number v : nonneg_number v = true -> is_number v = true.
Proof. destruct v; simpl; intros H; (discriminate || reflexivity). Qed.

Lemma py_pow2_in_range v w :
  is_number v = true -> pow_in_range pow2 v = true ->
  py_pow2 pow2 v w = (Returned (num_square pow2 v), w).
Proof.
  destruct v as [f | n | s |]; simpl; intros Hn Hr; try discriminate.
  - apply negb_true_iff in Hr. rewrite (float_pow2_fits f Hr). reflexivity.
  - reflexivity.
Qed.

Lemma py_pow2_out_of_range v w :
  pow_in_range pow2 v = false -> py_pow2 pow2 v w = (Raised OverflowError, w).
Proof.
  destruct v as [f | n | s |]; simpl; intros Hr; try discriminate.
  apply negb_false_iff in Hr. rewrite (float_pow2_overflows f Hr). reflexivity.
Qed.

Lemma py_add_in_range a b w :
  is_number a = true -> is_number b = true -> add_in_range a b = true ->
  py_add a b w = (Returned (num_add a b), w).
Proof.
  destruct a as [x | m | |], b as [y | n | |]; simpl; intros Ha Hb Hr;
    try discriminate; try reflexivity.
  - unfold int_as_double. apply negb_true_iff in Hr. rewrite Hr. reflexivity.
  - unfold int_as_double. apply negb_true_iff in Hr. rewrite Hr. reflexivity.
Qed.

Lemma py_add_out_of_range a b w :
  add_in_range a b = false -> py_add a b w = (Raised OverflowError, w).
Proof.
  destruct a as [x | m | |], b as [y | n | |]; simpl; intros Hr;
    try discriminate.
  - unfold int_as_double. apply negb_false_iff in Hr. rewrite Hr. reflexivity.
  - unfold int_as_double. apply negb_false_iff in Hr. rewrite Hr. reflexivity.
Qed.

Lemma as_double_in_range v :
  is_number v = true -> double_in_range v = true ->
  as_double v = Returned (num_double v).
Proof.
  destruct v as [f | n | |]; simpl; intros Hn Hr; try discriminate.
  - reflexivity.
  - unfold int_as_double. apply negb_true_iff in Hr. rewrite Hr. reflexivity.
Qed.

Lemma as_double_out_of_range v :
  double_in_range v = false -> as_double v = Raised OverflowError.
Proof.
  destruct v as [f | n | |]; simpl; intros Hr; try discriminate.
  unfold int_as_double. apply negb_false_iff in Hr. rewrite Hr. reflexivity.
Qed.

Lemma math_sqrt_in_range v w :
  nonneg_number v = true -> double_in_range v = true ->
  math_sqrt v w = (Returned (fsqrt (num_double v)), w).
Proof.
  intros Hv Hr. unfold math_sqrt, bind, lift.
  rewrite (as_double_in_range v (nonneg_number_is_number v Hv) Hr).
  rewrite (nonneg_number_double v Hv). reflexivity.
Qed.

Lemma math_sqrt_out_of_range v w :
  double_in_range v = false -> math_sqrt v w = (Raised OverflowError, w).
Proof.
  intros Hr. unfold math_sqrt, bind, lift.
  rewrite (as_double_out_of_range v Hr). reflexivity.
Qed.

Lemma bind_returned {A B} (m : M A) (k : A -> M B) w a w' :
  m w = (Returned a, w') -> bind m k w = k a w'.
Proof. intros H. unfold bind. rewrite H. reflexivity. Qed.

Lemma bind_raised {A B} (m : M A) (k : A -> M B) w e w' :
  m w = (Raised e, w') -> bind m k w = (Raised e, w').
Proof. intros H. unfold bind. rewrite H. reflexivity. Qed.

(** The sum of line 36 on numbers, when its first five operations stay
    in range. *)
Lemma sum_of_squares_in_range x y z w :
  is_number x = true -> is_number y = true -> is_number z = true ->
  pow_in_range pow2 x = true -> pow_in_range pow2 y = true ->
  add_in_range (num_square pow2 x) (num_square pow2 y) = true ->
  pow_in_range pow2 z = true ->
  add_in_range (num_add (num_square pow2 x) (num_square pow2 y))
               (num_square pow2 z) = true ->
  sum_of_squares pow2 x y z w
  = (Returned (num_add (num_add (num_square pow2 x) (num_square pow2 y))
                       (num_square pow2 z)), w).
Proof.
  intros Nx Ny Nz Px Py Axy Pz Az. unfold sum_of_squares.
  rewrite (bind_returned _ _ w _ w (py_pow2_in_range x w Nx Px)).
  rewrite (bind_returned _ _ w _ w (py_pow2_in_range y w Ny Py)).
  assert (Nx2 : is_number (num_square pow2 x) = true)
    by (rewrite is_number_num_square; exact Nx).
  assert (Ny2 : is_number (num_square pow2 y) = true)
    by (rewrite is_number_num_square; exact Ny).
  assert (Nz2 : is_number (num_square pow2 z) = true)
    by (rewrite is_number_num_square; exact Nz).
  rewrite (bind_returned _ _ w _ w (py_add_in_range _ _ w Nx2 Ny2 Axy)).
  rewrite (bind_returned _ _ w _ w (py_pow2_in_range z w Nz Pz)).
  apply py_add_in_range; [apply is_number_num_add; assumption | assumption | assumption].
Qed.

Lemma sum_of_squares_nonneg x y z :
  (forall a, nonneg (pow2 a) = true) ->
  is_number x = true -> is_number y = true -> is_number z = true ->
  nonneg_number (num_add (num_add (num_square pow2 x) (num_square pow2 y))
                         (num_square pow2 z)) = true.
Proof.
  intros Hpow Nx Ny Nz.
  repeat apply nonneg_number_num_add; apply nonneg_number_num_square; assumption.
Qed.

Lemma speed_in_range_parts x y z :
  speed_in_range pow2 x y z = true ->
  pow_in_range pow2 x = true /\ pow_in_range pow2 y = true
  /\ add_in_range (num_square pow2 x) (num_square pow2 y) = true
  /\ pow_in_range pow2 z = true
  /\ add_in_range (num_add (num_square pow2 x) (num_square pow2 y))
                  (num_square pow2 z) = true
  /\ double_in_range (num_add (num_add (num_square pow2 x) (num_square pow2 y))
                              (num_square pow2 z)) = true.
Proof.
  unfold speed_in_range. cbv zeta. rewrite !andb_true_iff. tauto.
Qed.

(** The run on three floats whose squares are known. *)
Lemma float_pow2_finite s m e r :
  SFeqb (S754_finite false m e) one = false ->
  pow2 (S754_finite false m e) = r -> is_inf r = false ->
  float_pow2 pow2 (S754_finite s m e) = Returned r.
Proof. intros H1 Hr Hi. unfold float_pow2. rewrite H1, Hr, Hi. reflexivity. Qed.

Lemma calc_speed_3d_floats_at x y z rx ry rz w :
  float_pow2 pow2 x = Returned rx -> float_pow2 pow2 y = Returned ry ->
  float_pow2 pow2 z = Returned rz ->
  nonneg (fadd (fadd rx ry) rz) = true ->
  calc_speed_3d pow2 (PyFloat x) (PyFloat y) (PyFloat z) w
  = (Returned (fsqrt (fadd (fadd rx ry) rz)), w).
Proof.
  intros Hx Hy Hz Hn.
  unfold calc_speed_3d, try_except, bind, sum_of_squares, bind, py_pow2.
  rewrite Hx, Hy. cbn [ret py_add]. rewrite Hz. cbn [ret py_add].
  rewrite (math_sqrt_float _ w Hn). reflexivity.
Qed.

(** [calc_speed_3d] on numbers in range. *)
Lemma calc_speed_3d_in_range x y z w :
  (forall a, nonneg (pow2 a) = true) ->
  is_number x = true -> is_number y = true -> is_number z = true ->
  speed_in_range pow2 x y z = true ->
  calc_speed_3d pow2 x y z w
  = (Returned
       (fsqrt (num_double
                 (num_add (num_add (num_square pow2 x) (num_square pow2 y))
                          (num_square pow2 z)))), w).
Proof.
  intros Hpow Nx Ny Nz Hr.
  destruct (speed_in_range_parts x y z Hr) as [Px [Py [Axy [Pz [Az Dz]]]]].
  unfold calc_speed_3d, try_except.
  rewrite (bind_returned _ _ w _ w
             (sum_of_squares_in_range x y z w Nx Ny Nz Px Py Axy Pz Az)).
  rewrite (math_sqrt_in_range _ w (sum_of_squares_nonneg x y z Hpow Nx Ny Nz) Dz).
  reflexivity.
Qed.

Lemma sum_of_squares_out_of_range x y z w :
  is_number x = true -> is_number y = true -> is_number z = true ->
  pow_in_range pow2 x && pow_in_range pow2 y
  && add_in_range (num_square pow2 x) (num_square pow2 y)
  && pow_in_range pow2 z
  && add_in_range (num_add (num_square pow2 x) (num_square pow2 y))
                  (num_square pow2 z) = false ->
  sum_of_squares pow2 x y z w = (Raised OverflowError, w).
Proof.
  intros Nx Ny Nz Hr.
  assert (Nx2 : is_number (num_square pow2 x) = true)
    by (rewrite is_number_num_square; exact Nx).
  assert (Ny2 : is_number (num_square pow2 y) = true)
    by (rewrite is_number_num_square; exact Ny).
  unfold sum_of_squares.
  destruct (pow_in_range pow2 x) eqn:Px;
    [| apply bind_raised, py_pow2_out_of_range, Px].
  rewrite (bind_returned _ _ w _ w (py_pow2_in_range x w Nx Px)).
  destruct (pow_in_range pow2 y) eqn:Py;
    [| apply bind_raised, py_pow2_out_of_range, Py].
  rewrite (bind_returned _ _ w _ w (py_pow2_in_range y w Ny Py)).
  destruct (add_in_range (num_square pow2 x) (num_square pow2 y)) eqn:Axy;
    [| apply bind_raised, py_add_out_of_range, Axy].
  rewrite (bind_returned _ _ w _ w (py_add_in_range _ _ w Nx2 Ny2 Axy)).
  destruct (pow_in_range pow2 z) eqn:Pz;
    [| apply bind_raised, py_pow2_out_of_range, Pz].
  rewrite (bind_returned _ _ w _ w (py_pow2_in_range z w Nz Pz)).
  simpl in Hr. apply py_add_out_of_range, Hr.
Qed.

(** [calc_speed_3d] on numbers out of range. *)
Lemma calc_speed_3d_out_of_range x y z w :
  is_number x = true -> is_number y = true -> is_number z = true ->
  speed_in_range pow2 x y z = false ->
  calc_speed_3d pow2 x y z w = (Raised OverflowError, w).
Proof.
  intros Nx Ny Nz Hr. unfold speed_in_range in Hr. cbv zeta in Hr.
  unfold calc_speed_3d, try_except.
  destruct (pow_in_range pow2 x && pow_in_range pow2 y
            && add_in_range (num_square pow2 x) (num_square pow2 y)
            && pow_in_range pow2 z
            && add_in_range (num_add (num_square pow2 x) (num_square pow2 y))
                            (num_square pow2 z)) eqn:Hsum.
  - rewrite !andb_true_iff in Hsum.
    destruct Hsum as [[[[Px Py] Axy] Pz] Az].
    rewrite (bind_returned _ _ w _ w
               (sum_of_squares_in_range x y z w Nx Ny Nz Px Py Axy Pz Az)).
    simpl in Hr. rewrite (math_sqrt_out_of_range _ w Hr). reflexivity.
  - rewrite (bind_raised _ _ w _ w
               (sum_of_squares_out_of_range x y z w Nx Ny Nz Hsum)).
    reflexivity.
Qed.

End Operators.

(** ** [calc_speed_3d] *)

(** C7, as the code has it.  On numbers, floats and ints in any
    mixture, [calc_speed_3d] returns the square root of the sum of the
    three squares and logs nothing, as long as no operation of line 36
    leaves the range of a double; where one does, [OverflowError]
    leaves the function.  The operations are those of Python: the
    square of a float is what C's [pow] returns, the square and the sum
    of ints are exact, an int next to a float is converted, and sum and
    root are rounded to a double.  In particular [speed(3, 4, 0) = 5.0]
    and [speed(6, 0, 8) = 10.0], on ints whatever [pow] is, and on
    floats once [pow] gives the four squares exactly. *)
Theorem calc_speed_3d_magnitude :
  forall pow2 : spec_float -> spec_float,
    (forall x y z w,
        (forall a, nonneg (pow2 a) = true) ->
        is_number x = true -> is_number y = true -> is_number z = true ->
        speed_in_range pow2 x y z = true ->
        calc_speed_3d pow2 x y z w
        = (Returned
             (fsqrt (num_double
                       (num_add (num_add (num_square pow2 x) (num_square pow2 y))
                                (num_square pow2 z)))), w))
    /\ (forall x y z w,
          is_number x = true -> is_number y = true -> is_number z = true ->
          speed_in_range pow2 x y z = false ->
          calc_speed_3d pow2 x y z w = (Raised OverflowError, w))
    /\ (forall x y z w,
          (forall a, nonneg (pow2 a) = true) ->
          square_overflows pow2 x = false -> square_overflows pow2 y = false ->
          square_overflows pow2 z = false ->
          calc_speed_3d pow2 (PyFloat x) (PyFloat y) (PyFloat z) w
          = (Returned (fsqrt (fadd (fadd (float_sq pow2 x) (float_sq pow2 y))
                                   (float_sq pow2 z))), w))
    /\ (forall a b c w,
          is_inf (of_Z (a * a + b * b + c * c)) = false ->
          calc_speed_3d pow2 (PyInt a) (PyInt b) (PyInt c) w
          = (Returned (fsqrt (of_Z (a * a + b * b + c * c))), w))
    /\ (pow2 (of_Z 3) = of_Z 9 -> pow2 (of_Z 4) = of_Z 16 ->
        calc_speed_3d pow2 (PyFloat (of_Z 3)) (PyFloat (of_Z 4)) (PyFloat (of_Z 0)) []
        = (Returned (of_Z 5), []))
    /\ (pow2 (of_Z 6) = of_Z 36 -> pow2 (of_Z 8) = of_Z 64 ->
        calc_speed_3d pow2 (PyFloat (of_Z 6)) (PyFloat (of_Z 0)) (PyFloat (of_Z 8)) []
        = (Returned (of_Z 10), []))
    /\ calc_speed_3d pow2 (PyInt 3) (PyInt 4) (PyInt 0) [] = (Returned (of_Z 5), [])
    /\ calc_speed_3d pow2 (PyInt 6) (PyInt 0) (PyInt 8) [] = (Returned (of_Z 10), []).
Proof.
  intros pow2.
  split; [| split; [| split; [| split; [| split; [| split; [| split]]]]]].
  - intros x y z w Hpow. apply calc_speed_3d_in_range, Hpow.
  - intros x y z w. apply calc_speed_3d_out_of_range.
  - intros x y z w Hpow Hx Hy Hz. unfold calc_speed_3d, try_except, bind.
    rewrite (sum_of_squares_floats pow2 x y z w Hx Hy Hz).
    rewrite (math_sqrt_float _ w (sum_float_squares_nonneg pow2 x y z Hpow)).
    reflexivity.
  - intros a b c w Hfin. unfold calc_speed_3d, try_except, bind.
    rewrite sum_of_squares_ints.
    rewrite (math_sqrt_int _ w); [reflexivity | nia | exact Hfin].
  - intros H3 H4.
    rewrite (calc_speed_3d_floats_at pow2 _ _ _ (of_Z 9) (of_Z 16) (S754_zero false));
      [reflexivity | | | reflexivity | reflexivity].
    + apply float_pow2_finite; [reflexivity | exact H3 | reflexivity].
    + apply float_pow2_finite; [reflexivity | exact H4 | reflexivity].
  - intros H6 H8.
    rewrite (calc_speed_3d_floats_at pow2 _ _ _ (of_Z 36) (S754_zero false) (of_Z 64));
      [reflexivity | | reflexivity | | reflexivity].
    + apply float_pow2_finite; [reflexivity | exact H6 | reflexivity].
    + apply float_pow2_finite; [reflexivity | exact H8 | reflexivity].
  - vm_compute. reflexivity.
  - vm_compute. reflexivity.
Qed.

Lemma calc_speed_3d_magnitude_witness :
  calc_speed_3d Sample.pow2 (PyInt 3) (PyFloat (of_Z 4)) (PyInt 12) []
  = (Returned (of_Z 13), [])
  /\ calc_speed_3d Sample.pow2
       (PyFloat (of_Z 3)) (PyFloat (of_Z 4)) (PyFloat (of_Z 0)) []
     = (Returned (of_Z 5), []).
Proof.
  split.
  - apply (proj1 (calc_speed_3d_magnitude Sample.pow2)
             (PyInt 3) (PyFloat (of_Z 4)) (PyInt 12) []).
    + exact sample_pow2_nonneg.
    + reflexivity.
    + reflexivity.
    + reflexivity.
    + vm_compute. reflexivity.
  - apply (proj1 (proj2 (proj2 (proj2 (proj2 (calc_speed_3d_magnitude Sample.pow2)))))).
    + vm_compute. reflexivity.
    + vm_compute. reflexivity.
Defined.

(** C7 as stated fails on a numeric input: the square of [1e200] is
    beyond the largest double, [**] raises [OverflowError], and the
    handler of [calc_speed_3d] only takes [TypeError]. *)
Lemma calc_speed_3d_overflow :
  is_number (PyFloat float_1e200) = true
  /\ is_inf (Sample.pow2 float_1e200) = true
  /\ calc_speed_3d Sample.pow2
       (PyFloat float_1e200) (PyFloat (of_Z 0)) (PyFloat (of_Z 0)) []
     = (Raised OverflowError, []).
Proof. repeat split; vm_compute; reflexivity. Qed.

(** C8, as the code has it.  When some argument is not a number and
    the squares of the numeric arguments stay in the range of a double,
    [calc_speed_3d] returns [0.0] and logs one error.  There is one
    other error condition: [OverflowError] is the only exception that
    leaves the function, [pow] returning no negative number. *)
Theorem calc_speed_3d_non_numeric :
  forall pow2 : spec_float -> spec_float,
    (forall x y z w,
        is_number x && is_number y && is_number z = false ->
        square_fits pow2 x = true -> square_fits pow2 y = true ->
        square_fits pow2 z = true ->
        calc_speed_3d pow2 x y z w
        = (Returned (S754_zero false), w ++ [LogRecord ERROR speed_error_msg]))
    /\ ((forall a, nonneg (pow2 a) = true) ->
        forall x y z w e,
          fst (calc_speed_3d pow2 x y z w) = Raised e -> e = OverflowError).
Proof.
  intros pow2. split.
  - intros x y z w Hnum Fx Fy Fz.
    unfold calc_speed_3d, try_except, bind, sum_of_squares, bind.
    destruct (is_number x) eqn:Nx;
      [| rewrite (py_pow2_not_number pow2 x w Nx); reflexivity].
    destruct (py_pow2_fits pow2 x w Nx Fx) as [x2 [Ex Ax]]. rewrite Ex.
    destruct (is_number y) eqn:Ny;
      [| rewrite (py_pow2_not_number pow2 y w Ny); reflexivity].
    destruct (py_pow2_fits pow2 y w Ny Fy) as [y2 [Ey Ay]]. rewrite Ey.
    destruct (py_add_addable x2 y2 w Ax Ay) as [s Es]. rewrite Es.
    simpl in Hnum. rewrite (py_pow2_not_number pow2 z w Hnum). reflexivity.
  - intros Hpow x y z w e. unfold calc_speed_3d, try_except, bind.
    destruct (sum_of_squares_square_like pow2 x y z w Hpow) as [o [Eo Ho]].
    rewrite Eo. destruct o as [s | e'].
    + destruct (math_sqrt_square_like s w Ho) as [[r Er] | Er]; rewrite Er;
        simpl; congruence.
    + inversion Ho; subst; simpl; congruence.
Qed.

Lemma calc_speed_3d_non_numeric_witness :
  calc_speed_3d Sample.pow2 (PyStr "x") (PyStr "y") (PyStr "z") []
  = (Returned (S754_zero false), [LogRecord ERROR speed_error_msg])
  /\ (forall x y z w e,
        fst (calc_speed_3d Sample.pow2 x y z w) = Raised e -> e = OverflowError).
Proof.
  split.
  - exact (proj1 (calc_speed_3d_non_numeric Sample.pow2)
             (PyStr "x") (PyStr "y") (PyStr "z") []
             eq_refl eq_refl eq_refl eq_refl).
  - exact (proj2 (calc_speed_3d_non_numeric Sample.pow2) sample_pow2_nonneg).
Defined.

(** C8 as stated fails where a non-numeric argument follows a float
    whose square overflows: the [OverflowError] of the first square
    leaves the function before the string is looked at. *)
Lemma calc_speed_3d_overflow_before_type_error :
  is_number (PyStr "y") = false
  /\ calc_speed_3d Sample.pow2 (PyFloat float_1e200) (PyStr "y") (PyStr "z") []
     = (Raised OverflowError, []).
Proof. split; vm_compute; reflexivity. Qed.

(** ** [current_location] *)

Lemma Qltb_true a b : Qltb a b = true <-> (a < b)%Q.
Proof.
  unfold Qltb. rewrite negb_true_iff. split.
  - intros H. apply Qnot_le_lt. intros Hle.
    apply Qle_bool_iff in Hle. congruence.
  - intros H. destruct (Qle_bool b a) eqn:E; [| reflexivity].
    apply Qle_bool_iff in E. exfalso. exact (Qlt_not_le _ _ H E).
Qed.

Lemma Qltb_false a b : Qltb a b = false <-> (b <= a)%Q.
Proof.
  unfold Qltb. rewrite negb_false_iff. apply Qle_bool_iff.
Qed.

Lemma list_getitem_nonneg {A} (l : list A) (i : nat) (a : A) w :
  l !! i = Some a -> list_getitem l (Z.of_nat i) w = (Returned a, w).
Proof.
  intros Hl. pose proof (lookup_lt_Some l i a Hl) as Hlt.
  unfold list_getitem.
  destruct (Z.of_nat i <? 0) eqn:Hneg; [apply Z.ltb_lt in Hneg; lia |].
  replace ((0 <=? Z.of_nat i) && (Z.of_nat i <? Z.of_nat (length l))) with true.
  - rewrite Nat2Z.id, Hl. reflexivity.
  - symmetry. apply andb_true_iff. split; [apply Z.leb_le | apply Z.ltb_lt]; lia.
Qed.

Lemma list_getitem_minus_one {A} (l : list A) (a : A) w :
  last l = Some a -> list_getitem l (-1) w = (Returned a, w).
Proof.
  intros Hl. rewrite last_lookup in Hl.
  pose proof (lookup_lt_Some _ _ _ Hl) as Hlt.
  unfold list_getitem. change (-1 <? 0) with true. cbv iota.
  replace ((0 <=? -1 + Z.of_nat (length l))
           && (-1 + Z.of_nat (length l) <? Z.of_nat (length l))) with true.
  - replace (Z.to_nat (-1 + Z.of_nat (length l))) with (Nat.pred (length l)) by lia.
    rewrite Hl. reflexivity.
  - symmetry. apply andb_true_iff. split; [apply Z.leb_le | apply Z.ltb_lt]; lia.
Qed.

Lemma list_getitem_empty {A} (i : Z) w :
  list_getitem (@nil A) i w = (Raised IndexError, w).
Proof.
  unfold list_getitem.
  destruct ((0 <=? (if i <? 0 then i + Z.of_nat (length (@nil A)) else i))
            && ((if i <? 0 then i + Z.of_nat (length (@nil A)) else i)
                <? Z.of_nat (length (@nil A)))); reflexivity.
Qed.

Lemma count_past_le now ts : (count_past now ts <= length ts)%nat.
Proof.
  induction ts as [| t ts IH]; simpl; [lia |].
  destruct (Qltb now t); simpl; lia.
Qed.

Lemma count_past_before now ts j t :
  (j < count_past now ts)%nat -> ts !! j = Some t -> (t <= now)%Q.
Proof.
  revert j. induction ts as [| t0 ts IH]; simpl; intros j Hj Hl; [lia |].
  destruct (Qltb now t0) eqn:E; [lia |].
  destruct j as [| j]; simpl in Hl.
  - injection Hl as <-. apply Qltb_false, E.
  - apply (IH j); [lia | exact Hl].
Qed.

Lemma count_past_at now ts t :
  ts !! count_past now ts = Some t -> (now < t)%Q.
Proof.
  induction ts as [| t0 ts IH]; simpl; [discriminate |].
  destruct (Qltb now t0) eqn:E; simpl.
  - intros Hl. injection Hl as <-. apply Qltb_true, E.
  - exact IH.
Qed.

Lemma count_past_after now ts j t :
  ascending ts -> (count_past now ts <= j)%nat -> ts !! j = Some t ->
  (now < t)%Q.
Proof.
  intros Hasc Hj Hl.
  destruct (ts !! count_past now ts) as [tn |] eqn:En.
  - apply Qlt_le_trans with tn; [apply (count_past_at now ts), En |].
    exact (Hasc _ _ _ _ Hj En Hl).
  - apply lookup_ge_None in En. apply lookup_lt_Some in Hl.
    pose proof (count_past_le now ts). lia.
Qed.

Section CurrentLocation.

Variable mktime : struct_time -> Q.
Variable str_time : Q -> string.

Local Abbreviation scan := (scan_epochs mktime str_time).
Local Abbreviation locate := (current_location mktime str_time).
Local Abbreviation epoch_time := (epoch_time_of mktime).

(** One turn of the loop on a record whose epoch parses. *)
Lemma scan_epochs_parsed now key item rest t k w :
  epoch_time key item = Some t ->
  scan now key (item :: rest) k w
  = if Qltb now t
    then (Returned k, w ++ [LogRecord DEBUG ("epoch time: " +:+ str_time t)])
    else scan now key rest (k + 1) w.
Proof.
  unfold epoch_time_of. intros Ht.
  cbn [scan_epochs]. unfold bind at 1. unfold getitem.
  destruct (item !! key) as [[f | n | s |] |]; try discriminate.
  cbn [ret str_prefix]. unfold bind at 1. cbn [ret]. unfold bind at 1.
  destruct (strptime (slice 0 17 s)) as [st |]; [| discriminate].
  cbn [ret]. injection Ht as <-.
  destruct (Qltb now (mktime st)); reflexivity.
Qed.

(** One turn of the loop on a record whose epoch does not parse. *)
Lemma scan_epochs_unparsable now key item rest k w :
  epoch_unparsable key item ->
  scan now key (item :: rest) k w = (Raised ValueError, w).
Proof.
  intros [s [Hs Hp]].
  cbn [scan_epochs]. unfold bind at 1. unfold getitem. rewrite Hs.
  cbn [ret str_prefix]. unfold bind at 1. cbn [ret]. unfold bind at 1.
  rewrite Hp. reflexivity.
Qed.

(** When every record parses, the loop leaves [curr_index] at the
    number of leading records that are not after [now]; it logs at
    most the epoch it stopped at. *)
Lemma scan_epochs_count now key items ts k w :
  Forall2 (fun item t => epoch_time key item = Some t) items ts ->
  exists w',
    scan now key items k w
    = (Returned (k + Z.of_nat (count_past now ts)), w').
Proof.
  intros H. revert k. induction H as [| item t items ts Ht _ IH]; intros k.
  - exists w. cbn [count_past Z.of_nat]. rewrite Z.add_0_r. reflexivity.
  - rewrite (scan_epochs_parsed now key item items t k w Ht).
    cbn [count_past]. destruct (Qltb now t).
    + eexists. cbn [Z.of_nat]. rewrite Z.add_0_r. reflexivity.
    + destruct (IH (k + 1)) as [w' Hw']. exists w'. rewrite Hw'.
      rewrite Nat2Z.inj_succ. do 2 f_equal. lia.
Qed.

(** A prefix of records that parse and are not after [now] is walked
    through without a word in the log. *)
Lemma scan_epochs_past_prefix now key pre ts items k w :
  Forall2 (fun item t => epoch_time key item = Some t) pre ts ->
  Forall (fun t => (t <= now)%Q) ts ->
  scan now key (pre ++ items) k w
  = scan now key items (k + Z.of_nat (length pre)) w.
Proof.
  intros H. revert k. induction H as [| item t pre ts Ht _ IH]; intros k Hpast.
  - cbn [app length Z.of_nat]. rewrite Z.add_0_r. reflexivity.
  - inversion Hpast as [| ? ? Hle Hrest]; subst.
    change ((item :: pre) ++ items) with (item :: (pre ++ items)).
    rewrite (scan_epochs_parsed now key item _ t k w Ht).
    apply Qltb_false in Hle. rewrite Hle.
    rewrite (IH (k + 1) Hrest). f_equal. cbn [length].
    rewrite Nat2Z.inj_succ. lia.
Qed.

(** [current_location] once the loop has returned. *)
Lemma current_location_scanned now l key w i w' :
  scan now key l 0 (w ++ [LogRecord DEBUG ("current time: " +:+ str_time now)])
  = (Returned i, w') ->
  locate now l key w = list_getitem l (i - 1) w'.
Proof.
  intros H. unfold current_location, bind at 1, logging_debug.
  unfold bind at 1, try_except, bind at 1. rewrite H. reflexivity.
Qed.

(** [current_location] once the loop has met a [ValueError]. *)
Lemma current_location_value_error now l key w w' :
  scan now key l 0 (w ++ [LogRecord DEBUG ("current time: " +:+ str_time now)])
  = (Raised ValueError, w') ->
  locate now l key w
  = (Returned ∅,
     w' ++ [LogRecord ERROR (time_format_msg "Empty python dictionary returned.")]).
Proof.
  intros H. unfold current_location, bind at 1, logging_debug.
  unfold bind at 1, try_except, bind at 1. rewrite H. reflexivity.
Qed.

(** C1.  For a non-empty list of records whose epochs all parse, in
    ascending order of the time stamps the code computes for them,
    and a current time at or after the first one, [current_location]
    returns the record at the last index whose time stamp is not
    after the current time: that record is not after it, and every
    later record is strictly after it. *)
Theorem current_location_most_recent :
  forall (now : Q) (l : list dict) (key : string) (ts : list Q) w,
    l <> [] ->
    Forall2 (fun item t => epoch_time key item = Some t) l ts ->
    ascending ts ->
    (forall t0, ts !! 0%nat = Some t0 -> (t0 <= now)%Q) ->
    exists (i : nat) (d : dict) (ti : Q),
      fst (locate now l key w) = Returned d
      /\ l !! i = Some d /\ ts !! i = Some ti /\ (ti <= now)%Q
      /\ forall j tj, (i < j)%nat -> ts !! j = Some tj -> (now < tj)%Q.
Proof.
  intros now l key ts w Hne Hall Hasc Hfirst.
  destruct (scan_epochs_count now key l ts 0
              (w ++ [LogRecord DEBUG ("current time: " +:+ str_time now)]) Hall)
    as [w' Hscan].
  rewrite (current_location_scanned now l key w _ w' Hscan).
  pose proof (Forall2_length _ _ _ Hall) as Hlen.
  pose proof (count_past_le now ts) as Hle.
  assert (Hpos : (1 <= count_past now ts)%nat).
  { destruct Hall as [| item t0 l' ts' Ht _]; [congruence |].
    cbn [count_past].
    assert (E : Qltb now t0 = false) by (apply Qltb_false, Hfirst; reflexivity).
    rewrite E. lia. }
  set (n := count_past now ts) in *.
  destruct (lookup_lt_is_Some_2 l (n - 1)%nat) as [d Hd]; [lia |].
  destruct (lookup_lt_is_Some_2 ts (n - 1)%nat) as [ti Hti]; [lia |].
  exists (n - 1)%nat, d, ti.
  replace (0 + Z.of_nat n - 1) with (Z.of_nat (n - 1)) by lia.
  rewrite (list_getitem_nonneg l (n - 1) d w' Hd).
  repeat split; try assumption.
  - apply (count_past_before now ts (n - 1)%nat); [subst n; lia | exact Hti].
  - intros j tj Hj Htj.
    apply (count_past_after now ts j tj Hasc); [subst n; lia | exact Htj].
Qed.

(** C2.  When the first record parses and is strictly after the
    current time, the loop stops with [curr_index] at 0 and index
    [-1] yields the last record of the list; a list of one record
    that parses yields that record on either side of the current
    time. *)
Theorem current_location_wraparound :
  (forall (now : Q) (item : dict) (rest : list dict) (key : string) (t0 : Q) w,
      epoch_time key item = Some t0 -> (now < t0)%Q ->
      exists d, last (item :: rest) = Some d
                /\ fst (locate now (item :: rest) key w) = Returned d)
  /\ (forall (now : Q) (item : dict) (key : string) (t : Q) w,
        epoch_time key item = Some t ->
        fst (locate now [item] key w) = Returned item).
Proof.
  split.
  - intros now item rest key t0 w Ht Hlt.
    destruct (last (item :: rest)) as [d |] eqn:Hlast;
      [| apply last_None in Hlast; discriminate].
    exists d. split; [reflexivity |].
    rewrite (current_location_scanned now (item :: rest) key w 0
               (w ++ [LogRecord DEBUG ("current time: " +:+ str_time now)]
                  ++ [LogRecord DEBUG ("epoch time: " +:+ str_time t0)])).
    + change (0 - 1) with (-1).
      rewrite (list_getitem_minus_one _ d _ Hlast). reflexivity.
    + rewrite (scan_epochs_parsed now key item rest t0 0 _ Ht).
      apply Qltb_true in Hlt. rewrite Hlt, <- app_assoc. reflexivity.
  - intros now item key t w Ht.
    destruct (Qltb now t) eqn:E.
    + rewrite (current_location_scanned now [item] key w 0
                 (w ++ [LogRecord DEBUG ("current time: " +:+ str_time now)]
                    ++ [LogRecord DEBUG ("epoch time: " +:+ str_time t)])).
      * reflexivity.
      * rewrite (scan_epochs_parsed now key item [] t 0 _ Ht), E, <- app_assoc.
        reflexivity.
    + rewrite (current_location_scanned now [item] key w 1
                 (w ++ [LogRecord DEBUG ("current time: " +:+ str_time now)])).
      * reflexivity.
      * rewrite (scan_epochs_parsed now key item [] t 0 _ Ht), E. reflexivity.
Qed.

(** C3.  A [ValueError] of [strptime] never leaves the function.  If
    no record of a non-empty list has an epoch that parses, the result
    is the empty dictionary and one error is logged; so it is when the
    first epoch that does not parse comes after records that parse and
    are not after the current time.  The epoch ["2024-045"], which has
    no time of day, is such a record. *)
Theorem current_location_parse_failure :
  (forall (now : Q) (l : list dict) (key : string) w,
      l <> [] -> Forall (epoch_unparsable key) l ->
      locate now l key w
      = (Returned ∅,
         w ++ [LogRecord DEBUG ("current time: " +:+ str_time now);
               LogRecord ERROR (time_format_msg "Empty python dictionary returned.")]))
  /\ (forall (now : Q) (pre : list dict) (ts : list Q) (item : dict)
             (post : list dict) (key : string) w,
        Forall2 (fun item t => epoch_time key item = Some t) pre ts ->
        Forall (fun t => (t <= now)%Q) ts ->
        epoch_unparsable key item ->
        locate now (pre ++ item :: post) key w
        = (Returned ∅,
           w ++ [LogRecord DEBUG ("current time: " +:+ str_time now);
                 LogRecord ERROR (time_format_msg "Empty python dictionary returned.")]))
  /\ (forall (now : Q) w,
        locate now [Sample.record "2024-045"] "epoch" w
        = (Returned ∅,
           w ++ [LogRecord DEBUG ("current time: " +:+ str_time now);
                 LogRecord ERROR (time_format_msg "Empty python dictionary returned.")])).
Proof.
  assert (Hgen : forall (now : Q) (pre : list dict) (ts : list Q) (item : dict)
             (post : list dict) (key : string) w,
        Forall2 (fun item t => epoch_time key item = Some t) pre ts ->
        Forall (fun t => (t <= now)%Q) ts ->
        epoch_unparsable key item ->
        locate now (pre ++ item :: post) key w
        = (Returned ∅,
           w ++ [LogRecord DEBUG ("current time: " +:+ str_time now);
                 LogRecord ERROR (time_format_msg "Empty python dictionary returned.")])).
  { intros now pre ts item post key w Hpre Hpast Hbad.
    rewrite (current_location_value_error now _ key w
               (w ++ [LogRecord DEBUG ("current time: " +:+ str_time now)])).
    - rewrite <- app_assoc. reflexivity.
    - rewrite (scan_epochs_past_prefix now key pre ts _ 0 _ Hpre Hpast).
      apply scan_epochs_unparsable, Hbad. }
  split; [| split].
  - intros now l key w Hne Hall.
    destruct l as [| item post]; [congruence |].
    inversion Hall as [| ? ? Hbad _]; subst.
    exact (Hgen now [] [] item post key w (List.Forall2_nil _) (List.Forall_nil _) Hbad).
  - exact Hgen.
  - intros now w.
    apply (Hgen now [] [] (Sample.record "2024-045") [] "epoch" w
             (List.Forall2_nil _) (List.Forall_nil _)).
    exists "2024-045". split; reflexivity.
Qed.

(** C10.  On the empty list the loop body never runs, [curr_index]
    stays 0, and [list_of_dicts[-1]] raises [IndexError], which
    nothing catches: neither a record nor the empty dictionary comes
    back. *)
Theorem current_location_empty_list :
  forall (now : Q) (key : string) w,
    locate now [] key w
    = (Raised IndexError,
       w ++ [LogRecord DEBUG ("current time: " +:+ str_time now)]).
Proof.
  intros now key w.
  rewrite (current_location_scanned now [] key w 0
             (w ++ [LogRecord DEBUG ("current time: " +:+ str_time now)]) eq_refl).
  apply list_getitem_empty.
Qed.

End CurrentLocation.

(** The theorems above at the records of the test suite, in a process
    whose time zone is UTC. *)

Lemma ascending_two (a b : Q) : (a <= b)%Q -> ascending [a; b].
Proof.
  intros Hab i j ti tj Hij Hi Hj.
  destruct i as [| [| i]], j as [| [| j]]; simpl in Hi, Hj;
    try discriminate; try lia;
    injection Hi as <-; injection Hj as <-;
    (apply Qle_refl || exact Hab).
Qed.

Lemma current_location_most_recent_witness :
  exists (i : nat) (d : dict) (ti : Q),
    fst (current_location mktime_utc Sample.str_time (inject_Z 1800000000)
           [Sample.record "2024-045T12:00:00.000Z";
            Sample.record "2034-045T12:00:00.000Z"] "epoch" [])
    = Returned d
    /\ [Sample.record "2024-045T12:00:00.000Z";
        Sample.record "2034-045T12:00:00.000Z"] !! i = Some d
    /\ [inject_Z 1707912000; inject_Z 2023531200] !! i = Some ti
    /\ (ti <= inject_Z 1800000000)%Q
    /\ forall j tj, (i < j)%nat ->
         [inject_Z 1707912000; inject_Z 2023531200] !! j = Some tj ->
         (inject_Z 1800000000 < tj)%Q.
Proof.
  apply (current_location_most_recent mktime_utc Sample.str_time
           (inject_Z 1800000000)
           [Sample.record "2024-045T12:00:00.000Z";
            Sample.record "2034-045T12:00:00.000Z"] "epoch"
           [inject_Z 1707912000; inject_Z 2023531200] []).
  - discriminate.
  - repeat constructor.
  - apply ascending_two. unfold Qle. simpl. lia.
  - intros t0 H. injection H as <-. unfold Qle. simpl. lia.
Defined.

Lemma current_location_wraparound_witness :
  exists d,
    last [Sample.record "2034-045T12:00:00.000Z";
          Sample.record "2035-045T12:00:00.000Z"] = Some d
    /\ fst (current_location mktime_utc Sample.str_time (inject_Z 1800000000)
              [Sample.record "2034-045T12:00:00.000Z";
               Sample.record "2035-045T12:00:00.000Z"] "epoch" [])
       = Returned d.
Proof.
  apply (proj1 (current_location_wraparound mktime_utc Sample.str_time)
           (inject_Z 1800000000) (Sample.record "2034-045T12:00:00.000Z")
           [Sample.record "2035-045T12:00:00.000Z"] "epoch"
           (inject_Z 2023531200) []).
  - reflexivity.
  - unfold Qlt. simpl. lia.
Defined.

Lemma current_location_parse_failure_witness :
  current_location mktime_utc Sample.str_time (inject_Z 1800000000)
    [Sample.record "2024-045"; Sample.record "2024-046"] "epoch" []
  = (Returned ∅,
     [LogRecord DEBUG ("current time: " +:+ Sample.str_time (inject_Z 1800000000));
      LogRecord ERROR (time_format_msg "Empty python dictionary returned.")]).
Proof.
  apply (proj1 (current_location_parse_failure mktime_utc Sample.str_time)
           (inject_Z 1800000000)
           [Sample.record "2024-045"; Sample.record "2024-046"] "epoch" []).
  - discriminate.
  - repeat constructor.
    + exists "2024-045". split; reflexivity.
    + exists "2024-046". split; reflexivity.
Defined.


(** ** [find_location] *)

Lemma flt_minus_180_not_fgt_180 v :
  flt v (of_Z (-180)) = true -> fgt v (of_Z 180) = false.
Proof.
  destruct v as [s | s | | s m e].
  - vm_compute. discriminate.
  - destruct s; vm_compute; intros; (discriminate || reflexivity).
  - vm_compute. discriminate.
  - destruct s.
    + intros _. reflexivity.
    + intros H. discriminate H.
Qed.

(** Lines 102 to 105, case by case. *)
Lemma normalize_longitude_cases raw longitude :
  (fgt raw (of_Z 180) = true
   /\ longitude = fadd (of_Z (-180)) (fsub raw (of_Z 180)))
  \/ (flt raw (of_Z (-180)) = true
      /\ longitude = fadd (of_Z 180) (fadd raw (of_Z 180)))
  \/ (fgt raw (of_Z 180) = false /\ flt raw (of_Z (-180)) = false
      /\ longitude = raw) ->
  normalize_longitude raw = longitude.
Proof.
  unfold normalize_longitude.
  intros [[H ->] | [[H ->] | [H1 [H2 ->]]]].
  - rewrite H. reflexivity.
  - rewrite (flt_minus_180_not_fgt_180 raw H), H. reflexivity.
  - rewrite H1, H2. reflexivity.
Qed.

(** *** The fields of a well-formed epoch *)

Lemma is_digit_code c : is_digit c = true -> 48 <= code c <= 57.
Proof.
  unfold is_digit. intros H. apply andb_true_iff in H.
  destruct H as [H1 H2]. apply Z.leb_le in H1, H2. lia.
Qed.

Lemma is_digit_not_space c : is_digit c = true -> is_space c = false.
Proof.
  intros H. pose proof (is_digit_code c H) as Hc. unfold is_space. cbv zeta.
  replace (code c <=? 13) with false by (symmetry; apply Z.leb_gt; lia).
  replace (code c =? 32) with false by (symmetry; apply Z.eqb_neq; lia).
  replace (code c =? 133) with false by (symmetry; apply Z.eqb_neq; lia).
  replace (code c =? 160) with false by (symmetry; apply Z.eqb_neq; lia).
  rewrite andb_false_r. reflexivity.
Qed.

(** [int] on two digits. *)
Lemma int_of_str_two_digits a b :
  is_digit a = true -> is_digit b = true ->
  int_of_str (String a (String b EmptyString))
  = Some (10 * digit_value a + digit_value b).
Proof.
  intros Ha Hb. pose proof (is_digit_code a Ha) as Hc.
  unfold int_of_str. cbn [list_ascii_of_string lstrip].
  rewrite (is_digit_not_space a Ha).
  replace (code a =? 43) with false by (symmetry; apply Z.eqb_neq; lia).
  replace (code a =? 45) with false by (symmetry; apply Z.eqb_neq; lia).
  unfold int_unsigned. rewrite Ha. cbn [int_digits]. rewrite Hb.
  reflexivity.
Qed.

(** In a well-formed epoch the hour and the minute read as ints. *)
Lemma well_formed_epoch_fields epoch :
  well_formed_epoch epoch = true ->
  exists hrs mins,
    int_of_str (slice 9 11 epoch) = Some hrs
    /\ int_of_str (slice 12 14 epoch) = Some mins
    /\ 0 <= hrs <= 99 /\ 0 <= mins <= 99.
Proof.
  unfold well_formed_epoch, epoch_layout. intros H.
  destruct epoch as [| c0 epoch]; [discriminate H |].
  destruct epoch as [| c1 epoch]; [cbn in H; rewrite ?andb_false_r in H; discriminate H |].
  destruct epoch as [| c2 epoch]; [cbn in H; rewrite ?andb_false_r in H; discriminate H |].
  destruct epoch as [| c3 epoch]; [cbn in H; rewrite ?andb_false_r in H; discriminate H |].
  destruct epoch as [| c4 epoch]; [cbn in H; rewrite ?andb_false_r in H; discriminate H |].
  destruct epoch as [| c5 epoch]; [cbn in H; rewrite ?andb_false_r in H; discriminate H |].
  destruct epoch as [| c6 epoch]; [cbn in H; rewrite ?andb_false_r in H; discriminate H |].
  destruct epoch as [| c7 epoch]; [cbn in H; rewrite ?andb_false_r in H; discriminate H |].
  destruct epoch as [| c8 epoch]; [cbn in H; rewrite ?andb_false_r in H; discriminate H |].
  destruct epoch as [| c9 epoch]; [cbn in H; rewrite ?andb_false_r in H; discriminate H |].
  destruct epoch as [| c10 epoch]; [cbn in H; rewrite ?andb_false_r in H; discriminate H |].
  destruct epoch as [| c11 epoch]; [cbn in H; rewrite ?andb_false_r in H; discriminate H |].
  destruct epoch as [| c12 epoch]; [cbn in H; rewrite ?andb_false_r in H; discriminate H |].
  destruct epoch as [| c13 epoch]; [cbn in H; rewrite ?andb_false_r in H; discriminate H |].
  cbn [has_layout] in H. rewrite !andb_true_iff in H.
  destruct H as [_ [_ [_ [_ [_ [_ [_ [_ [_ [H9 [H10 [_ [H12 [H13 _]]]]]]]]]]]]]].
  exists (10 * digit_value c9 + digit_value c10),
         (10 * digit_value c12 + digit_value c13).
  pose proof (is_digit_code c9 H9). pose proof (is_digit_code c10 H10).
  pose proof (is_digit_code c12 H12). pose proof (is_digit_code c13 H13).
  split; [exact (int_of_str_two_digits c9 c10 H9 H10) |].
  split; [| unfold digit_value; lia].
  destruct epoch; exact (int_of_str_two_digits c12 c13 H12 H13).
Qed.

Section FindLocation.

Variable pow2 : spec_float -> spec_float.
Variable str_float : spec_float -> string.
Variable atan2 : spec_float -> spec_float -> spec_float.
Variable geocoder_reverse : spec_float -> spec_float -> outcome (option string).

Local Abbreviation locate :=
  (find_location pow2 str_float atan2 geocoder_reverse).

(** The [try] block of lines 90 to 95, when both fields are ints. *)
Lemma parse_hour_minute_ok epoch hrs mins (handler : M (list string + Z * Z)) w :
  int_of_str (slice 9 11 epoch) = Some hrs ->
  int_of_str (slice 12 14 epoch) = Some mins ->
  try_except
    (hrs <- py_int (slice 9 11 epoch) ;;
     mins <- py_int (slice 12 14 epoch) ;;
     ret (inr (hrs, mins)))
    ValueError handler w
  = (Returned (inr (hrs, mins)), w).
Proof.
  intros Hh Hm. unfold try_except, bind, py_int. rewrite Hh, Hm. reflexivity.
Qed.

(** The same block when one of the fields is no int. *)
Lemma parse_hour_minute_fails epoch (handler : M (list string + Z * Z)) w :
  int_of_str (slice 9 11 epoch) = None
  \/ int_of_str (slice 12 14 epoch) = None ->
  try_except
    (hrs <- py_int (slice 9 11 epoch) ;;
     mins <- py_int (slice 12 14 epoch) ;;
     ret (inr (hrs, mins)))
    ValueError handler w
  = handler w.
Proof.
  intros H. unfold try_except, bind, py_int.
  destruct (int_of_str (slice 9 11 epoch)) as [hrs |]; [| reflexivity].
  destruct H as [H | H]; [discriminate |]. rewrite H. reflexivity.
Qed.

Lemma find_location_bad_epoch x y z epoch w :
  int_of_str (slice 9 11 epoch) = None
  \/ int_of_str (slice 12 14 epoch) = None ->
  locate x y z epoch w
  = (Returned [], w ++ [LogRecord ERROR (time_format_msg "Empty list returned.")]).
Proof.
  intros H. unfold find_location, bind at 1.
  rewrite (parse_hour_minute_fails epoch _ w H). reflexivity.
Qed.

Lemma math_atan2_in_range a b w :
  is_number a = true -> is_number b = true ->
  double_in_range a = true -> double_in_range b = true ->
  math_atan2 atan2 a b w = (Returned (atan2 (num_double a) (num_double b)), w).
Proof.
  intros Na Nb Da Db. unfold math_atan2, bind, lift.
  rewrite (as_double_in_range a Na Da), (as_double_in_range b Nb Db).
  reflexivity.
Qed.

Lemma location_in_range_parts x y z :
  location_in_range pow2 x y z = true ->
  pow_in_range pow2 x = true /\ pow_in_range pow2 y = true
  /\ add_in_range (num_square pow2 x) (num_square pow2 y) = true
  /\ double_in_range (num_add (num_square pow2 x) (num_square pow2 y)) = true
  /\ double_in_range z = true /\ double_in_range y = true
  /\ double_in_range x = true /\ speed_in_range pow2 x y z = true.
Proof.
  unfold location_in_range. cbv zeta. rewrite !andb_true_iff. tauto.
Qed.

(** The whole run on numbers in range, up to the answer of the
    geocoding call. *)
Lemma find_location_run x y z epoch hrs mins g w :
  int_of_str (slice 9 11 epoch) = Some hrs ->
  int_of_str (slice 12 14 epoch) = Some mins ->
  is_number x = true -> is_number y = true -> is_number z = true ->
  location_in_range pow2 x y z = true ->
  nonneg_number (num_add (num_square pow2 x) (num_square pow2 y)) = true ->
  nonneg_number (num_add (num_add (num_square pow2 x) (num_square pow2 y))
                         (num_square pow2 z)) = true ->
  geocoder_reverse (latitude_of pow2 atan2 x y z)
    (normalize_longitude
       (raw_longitude (atan2 (num_double y) (num_double x)) hrs mins)) = g ->
  locate x y z epoch w
  = (match g with
     | Returned geolocation =>
         Returned
           [str_float (latitude_of pow2 atan2 x y z);
            str_float (normalize_longitude
                         (raw_longitude (atan2 (num_double y) (num_double x))
                            hrs mins));
            str_float (altitude_of pow2 x y z);
            place_of geolocation]
     | Raised e => Raised e
     end,
     w ++ [LogRecord DEBUG
             ("longitude before conversion"
              +:+ str_float (raw_longitude (atan2 (num_double y) (num_double x))
                               hrs mins))]).
Proof.
  intros Hh Hm Nx Ny Nz Hr Hxy Hxyz Hg.
  destruct (location_in_range_parts x y z Hr)
    as [Px [Py [Axy [Dxy [Dz [Dy [Dx Hs]]]]]]].
  destruct (speed_in_range_parts pow2 x y z Hs) as [_ [_ [_ [Pz [Az Ds]]]]].
  assert (Nx2 : is_number (num_square pow2 x) = true)
    by (rewrite is_number_num_square; exact Nx).
  assert (Ny2 : is_number (num_square pow2 y) = true)
    by (rewrite is_number_num_square; exact Ny).
  unfold find_location.
  rewrite (bind_returned _ _ w _ w (parse_hour_minute_ok epoch hrs mins _ w Hh Hm)).
  cbv beta iota.
  rewrite (bind_returned _ _ w _ w (py_pow2_in_range pow2 x w Nx Px)).
  rewrite (bind_returned _ _ w _ w (py_pow2_in_range pow2 y w Ny Py)).
  rewrite (bind_returned _ _ w _ w (py_add_in_range _ _ w Nx2 Ny2 Axy)).
  rewrite (bind_returned _ _ w _ w (math_sqrt_in_range _ w Hxy Dxy)).
  rewrite (bind_returned _ _ w _ w
             (math_atan2_in_range z (PyFloat _) w Nz eq_refl Dz eq_refl)).
  rewrite (bind_returned _ _ w _ w (math_atan2_in_range y x w Ny Nx Dy Dx)).
  rewrite (bind_returned _ _ w tt
             (w ++ [LogRecord DEBUG
                      ("longitude before conversion"
                       +:+ str_float (raw_longitude
                                        (atan2 (num_double y) (num_double x))
                                        hrs mins))]) eq_refl).
  rewrite (bind_returned _ _ _ _ _
             (sum_of_squares_in_range pow2 x y z _ Nx Ny Nz Px Py Axy Pz Az)).
  rewrite (bind_returned _ _ _ _ _ (math_sqrt_in_range _ _ Hxyz Ds)).
  unfold latitude_of, normalize_longitude in Hg.
  unfold bind, lift. cbn [num_double]. rewrite Hg.
  destruct g; reflexivity.
Qed.

(** The same with a [pow] that returns no negative number. *)
Lemma find_location_numbers x y z epoch hrs mins g w :
  (forall a, nonneg (pow2 a) = true) ->
  int_of_str (slice 9 11 epoch) = Some hrs ->
  int_of_str (slice 12 14 epoch) = Some mins ->
  is_number x = true -> is_number y = true -> is_number z = true ->
  location_in_range pow2 x y z = true ->
  geocoder_reverse (latitude_of pow2 atan2 x y z)
    (normalize_longitude
       (raw_longitude (atan2 (num_double y) (num_double x)) hrs mins))
  = Returned g ->
  locate x y z epoch w
  = (Returned
       [str_float (latitude_of pow2 atan2 x y z);
        str_float (normalize_longitude
                     (raw_longitude (atan2 (num_double y) (num_double x))
                        hrs mins));
        str_float (altitude_of pow2 x y z);
        place_of g],
     w ++ [LogRecord DEBUG
             ("longitude before conversion"
              +:+ str_float (raw_longitude (atan2 (num_double y) (num_double x))
                               hrs mins))]).
Proof.
  intros Hpow Hh Hm Nx Ny Nz Hr Hg.
  exact (find_location_run x y z epoch hrs mins (Returned g) w Hh Hm Nx Ny Nz Hr
           (nonneg_number_num_add _ _
              (nonneg_number_num_square pow2 x Hpow Nx)
              (nonneg_number_num_square pow2 y Hpow Ny))
           (sum_of_squares_nonneg pow2 x y z Hpow Nx Ny Nz) Hg).
Qed.

(** C4, as the code has it.  For an epoch whose hour and minute
    fields read as ints (those of a well-formed epoch do), numbers [x],
    [y], [z] - floats and ints in any mixture - on which no operation
    of lines 97 to 107 leaves the range of a double, and a geocoding
    call that returns, [find_location] returns the strings of
    latitude = degrees(atan2(z, sqrt(x**2 + y**2))),
    of the normalized longitude and of
    altitude = sqrt(x**2 + y**2 + z**2) - 6378.1, and logs the
    longitude before normalization, which is
    degrees(atan2(y, x)) - ((hrs - 12) + mins / 60) * (360 / 24) + 19;
    every operation is the one Python makes on doubles and ints. *)
Theorem find_location_formulas :
  forall (x y z : pyval) (epoch : string) (hrs mins : Z)
         (g : option string) w,
    (forall a, nonneg (pow2 a) = true) ->
    int_of_str (slice 9 11 epoch) = Some hrs ->
    int_of_str (slice 12 14 epoch) = Some mins ->
    is_number x = true -> is_number y = true -> is_number z = true ->
    location_in_range pow2 x y z = true ->
    let x2 := num_square pow2 x in
    let y2 := num_square pow2 y in
    let z2 := num_square pow2 z in
    let latitude :=
      math_degrees
        (atan2 (num_double z) (fsqrt (num_double (num_add x2 y2)))) in
    let longitude :=
      fadd (fsub (math_degrees (atan2 (num_double y) (num_double x)))
                 (fmul (fadd (of_Z (hrs - 12)) (fdiv (of_Z mins) (of_Z 60)))
                       (fdiv (of_Z 360) (of_Z 24))))
           (of_Z 19) in
    let altitude :=
      fsub (fsqrt (num_double (num_add (num_add x2 y2) z2)))
           (fdiv (of_Z 63781) (of_Z 10)) in
    geocoder_reverse latitude (normalize_longitude longitude) = Returned g ->
    find_location pow2 str_float atan2 geocoder_reverse x y z epoch w
    = (Returned
         [str_float latitude; str_float (normalize_longitude longitude);
          str_float altitude; place_of g],
       w ++ [LogRecord DEBUG
               ("longitude before conversion" +:+ str_float longitude)]).
Proof.
  intros x y z epoch hrs mins g w Hpow Hh Hm Nx Ny Nz Hr
    x2 y2 z2 latitude longitude altitude Hg.
  exact (find_location_numbers x y z epoch hrs mins g w Hpow Hh Hm Nx Ny Nz Hr Hg).
Qed.

(** C5.  The longitude that [find_location] returns, and asks the
    geocoder about, is the longitude of line 99 after one wrap: above
    180 the value [raw] has become [-180 + (raw - 180)], below -180 it
    has become [180 + (raw + 180)], and anything else (NaN included) is
    left as it is.  So 190 comes back as -170 and -190 as 170.  It is
    no reduction modulo 360: 600 comes back as 240 and -1286 as -926,
    which are still outside [-180, 180]. *)
Theorem find_location_wraps_longitude :
  forall (x y z : pyval) (epoch : string) (hrs mins : Z) w,
    (forall a, nonneg (pow2 a) = true) ->
    int_of_str (slice 9 11 epoch) = Some hrs ->
    int_of_str (slice 12 14 epoch) = Some mins ->
    is_number x = true -> is_number y = true -> is_number z = true ->
    location_in_range pow2 x y z = true ->
    let raw := raw_longitude (atan2 (num_double y) (num_double x)) hrs mins in
    forall (longitude : spec_float) (g : option string),
      geocoder_reverse (latitude_of pow2 atan2 x y z) longitude = Returned g ->
      let result :=
        (Returned
           [str_float (latitude_of pow2 atan2 x y z); str_float longitude;
            str_float (altitude_of pow2 x y z); place_of g],
         w ++ [LogRecord DEBUG ("longitude before conversion" +:+ str_float raw)]) in
      (fgt raw (of_Z 180) = true ->
       longitude = fadd (of_Z (-180)) (fsub raw (of_Z 180)) ->
       find_location pow2 str_float atan2 geocoder_reverse x y z epoch w = result)
      /\ (flt raw (of_Z (-180)) = true ->
          longitude = fadd (of_Z 180) (fadd raw (of_Z 180)) ->
          find_location pow2 str_float atan2 geocoder_reverse x y z epoch w = result)
      /\ (fgt raw (of_Z 180) = false -> flt raw (of_Z (-180)) = false ->
          longitude = raw ->
          find_location pow2 str_float atan2 geocoder_reverse x y z epoch w = result)
      /\ (raw = of_Z 190 -> longitude = of_Z (-170) ->
          find_location pow2 str_float atan2 geocoder_reverse x y z epoch w = result)
      /\ (raw = of_Z (-190) -> longitude = of_Z 170 ->
          find_location pow2 str_float atan2 geocoder_reverse x y z epoch w = result)
      /\ (raw = of_Z 600 -> longitude = of_Z 240 ->
          find_location pow2 str_float atan2 geocoder_reverse x y z epoch w = result
          /\ fgt longitude (of_Z 180) = true)
      /\ (raw = of_Z (-1286) -> longitude = of_Z (-926) ->
          find_location pow2 str_float atan2 geocoder_reverse x y z epoch w = result
          /\ flt longitude (of_Z (-180)) = true).
Proof.
  intros x y z epoch hrs mins w Hpow Hh Hm Nx Ny Nz Hr raw longitude g Hg result.
  assert (Hrun : normalize_longitude raw = longitude ->
                 find_location pow2 str_float atan2 geocoder_reverse x y z epoch w
                 = result).
  { intros E. subst longitude.
    exact (find_location_numbers x y z epoch hrs mins g w Hpow Hh Hm Nx Ny Nz Hr Hg). }
  split; [| split; [| split; [| split; [| split; [| split]]]]].
  - intros H E. apply Hrun, normalize_longitude_cases. left. split; assumption.
  - intros H E. apply Hrun, normalize_longitude_cases.
    right. left. split; assumption.
  - intros H1 H2 E. apply Hrun, normalize_longitude_cases.
    right. right. repeat split; assumption.
  - intros E1 E2. apply Hrun. rewrite E1, E2. vm_compute. reflexivity.
  - intros E1 E2. apply Hrun. rewrite E1, E2. vm_compute. reflexivity.
  - intros E1 E2. split.
    + apply Hrun. rewrite E1, E2. vm_compute. reflexivity.
    + rewrite E2. vm_compute. reflexivity.
  - intros E1 E2. split.
    + apply Hrun. rewrite E1, E2. vm_compute. reflexivity.
    + rewrite E2. vm_compute. reflexivity.
Qed.

(** C6.  When the hour (characters 9 and 10) or the minute
    (characters 12 and 13) of the epoch does not read as an int, the
    [ValueError] is caught: the result is the empty list and one error
    is logged, whatever [x], [y] and [z] are, and nothing is raised;
    the epoch ["2024-000"] is such a case.  On every epoch that starts
    in the layout [yyyy-dddThh:mm:ss], with numbers in range and a
    geocoder that returns, the result has four elements; so it has on
    ["2024-001T12:00:00.000Z"] with 4000, 1500, -5000. *)
Theorem find_location_epoch_errors :
  (forall (x y z : pyval) (epoch : string) w,
      int_of_str (slice 9 11 epoch) = None
      \/ int_of_str (slice 12 14 epoch) = None ->
      find_location pow2 str_float atan2 geocoder_reverse x y z epoch w
      = (Returned [],
         w ++ [LogRecord ERROR (time_format_msg "Empty list returned.")]))
  /\ (forall (x y z : pyval) w,
        find_location pow2 str_float atan2 geocoder_reverse x y z "2024-000" w
        = (Returned [],
           w ++ [LogRecord ERROR (time_format_msg "Empty list returned.")]))
  /\ (forall (x y z : pyval) (epoch : string) w,
        (forall a, nonneg (pow2 a) = true) ->
        well_formed_epoch epoch = true ->
        is_number x = true -> is_number y = true -> is_number z = true ->
        location_in_range pow2 x y z = true ->
        (forall lat lon, exists g, geocoder_reverse lat lon = Returned g) ->
        exists latitude longitude altitude place,
          fst (find_location pow2 str_float atan2 geocoder_reverse x y z epoch w)
          = Returned [latitude; longitude; altitude; place])
  /\ (forall (g : option string) w,
        geocoder_reverse
          (math_degrees (atan2 (of_Z (-5000)) (fsqrt (of_Z 18250000))))
          (normalize_longitude
             (raw_longitude (atan2 (of_Z 1500) (of_Z 4000)) 12 0))
        = Returned g ->
        exists l,
          fst (find_location pow2 str_float atan2 geocoder_reverse
                 (PyInt 4000) (PyInt 1500) (PyInt (-5000))
                 "2024-001T12:00:00.000Z" w) = Returned l
          /\ length l = 4%nat).
Proof.
  split; [| split; [| split]].
  - exact find_location_bad_epoch.
  - intros x y z w. apply find_location_bad_epoch. left. reflexivity.
  - intros x y z epoch w Hpow Hwf Nx Ny Nz Hr Hgeo.
    destruct (well_formed_epoch_fields epoch Hwf) as [hrs [mins [Hh [Hm _]]]].
    destruct (Hgeo (latitude_of pow2 atan2 x y z)
                (normalize_longitude
                   (raw_longitude (atan2 (num_double y) (num_double x)) hrs mins)))
      as [g Hg].
    rewrite (find_location_numbers x y z epoch hrs mins g w
               Hpow Hh Hm Nx Ny Nz Hr Hg).
    eexists _, _, _, _. reflexivity.
  - intros g w Hg.
    rewrite (find_location_run (PyInt 4000) (PyInt 1500) (PyInt (-5000))
               "2024-001T12:00:00.000Z" 12 0 (Returned g) w
               eq_refl eq_refl eq_refl eq_refl eq_refl eq_refl eq_refl eq_refl Hg).
    eexists. split; reflexivity.
Qed.

End FindLocation.

Lemma find_location_formulas_witness :
  find_location Sample.pow2 Sample.str_float Sample.atan2 Sample.geocoder_reverse
    (PyInt 4000) (PyFloat (of_Z 1500)) (PyInt (-5000))
    "2024-001T12:00:00.000Z" []
  = (Returned ["0.0"; "19.0"; "6979637149155552p-45"; "Over Ocean"],
     [LogRecord DEBUG "longitude before conversion19.0"]).
Proof.
  rewrite (find_location_formulas Sample.pow2 Sample.str_float Sample.atan2
             Sample.geocoder_reverse
             (PyInt 4000) (PyFloat (of_Z 1500)) (PyInt (-5000))
             "2024-001T12:00:00.000Z" 12 0 None []).
  - vm_compute. reflexivity.
  - exact sample_pow2_nonneg.
  - reflexivity.
  - reflexivity.
  - reflexivity.
  - reflexivity.
  - reflexivity.
  - vm_compute. reflexivity.
  - reflexivity.
Defined.

(** C4 as stated fails on a numeric input: with [x = 1e200] the square
    on line 97 raises [OverflowError], and no latitude, longitude or
    altitude is computed. *)
Lemma find_location_overflow :
  well_formed_epoch "2024-001T12:00:00.000Z" = true
  /\ is_number (PyFloat float_1e200) = true
  /\ is_inf (Sample.pow2 float_1e200) = true
  /\ find_location Sample.pow2 Sample.str_float Sample.atan2
       Sample.geocoder_reverse
       (PyFloat float_1e200) (PyFloat (of_Z 0)) (PyFloat (of_Z 0))
       "2024-001T12:00:00.000Z" []
     = (Raised OverflowError, []).
Proof. repeat split; vm_compute; reflexivity. Qed.

(** The wrap at work: an epoch at 00:36 puts the longitude of line 99
    at 190, which comes back as -170; an epoch whose hour field reads
    99 puts it at -1286, which comes back as -926. *)
Lemma find_location_wraps_longitude_witness :
  find_location Sample.pow2 Sample.str_float Sample.atan2 Sample.geocoder_reverse
    (PyInt 4000) (PyInt 1500) (PyInt (-5000)) "2024-001T00:36:00.000Z" []
  = (Returned ["0.0"; "-170.0"; "6979637149155552p-45"; "Over Ocean"],
     [LogRecord DEBUG "longitude before conversion190.0"])
  /\ find_location Sample.pow2 Sample.str_float Sample.atan2
       Sample.geocoder_reverse
       (PyInt 4000) (PyInt 1500) (PyInt (-5000)) "2024-001T99:00:00.000Z" []
     = (Returned ["0.0"; "-926.0"; "6979637149155552p-45"; "Over Ocean"],
        [LogRecord DEBUG "longitude before conversion-1286.0"]).
Proof.
  split.
  - rewrite (proj1 (proj2 (proj2 (proj2
               (find_location_wraps_longitude Sample.pow2 Sample.str_float
                  Sample.atan2 Sample.geocoder_reverse
                  (PyInt 4000) (PyInt 1500) (PyInt (-5000))
                  "2024-001T00:36:00.000Z" 0 36 []
                  sample_pow2_nonneg eq_refl eq_refl eq_refl eq_refl eq_refl
                  eq_refl (of_Z (-170)) None eq_refl))))).
    + vm_compute. reflexivity.
    + vm_compute. reflexivity.
    + reflexivity.
  - rewrite (proj1 (proj2
               (find_location_wraps_longitude Sample.pow2 Sample.str_float
                  Sample.atan2 Sample.geocoder_reverse
                  (PyInt 4000) (PyInt 1500) (PyInt (-5000))
                  "2024-001T99:00:00.000Z" 99 0 []
                  sample_pow2_nonneg eq_refl eq_refl eq_refl eq_refl eq_refl
                  eq_refl (of_Z (-926)) None eq_refl))).
    + vm_compute. reflexivity.
    + vm_compute. reflexivity.
    + vm_compute. reflexivity.
Defined.

Lemma find_location_epoch_errors_witness :
  find_location Sample.pow2 Sample.str_float Sample.atan2 Sample.geocoder_reverse
    (PyInt 4000) (PyInt 1500) (PyInt (-5000)) "2024-000" []
  = (Returned [], [LogRecord ERROR (time_format_msg "Empty list returned.")])
  /\ exists latitude longitude altitude place,
       fst (find_location Sample.pow2 Sample.str_float Sample.atan2
              Sample.geocoder_reverse
              (PyFloat (of_Z 4000)) (PyInt 1500) (PyFloat (of_Z (-5000)))
              "2024-069T06:38:30.000Z" [])
       = Returned [latitude; longitude; altitude; place].
Proof.
  split.
  - exact (proj1 (find_location_epoch_errors Sample.pow2 Sample.str_float
                    Sample.atan2 Sample.geocoder_reverse)
             (PyInt 4000) (PyInt 1500) (PyInt (-5000)) "2024-000" []
             (or_introl eq_refl)).
  - apply (proj1 (proj2 (proj2 (find_location_epoch_errors Sample.pow2
                                   Sample.str_float Sample.atan2
                                   Sample.geocoder_reverse)))).
    + exact sample_pow2_nonneg.
    + reflexivity.
    + reflexivity.
    + reflexivity.
    + reflexivity.
    + vm_compute. reflexivity.
    + intros lat lon. exists None. reflexivity.
Defined.

(** ** Calling a function twice *)

Lemma log_independent_ret {A} (a : A) : log_independent (ret a).
Proof. exists (Returned a), []. intros w. unfold ret. rewrite app_nil_r. reflexivity. Qed.

Lemma log_independent_raise {A} (e : exn) : log_independent (@raise A e).
Proof. exists (Raised e), []. intros w. unfold raise. rewrite app_nil_r. reflexivity. Qed.

Lemma log_independent_lift {A} (o : outcome A) : log_independent (lift o).
Proof. exists o, []. intros w. unfold lift. rewrite app_nil_r. reflexivity. Qed.

Lemma log_independent_debug s : log_independent (logging_debug s).
Proof. exists (Returned tt), [LogRecord DEBUG s]. reflexivity. Qed.

Lemma log_independent_error s : log_independent (logging_error s).
Proof. exists (Returned tt), [LogRecord ERROR s]. reflexivity. Qed.

Lemma log_independent_bind {A B} (m : M A) (k : A -> M B) :
  log_independent m -> (forall a, log_independent (k a)) ->
  log_independent (bind m k).
Proof.
  intros [o [d Hm]] Hk. destruct o as [a | e].
  - destruct (Hk a) as [o' [d' Hk']]. exists o', (d ++ d'). intros w.
    unfold bind. rewrite Hm, Hk', app_assoc. reflexivity.
  - exists (Raised e), d. intros w. unfold bind. rewrite Hm. reflexivity.
Qed.

Lemma log_independent_try_except {A} (body handler : M A) (cls : exn) :
  log_independent body -> log_independent handler ->
  log_independent (try_except body cls handler).
Proof.
  intros [o [d Hb]] [o' [d' Hh]]. destruct o as [a | e].
  - exists (Returned a), d. intros w. unfold try_except. rewrite Hb. reflexivity.
  - destruct (exn_eqb e cls) eqn:E.
    + exists o', (d ++ d'). intros w. unfold try_except.
      rewrite Hb, E, Hh, app_assoc. reflexivity.
    + exists (Raised e), d. intros w. unfold try_except. rewrite Hb, E. reflexivity.
Qed.

Create HintDb log_indep.
#[local] Hint Resolve log_independent_ret log_independent_raise
  log_independent_lift log_independent_debug log_independent_error
  log_independent_bind log_independent_try_except : log_indep.

(** Goes through a computation built from the combinators above and
    from case distinctions on values. *)
Ltac log_indep :=
  repeat first
    [ progress auto with log_indep
    | apply log_independent_bind; [| intros ?]
    | apply log_independent_try_except
    | match goal with
      | |- log_independent (match ?x with _ => _ end) => destruct x
      | |- log_independent (if ?b then _ else _) => destruct b
      end ].

Lemma log_independent_py_pow2 pow2 v : log_independent (py_pow2 pow2 v).
Proof. unfold py_pow2. log_indep. Qed.

Lemma log_independent_py_add a b : log_independent (py_add a b).
Proof. unfold py_add. log_indep. Qed.

Lemma log_independent_math_sqrt v : log_independent (math_sqrt v).
Proof. unfold math_sqrt. log_indep. Qed.

#[local] Hint Resolve log_independent_py_pow2 log_independent_py_add
  log_independent_math_sqrt : log_indep.

Lemma log_independent_sum_of_squares pow2 x y z :
  log_independent (sum_of_squares pow2 x y z).
Proof. unfold sum_of_squares. log_indep. Qed.

#[local] Hint Resolve log_independent_sum_of_squares : log_indep.










Section CalledTwice.

Variable pow2 : spec_float -> spec_float.
Variable mktime : struct_time -> Q.
Variable str_time : Q -> string.
Variable str_float : spec_float -> string.
Variable atan2 : spec_float -> spec_float -> spec_float.
Variable clock : nat -> Q.
Variable service : nat -> spec_float -> spec_float -> outcome (option string).





End CalledTwice.



(** * Further properties of the code *)

(** ** [calc_speed_3d] beyond its contract *)

Lemma fsqrt_nonneg x : nonneg x = true -> nonneg (fsqrt x) = true.
Proof.
  destruct x as [s | s | | s m e]; simpl; intros H; try reflexivity.
  - destruct s; [discriminate | reflexivity].
  - destruct s; [discriminate |].
    destruct (SFsqrt_core_binary prec emax (Z.pos m) e) as [[mz ez] lz].
    apply binary_round_aux_nonneg.
Qed.

Lemma math_sqrt_result_nonneg v w r w' :
  math_sqrt v w = (Returned r, w') -> nonneg r = true.
Proof.
  unfold math_sqrt, bind, lift.
  destruct (as_double v) as [x | e]; [| discriminate].
  destruct (nonneg x) eqn:Hx; [| discriminate].
  intros H. injection H as <- _. apply fsqrt_nonneg, Hx.
Qed.

(** Whatever the arguments and whatever [pow] returns, a speed that
    comes back is neither a negative number nor minus infinity: it is a
    square root that [math.sqrt] accepted, or the [0.0] of the
    handler. *)
Theorem calc_speed_3d_never_negative :
  forall (pow2 : spec_float -> spec_float) (x y z : pyval) w (r : spec_float),
    fst (calc_speed_3d pow2 x y z w) = Returned r -> nonneg r = true.
Proof.
  intros pow2 x y z w r. unfold calc_speed_3d, try_except, bind.
  destruct (sum_of_squares pow2 x y z w) as [[s | e] w1].
  - destruct (math_sqrt s w1) as [[r' | e] w2] eqn:Hs.
    + intros H. injection H as <-. exact (math_sqrt_result_nonneg _ _ _ _ Hs).
    + destruct (exn_eqb e TypeError); simpl; intros H;
        [injection H as <-; reflexivity | discriminate].
  - destruct (exn_eqb e TypeError); simpl; intros H;
      [injection H as <-; reflexivity | discriminate].
Qed.

Lemma calc_speed_3d_never_negative_witness :
  nonneg (of_Z 5) = true.
Proof.
  exact (calc_speed_3d_never_negative Sample.pow2
           (PyInt (-3)) (PyFloat (of_Z 4)) (PyInt 0) [] (of_Z 5) eq_refl).
Defined.

Lemma float_pow2_opp pow2 x : float_pow2 pow2 (SFopp x) = float_pow2 pow2 x.
Proof.
  destruct x as [s | s | | s m e]; reflexivity.
Qed.

Lemma py_pow2_opp_float pow2 x :
  py_pow2 pow2 (PyFloat (SFopp x)) = py_pow2 pow2 (PyFloat x).
Proof. unfold py_pow2. rewrite float_pow2_opp. reflexivity. Qed.

Lemma py_pow2_opp_int pow2 n : py_pow2 pow2 (PyInt (- n)) = py_pow2 pow2 (PyInt n).
Proof. unfold py_pow2. rewrite Z.mul_opp_opp. reflexivity. Qed.

(** The speed does not depend on the direction of a component: negating
    a float or an int argument changes neither the outcome nor the log,
    in any of the three positions and whatever the other two are. *)
Theorem calc_speed_3d_sign_blind :
  forall pow2 : spec_float -> spec_float,
    (forall (f : spec_float) (u v : pyval) w,
        calc_speed_3d pow2 (PyFloat (SFopp f)) u v w
        = calc_speed_3d pow2 (PyFloat f) u v w
        /\ calc_speed_3d pow2 u (PyFloat (SFopp f)) v w
           = calc_speed_3d pow2 u (PyFloat f) v w
        /\ calc_speed_3d pow2 u v (PyFloat (SFopp f)) w
           = calc_speed_3d pow2 u v (PyFloat f) w)
    /\ (forall (n : Z) (u v : pyval) w,
          calc_speed_3d pow2 (PyInt (- n)) u v w = calc_speed_3d pow2 (PyInt n) u v w
          /\ calc_speed_3d pow2 u (PyInt (- n)) v w
             = calc_speed_3d pow2 u (PyInt n) v w
          /\ calc_speed_3d pow2 u v (PyInt (- n)) w
             = calc_speed_3d pow2 u v (PyInt n) w).
Proof.
  intros pow2. split.
  - intros f u v w.
    unfold calc_speed_3d, sum_of_squares. rewrite py_pow2_opp_float.
    repeat split; reflexivity.
  - intros n u v w.
    unfold calc_speed_3d, sum_of_squares. rewrite py_pow2_opp_int.
    repeat split; reflexivity.
Qed.

Lemma fadd_nan_l x : fadd S754_nan x = S754_nan.
Proof. reflexivity. Qed.

Lemma fadd_nan_r x : fadd x S754_nan = S754_nan.
Proof. destruct x as [s | s | | s m e]; reflexivity. Qed.

Lemma float_sq_nan pow2 x : is_nan x = true -> float_sq pow2 x = S754_nan.
Proof. destruct x; simpl; intros H; (discriminate || reflexivity). Qed.

(** A NaN is not taken for a non-numeric input: when one of three
    floats is NaN and no square overflows, the speed is NaN and nothing
    is logged. *)
Theorem calc_speed_3d_nan :
  forall (pow2 : spec_float -> spec_float) (x y z : spec_float) w,
    is_nan x || is_nan y || is_nan z = true ->
    square_overflows pow2 x = false -> square_overflows pow2 y = false ->
    square_overflows pow2 z = false ->
    calc_speed_3d pow2 (PyFloat x) (PyFloat y) (PyFloat z) w
    = (Returned S754_nan, w).
Proof.
  intros pow2 x y z w Hnan Hx Hy Hz. unfold calc_speed_3d, try_except, bind.
  rewrite (sum_of_squares_floats pow2 x y z w Hx Hy Hz).
  replace (fadd (fadd (float_sq pow2 x) (float_sq pow2 y)) (float_sq pow2 z))
    with S754_nan; [reflexivity |].
  apply orb_true_iff in Hnan. destruct Hnan as [Hnan | Hnan].
  - apply orb_true_iff in Hnan. destruct Hnan as [Hnan | Hnan].
    + rewrite (float_sq_nan pow2 x Hnan). reflexivity.
    + rewrite (float_sq_nan pow2 y Hnan), fadd_nan_r. reflexivity.
  - rewrite (float_sq_nan pow2 z Hnan), fadd_nan_r. reflexivity.
Qed.

Lemma calc_speed_3d_nan_witness :
  calc_speed_3d Sample.pow2 (PyFloat (of_Z 3)) (PyFloat S754_nan) (PyFloat (of_Z 4)) []
  = (Returned S754_nan, []).
Proof.
  exact (calc_speed_3d_nan Sample.pow2 (of_Z 3) S754_nan (of_Z 4) []
           eq_refl eq_refl eq_refl eq_refl).
Defined.

Lemma fadd_comm x y : fadd x y = fadd y x.
Proof.
  destruct x as [sx | sx | | sx mx ex], y as [sy | sy | | sy my ey];
    try reflexivity; try (destruct sx, sy; reflexivity).
  unfold fadd, SFadd. rewrite (Z.min_comm ex ey).
  f_equal. apply Z.add_comm.
Qed.

Lemma py_add_comm_addable a b w :
  addable a = true -> addable b = true -> py_add a b w = py_add b a w.
Proof.
  destruct a as [x | m | |], b as [y | n | |]; simpl; intros Ha Hb;
    try discriminate.
  - rewrite (fadd_comm x y). reflexivity.
  - destruct (int_as_double n); [rewrite (fadd_comm x a) |]; reflexivity.
  - destruct (int_as_double m); [rewrite (fadd_comm a y) |]; reflexivity.
  - rewrite (Z.add_comm m n). reflexivity.
Qed.

Lemma py_pow2_fits_any pow2 v :
  is_number v = true -> square_fits pow2 v = true ->
  exists v2, addable v2 = true /\ forall w, py_pow2 pow2 v w = (Returned v2, w).
Proof.
  destruct v as [f | n | s |]; simpl; intros Hn Hf; try discriminate.
  - apply negb_true_iff in Hf. rewrite (float_pow2_fits pow2 f Hf).
    exists (PyFloat (float_sq pow2 f)). split; reflexivity.
  - exists (PyInt (n * n)). split; [exact Hf | reflexivity].
Qed.

Lemma py_pow2_not_number_any pow2 v :
  is_number v = false -> forall w, py_pow2 pow2 v w = (Raised TypeError, w).
Proof. intros H w. apply py_pow2_not_number, H. Qed.

(** The first two components can be exchanged: when their squares stay
    in range, [speed(x, y, z)] and [speed(y, x, z)] end alike, for
    floats, ints and non-numeric values.  (The third cannot: the sum is
    taken left to right, and the addition of doubles is not
    associative.) *)
Theorem calc_speed_3d_swap_xy :
  forall (pow2 : spec_float -> spec_float) (x y z : pyval) w,
    square_fits pow2 x = true -> square_fits pow2 y = true ->
    calc_speed_3d pow2 x y z w = calc_speed_3d pow2 y x z w.
Proof.
  intros pow2 x y z w Fx Fy.
  unfold calc_speed_3d, try_except, bind, sum_of_squares, bind.
  destruct (is_number x) eqn:Nx, (is_number y) eqn:Ny.
  - destruct (py_pow2_fits_any pow2 x Nx Fx) as [x2 [Ax Ex]].
    destruct (py_pow2_fits_any pow2 y Ny Fy) as [y2 [Ay Ey]].
    rewrite (Ex w), (Ey w). cbv beta iota. rewrite ?(Ex w), ?(Ey w).
    cbv beta iota. rewrite (py_add_comm_addable x2 y2 w Ax Ay). reflexivity.
  - destruct (py_pow2_fits_any pow2 x Nx Fx) as [x2 [Ax Ex]].
    rewrite (Ex w), (py_pow2_not_number_any pow2 y Ny w). cbv beta iota.
    rewrite ?(py_pow2_not_number_any pow2 y Ny w). reflexivity.
  - destruct (py_pow2_fits_any pow2 y Ny Fy) as [y2 [Ay Ey]].
    rewrite (Ey w), (py_pow2_not_number_any pow2 x Nx w). cbv beta iota.
    rewrite ?(py_pow2_not_number_any pow2 x Nx w). reflexivity.
  - rewrite (py_pow2_not_number_any pow2 x Nx w),
      (py_pow2_not_number_any pow2 y Ny w).
    reflexivity.
Qed.

Lemma calc_speed_3d_swap_xy_witness :
  calc_speed_3d Sample.pow2 (PyInt 3) (PyFloat (of_Z 4)) (PyInt 12) []
  = calc_speed_3d Sample.pow2 (PyFloat (of_Z 4)) (PyInt 3) (PyInt 12) [].
Proof.
  exact (calc_speed_3d_swap_xy Sample.pow2 (PyInt 3) (PyFloat (of_Z 4)) (PyInt 12) []
           eq_refl eq_refl).
Defined.

(** ** [current_location] on lists of any order *)

Lemma list_getitem_elem {A} (l : list A) (i : Z) (a : A) w w' :
  list_getitem l i w = (Returned a, w') -> a ∈ l.
Proof.
  unfold list_getitem.
  destruct ((0 <=? (if i <? 0 then i + Z.of_nat (length l) else i))
            && ((if i <? 0 then i + Z.of_nat (length l) else i)
                <? Z.of_nat (length l))); [| discriminate].
  destruct (l !! Z.to_nat (if i <? 0 then i + Z.of_nat (length l) else i))
    as [b |] eqn:E; [| discriminate].
  intros H. injection H as <- _. exact (list_elem_of_lookup_2 _ _ _ E).
Qed.

Lemma list_getitem_last_of_prefix {A} (pre rest : list A) (d : A) w :
  last pre = Some d ->
  list_getitem (pre ++ rest) (0 + Z.of_nat (length pre) - 1) w = (Returned d, w).
Proof.
  intros Hlast. rewrite last_lookup in Hlast.
  pose proof (lookup_lt_Some _ _ _ Hlast) as Hlt.
  replace (0 + Z.of_nat (length pre) - 1) with (Z.of_nat (Nat.pred (length pre)))
    by lia.
  apply list_getitem_nonneg. rewrite lookup_app_l; [exact Hlast | exact Hlt].
Qed.

Section CurrentLocationAnyOrder.

Variable mktime : struct_time -> Q.
Variable str_time : Q -> string.

Local Abbreviation scan := (scan_epochs mktime str_time).
Local Abbreviation locate := (current_location mktime str_time).
Local Abbreviation epoch_time := (epoch_time_of mktime).

(** Whatever the order of the list, the record that comes back is the
    one just before the first record that is after the current time;
    the records behind that one are not looked at, so they may be
    malformed or lack the key. *)
Theorem current_location_before_first_future :
  forall (now : Q) (pre : list dict) (ts : list Q) (item : dict) (t : Q)
         (post : list dict) (key : string) (d : dict) w,
    Forall2 (fun item t => epoch_time key item = Some t) pre ts ->
    Forall (fun t => (t <= now)%Q) ts ->
    epoch_time key item = Some t -> (now < t)%Q ->
    last pre = Some d ->
    locate now (pre ++ item :: post) key w
    = (Returned d,
       w ++ [LogRecord DEBUG ("current time: " +:+ str_time now);
             LogRecord DEBUG ("epoch time: " +:+ str_time t)]).
Proof.
  intros now pre ts item t post key d w Hpre Hpast Ht Hlt Hlast.
  rewrite (current_location_scanned mktime str_time now _ key w
             (0 + Z.of_nat (length pre))
             (w ++ [LogRecord DEBUG ("current time: " +:+ str_time now);
                    LogRecord DEBUG ("epoch time: " +:+ str_time t)])).
  - apply list_getitem_last_of_prefix, Hlast.
  - rewrite (scan_epochs_past_prefix mktime str_time now key pre ts _ 0 _ Hpre Hpast).
    rewrite (scan_epochs_parsed mktime str_time now key item post t _ _ Ht).
    apply Qltb_true in Hlt. rewrite Hlt, <- app_assoc. reflexivity.
Qed.

(** When every record parses and none is after the current time, the
    loop runs to the end and the last record comes back, in whatever
    order the records are. *)
Theorem current_location_all_past :
  forall (now : Q) (l : list dict) (ts : list Q) (key : string) (d : dict) w,
    Forall2 (fun item t => epoch_time key item = Some t) l ts ->
    Forall (fun t => (t <= now)%Q) ts ->
    last l = Some d ->
    locate now l key w
    = (Returned d, w ++ [LogRecord DEBUG ("current time: " +:+ str_time now)]).
Proof.
  intros now l ts key d w Hall Hpast Hlast.
  rewrite (current_location_scanned mktime str_time now l key w
             (0 + Z.of_nat (length l))
             (w ++ [LogRecord DEBUG ("current time: " +:+ str_time now)])).
  - rewrite <- (app_nil_r l) at 1. apply list_getitem_last_of_prefix, Hlast.
  - rewrite <- (app_nil_r l) at 1.
    rewrite (scan_epochs_past_prefix mktime str_time now key l ts [] 0 _ Hall Hpast).
    reflexivity.
Qed.

(** What comes back is a record of the list or the empty dictionary:
    the function builds no record of its own. *)
Theorem current_location_returns_member :
  forall (now : Q) (l : list dict) (key : string) (d : dict) w,
    fst (current_location mktime str_time now l key w) = Returned d ->
    d ∈ l \/ d = ∅.
Proof.
  intros now l key d w. unfold current_location, bind at 1, logging_debug.
  unfold bind at 1, try_except, bind at 1.
  destruct (scan now key l 0 _) as [[i | e] w1].
  - cbn [ret]. destruct (list_getitem l (i - 1) w1) as [[a | e] w2] eqn:E.
    + intros H. injection H as <-. left. exact (list_getitem_elem _ _ _ _ _ E).
    + discriminate.
  - destruct e; cbn; intros H; try discriminate.
    injection H as <-. right. reflexivity.
Qed.

(** The handler only takes [ValueError].  A record without the key,
    reached after records that are not after the current time, ends
    the call with [KeyError]; one whose value under the key is no
    string ends it with [TypeError]. *)
Theorem current_location_key_and_type_errors :
  forall (now : Q) (pre : list dict) (ts : list Q) (item : dict)
         (post : list dict) (key : string) w,
    Forall2 (fun item t => epoch_time key item = Some t) pre ts ->
    Forall (fun t => (t <= now)%Q) ts ->
    (item !! key = None ->
     locate now (pre ++ item :: post) key w
     = (Raised KeyError, w ++ [LogRecord DEBUG ("current time: " +:+ str_time now)]))
    /\ (forall v, item !! key = Some v -> (forall s, v <> PyStr s) ->
        locate now (pre ++ item :: post) key w
        = (Raised TypeError,
           w ++ [LogRecord DEBUG ("current time: " +:+ str_time now)])).
Proof.
  intros now pre ts item post key w Hpre Hpast.
  assert (Hrun : forall e,
             scan now key (item :: post) (0 + Z.of_nat (length pre))
               (w ++ [LogRecord DEBUG ("current time: " +:+ str_time now)])
             = (Raised e, w ++ [LogRecord DEBUG ("current time: " +:+ str_time now)]) ->
             exn_eqb e ValueError = false ->
             locate now (pre ++ item :: post) key w
             = (Raised e, w ++ [LogRecord DEBUG ("current time: " +:+ str_time now)])).
  { intros e Hscan Hne. unfold current_location, bind at 1, logging_debug.
    unfold bind at 1, try_except, bind at 1.
    rewrite (scan_epochs_past_prefix mktime str_time now key pre ts _ 0 _ Hpre Hpast).
    rewrite Hscan, Hne. reflexivity. }
  split.
  - intros Hnone. apply Hrun; [| reflexivity].
    cbn [scan_epochs]. unfold bind at 1, getitem. rewrite Hnone. reflexivity.
  - intros v Hv Hns. apply Hrun; [| reflexivity].
    cbn [scan_epochs]. unfold bind at 1, getitem. rewrite Hv. cbn [ret].
    unfold bind at 1. destruct v as [f | n | s |]; try reflexivity.
    exfalso. exact (Hns s eq_refl).
Qed.

End CurrentLocationAnyOrder.

Lemma current_location_before_first_future_witness :
  current_location mktime_utc Sample.str_time (inject_Z 1800000000)
    ([Sample.record "2024-045T12:00:00.000Z"]
       ++ Sample.record "2034-045T12:00:00.000Z" :: [Sample.record "garbled"; ∅])
    "epoch" []
  = (Returned (Sample.record "2024-045T12:00:00.000Z"),
     [] ++ [LogRecord DEBUG ("current time: " +:+ Sample.str_time (inject_Z 1800000000));
            LogRecord DEBUG ("epoch time: " +:+ Sample.str_time (inject_Z 2023531200))]).
Proof.
  apply (current_location_before_first_future mktime_utc Sample.str_time
           (inject_Z 1800000000) [Sample.record "2024-045T12:00:00.000Z"]
           [inject_Z 1707912000] (Sample.record "2034-045T12:00:00.000Z")
           (inject_Z 2023531200) [Sample.record "garbled"; ∅] "epoch").
  - repeat constructor.
  - repeat constructor. unfold Qle. simpl. lia.
  - reflexivity.
  - unfold Qlt. simpl. lia.
  - reflexivity.
Defined.

Lemma current_location_all_past_witness :
  current_location mktime_utc Sample.str_time (inject_Z 1800000000)
    [Sample.record "2024-046T12:00:00.000Z"; Sample.record "2024-045T12:00:00.000Z"]
    "epoch" []
  = (Returned (Sample.record "2024-045T12:00:00.000Z"),
     [] ++ [LogRecord DEBUG ("current time: " +:+ Sample.str_time (inject_Z 1800000000))]).
Proof.
  apply (current_location_all_past mktime_utc Sample.str_time
           (inject_Z 1800000000)
           [Sample.record "2024-046T12:00:00.000Z";
            Sample.record "2024-045T12:00:00.000Z"]
           [inject_Z 1707998400; inject_Z 1707912000] "epoch").
  - repeat constructor.
  - repeat constructor; unfold Qle; simpl; lia.
  - reflexivity.
Defined.

Lemma current_location_returns_member_witness :
  Sample.record "2024-045T12:00:00.000Z"
    ∈ [Sample.record "2024-045T12:00:00.000Z"]
  \/ Sample.record "2024-045T12:00:00.000Z" = ∅.
Proof.
  exact (current_location_returns_member mktime_utc Sample.str_time
           (inject_Z 1800000000) [Sample.record "2024-045T12:00:00.000Z"]
           "epoch" (Sample.record "2024-045T12:00:00.000Z") [] eq_refl).
Defined.

Lemma current_location_key_and_type_errors_witness :
  current_location mktime_utc Sample.str_time (inject_Z 1800000000)
    ([Sample.record "2024-045T12:00:00.000Z"] ++ ∅ :: []) "epoch" []
  = (Raised KeyError,
     [] ++ [LogRecord DEBUG ("current time: " +:+ Sample.str_time (inject_Z 1800000000))]).
Proof.
  apply (proj1 (current_location_key_and_type_errors mktime_utc Sample.str_time
                  (inject_Z 1800000000) [Sample.record "2024-045T12:00:00.000Z"]
                  [inject_Z 1707912000] ∅ [] "epoch" []
                  ltac:(repeat constructor)
                  ltac:(repeat constructor; unfold Qle; simpl; lia))).
  reflexivity.
Defined.


(** ** What [find_location] does not catch *)

Section FindLocationErrors.

Variable pow2 : spec_float -> spec_float.
Variable str_float : spec_float -> string.
Variable atan2 : spec_float -> spec_float -> spec_float.
Variable geocoder_reverse : spec_float -> spec_float -> outcome (option string).

(** Unlike [calc_speed_3d], [find_location] has no handler for
    [TypeError]: with an epoch whose hour and minute read as ints, a
    coordinate that is not a number ends the call with [TypeError] and
    nothing in the log.  The first two coordinates fail at their square,
    the third at the conversion that [math.atan2] makes, once the root
    of line 97 has been taken of the squares of two numbers in range. *)
Theorem find_location_type_error :
  forall (epoch : string) (hrs mins : Z) w,
    int_of_str (slice 9 11 epoch) = Some hrs ->
    int_of_str (slice 12 14 epoch) = Some mins ->
    (forall x y z, is_number x = false ->
                   find_location pow2 str_float atan2 geocoder_reverse x y z epoch w
                   = (Raised TypeError, w))
    /\ (forall x y z, is_number x = true -> pow_in_range pow2 x = true ->
                      is_number y = false ->
                      find_location pow2 str_float atan2 geocoder_reverse
                        x y z epoch w
                      = (Raised TypeError, w))
    /\ (forall x y z,
          (forall a, nonneg (pow2 a) = true) ->
          is_number x = true -> is_number y = true ->
          pow_in_range pow2 x = true -> pow_in_range pow2 y = true ->
          add_in_range (num_square pow2 x) (num_square pow2 y) = true ->
          double_in_range (num_add (num_square pow2 x) (num_square pow2 y)) = true ->
          is_number z = false ->
          find_location pow2 str_float atan2 geocoder_reverse x y z epoch w
          = (Raised TypeError, w)).
Proof.
  intros epoch hrs mins w Hh Hm. split; [| split].
  - intros x y z Nx. unfold find_location.
    rewrite (bind_returned _ _ w _ w (parse_hour_minute_ok epoch hrs mins _ w Hh Hm)).
    cbv beta iota.
    apply bind_raised, py_pow2_not_number, Nx.
  - intros x y z Nx Px Ny. unfold find_location.
    rewrite (bind_returned _ _ w _ w (parse_hour_minute_ok epoch hrs mins _ w Hh Hm)).
    cbv beta iota.
    rewrite (bind_returned _ _ w _ w (py_pow2_in_range pow2 x w Nx Px)).
    apply bind_raised, py_pow2_not_number, Ny.
  - intros x y z Hpow Nx Ny Px Py Axy Dxy Nz. unfold find_location.
    rewrite (bind_returned _ _ w _ w (parse_hour_minute_ok epoch hrs mins _ w Hh Hm)).
    cbv beta iota.
    rewrite (bind_returned _ _ w _ w (py_pow2_in_range pow2 x w Nx Px)).
    rewrite (bind_returned _ _ w _ w (py_pow2_in_range pow2 y w Ny Py)).
    assert (Nx2 : is_number (num_square pow2 x) = true)
      by (rewrite is_number_num_square; exact Nx).
    assert (Ny2 : is_number (num_square pow2 y) = true)
      by (rewrite is_number_num_square; exact Ny).
    rewrite (bind_returned _ _ w _ w (py_add_in_range _ _ w Nx2 Ny2 Axy)).
    rewrite (bind_returned _ _ w _ w
               (math_sqrt_in_range _ w
                  (nonneg_number_num_add _ _
                     (nonneg_number_num_square pow2 x Hpow Nx)
                     (nonneg_number_num_square pow2 y Hpow Ny)) Dxy)).
    apply bind_raised. unfold math_atan2. apply bind_raised.
    destruct z; (discriminate || reflexivity).
Qed.

(** An exception of the geocoding client is not caught either: with
    numbers in range it leaves [find_location], after the debug record
    of the longitude has been written. *)
Theorem find_location_geocoder_error :
  forall (x y z : pyval) (epoch : string) (hrs mins : Z) (e : exn) w,
    (forall a, nonneg (pow2 a) = true) ->
    int_of_str (slice 9 11 epoch) = Some hrs ->
    int_of_str (slice 12 14 epoch) = Some mins ->
    is_number x = true -> is_number y = true -> is_number z = true ->
    location_in_range pow2 x y z = true ->
    geocoder_reverse (latitude_of pow2 atan2 x y z)
      (normalize_longitude
         (raw_longitude (atan2 (num_double y) (num_double x)) hrs mins))
    = Raised e ->
    find_location pow2 str_float atan2 geocoder_reverse x y z epoch w
    = (Raised e,
       w ++ [LogRecord DEBUG
               ("longitude before conversion"
                +:+ str_float (raw_longitude (atan2 (num_double y) (num_double x))
                                 hrs mins))]).
Proof.
  intros x y z epoch hrs mins e w Hpow Hh Hm Nx Ny Nz Hr Hg.
  exact (find_location_run pow2 str_float atan2 geocoder_reverse
           x y z epoch hrs mins (Raised e) w Hh Hm Nx Ny Nz Hr
           (nonneg_number_num_add _ _
              (nonneg_number_num_square pow2 x Hpow Nx)
              (nonneg_number_num_square pow2 y Hpow Ny))
           (sum_of_squares_nonneg pow2 x y z Hpow Nx Ny Nz) Hg).
Qed.

End FindLocationErrors.

Lemma find_location_type_error_witness :
  find_location Sample.pow2 Sample.str_float Sample.atan2 Sample.geocoder_reverse
    (PyFloat (of_Z 4000)) (PyInt 1500) PyNone
    "2024-001T12:00:00.000Z" []
  = (Raised TypeError, []).
Proof.
  apply (proj2 (proj2 (find_location_type_error Sample.pow2 Sample.str_float
                         Sample.atan2 Sample.geocoder_reverse
                         "2024-001T12:00:00.000Z" 12 0 [] eq_refl eq_refl))).
  - exact sample_pow2_nonneg.
  - reflexivity.
  - reflexivity.
  - reflexivity.
  - reflexivity.
  - reflexivity.
  - vm_compute. reflexivity.
  - reflexivity.
Defined.

Lemma find_location_geocoder_error_witness :
  find_location Sample.pow2 Sample.str_float Sample.atan2 Sample.geocoder_down
    (PyFloat (of_Z 4000)) (PyFloat (of_Z 1500)) (PyInt (-5000))
    "2024-001T12:00:00.000Z" []
  = (Raised GeocoderError, [LogRecord DEBUG "longitude before conversion19.0"]).
Proof.
  rewrite (find_location_geocoder_error Sample.pow2 Sample.str_float Sample.atan2
             Sample.geocoder_down
             (PyFloat (of_Z 4000)) (PyFloat (of_Z 1500)) (PyInt (-5000))
             "2024-001T12:00:00.000Z" 12 0 GeocoderError []).
  - vm_compute. reflexivity.
  - exact sample_pow2_nonneg.
  - reflexivity.
  - reflexivity.
  - reflexivity.
  - reflexivity.
  - reflexivity.
  - vm_compute. reflexivity.
  - reflexivity.
Defined.

(** ** [find_location] out of range *)

Section FindLocationRange.

Variable pow2 : spec_float -> spec_float.
Variable str_float : spec_float -> string.
Variable atan2 : spec_float -> spec_float -> spec_float.
Variable geocoder_reverse : spec_float -> spec_float -> outcome (option string).

Lemma math_atan2_out_of_range_l a b w :
  double_in_range a = false ->
  math_atan2 atan2 a b w = (Raised OverflowError, w).
Proof.
  intros Da. unfold math_atan2, bind, lift.
  rewrite (as_double_out_of_range a Da). reflexivity.
Qed.

Lemma math_atan2_out_of_range_r a b w :
  is_number a = true -> double_in_range a = true ->
  double_in_range b = false ->
  math_atan2 atan2 a b w = (Raised OverflowError, w).
Proof.
  intros Na Da Db. unfold math_atan2, bind, lift.
  rewrite (as_double_in_range a Na Da), (as_double_out_of_range b Db).
  reflexivity.
Qed.

(** [location_in_range] is exact: on numbers for which it does not
    hold, with an epoch whose hour and minute read as ints, the call
    ends with [OverflowError], whatever the geocoder would answer. *)
Theorem find_location_out_of_range :
  forall (x y z : pyval) (epoch : string) (hrs mins : Z) w,
    (forall a, nonneg (pow2 a) = true) ->
    int_of_str (slice 9 11 epoch) = Some hrs ->
    int_of_str (slice 12 14 epoch) = Some mins ->
    is_number x = true -> is_number y = true -> is_number z = true ->
    location_in_range pow2 x y z = false ->
    fst (find_location pow2 str_float atan2 geocoder_reverse x y z epoch w)
    = Raised OverflowError.
Proof.
  intros x y z epoch hrs mins w Hpow Hh Hm Nx Ny Nz Hr.
  assert (Nx2 : is_number (num_square pow2 x) = true)
    by (rewrite is_number_num_square; exact Nx).
  assert (Ny2 : is_number (num_square pow2 y) = true)
    by (rewrite is_number_num_square; exact Ny).
  unfold location_in_range, speed_in_range in Hr. cbv zeta in Hr.
  unfold find_location.
  rewrite (bind_returned _ _ w _ w (parse_hour_minute_ok epoch hrs mins _ w Hh Hm)).
  cbv beta iota.
  destruct (pow_in_range pow2 x) eqn:Px;
    [| rewrite (bind_raised _ _ w _ w (py_pow2_out_of_range pow2 x w Px));
       reflexivity].
  rewrite (bind_returned _ _ w _ w (py_pow2_in_range pow2 x w Nx Px)).
  destruct (pow_in_range pow2 y) eqn:Py;
    [| rewrite (bind_raised _ _ w _ w (py_pow2_out_of_range pow2 y w Py));
       reflexivity].
  rewrite (bind_returned _ _ w _ w (py_pow2_in_range pow2 y w Ny Py)).
  destruct (add_in_range (num_square pow2 x) (num_square pow2 y)) eqn:Axy;
    [| rewrite (bind_raised _ _ w _ w (py_add_out_of_range _ _ w Axy));
       reflexivity].
  rewrite (bind_returned _ _ w _ w (py_add_in_range _ _ w Nx2 Ny2 Axy)).
  destruct (double_in_range (num_add (num_square pow2 x) (num_square pow2 y)))
    eqn:Dxy;
    [| rewrite (bind_raised _ _ w _ w (math_sqrt_out_of_range _ w Dxy));
       reflexivity].
  rewrite (bind_returned _ _ w _ w
             (math_sqrt_in_range _ w
                (nonneg_number_num_add _ _
                   (nonneg_number_num_square pow2 x Hpow Nx)
                   (nonneg_number_num_square pow2 y Hpow Ny)) Dxy)).
  destruct (double_in_range z) eqn:Dz;
    [| rewrite (bind_raised _ _ w _ w
                  (math_atan2_out_of_range_l z (PyFloat _) w Dz));
       reflexivity].
  rewrite (bind_returned _ _ w _ w
             (math_atan2_in_range atan2 z (PyFloat _) w Nz eq_refl Dz eq_refl)).
  destruct (double_in_range y) eqn:Dy;
    [| rewrite (bind_raised _ _ w _ w (math_atan2_out_of_range_l y x w Dy));
       reflexivity].
  destruct (double_in_range x) eqn:Dx;
    [| rewrite (bind_raised _ _ w _ w (math_atan2_out_of_range_r y x w Ny Dy Dx));
       reflexivity].
  rewrite (bind_returned _ _ w _ w (math_atan2_in_range atan2 y x w Ny Nx Dy Dx)).
  rewrite (bind_returned _ _ w tt
             (w ++ [LogRecord DEBUG
                      ("longitude before conversion"
                       +:+ str_float (raw_longitude
                                        (atan2 (num_double y) (num_double x))
                                        hrs mins))]) eq_refl).
  cbn [andb] in Hr.
  destruct (pow_in_range pow2 z
            && add_in_range (num_add (num_square pow2 x) (num_square pow2 y))
                            (num_square pow2 z)) eqn:Hz.
  - apply andb_true_iff in Hz. destruct Hz as [Pz Az].
    cbn [andb] in Hr.
    rewrite (bind_returned _ _ _ _ _
               (sum_of_squares_in_range pow2 x y z _ Nx Ny Nz Px Py Axy Pz Az)).
    rewrite (bind_raised _ _ _ _ _ (math_sqrt_out_of_range _ _ Hr)).
    reflexivity.
  - assert (Hsum : pow_in_range pow2 x && pow_in_range pow2 y
                   && add_in_range (num_square pow2 x) (num_square pow2 y)
                   && pow_in_range pow2 z
                   && add_in_range (num_add (num_square pow2 x) (num_square pow2 y))
                                   (num_square pow2 z) = false).
    { rewrite Px, Py, Axy. cbn [andb]. exact Hz. }
    rewrite (bind_raised _ _ _ _ _
               (sum_of_squares_out_of_range pow2 x y z _ Nx Ny Nz Hsum)).
    reflexivity.
Qed.

End FindLocationRange.

Lemma find_location_out_of_range_witness :
  fst (find_location Sample.pow2 Sample.str_float Sample.atan2
         Sample.geocoder_reverse
         (PyInt 4000) (PyInt (10 ^ 400)) (PyFloat (of_Z (-5000)))
         "2024-001T12:00:00.000Z" [])
  = Raised OverflowError.
Proof.
  apply (find_location_out_of_range Sample.pow2 Sample.str_float Sample.atan2
           Sample.geocoder_reverse
           (PyInt 4000) (PyInt (10 ^ 400)) (PyFloat (of_Z (-5000)))
           "2024-001T12:00:00.000Z" 12 0 []).
  - exact sample_pow2_nonneg.
  - reflexivity.
  - reflexivity.
  - reflexivity.
  - reflexivity.
  - reflexivity.
  - vm_compute. reflexivity.
Defined.

(** ** [return_all]: the page of [/epochs] *)

Lemma int_of_arg_settled arg default message w :
  try_except (int_of_arg arg default) ValueError
    (logging_error message ;;; ret default) w
  = (Returned (arg_value arg default), w ++ arg_errors arg message).
Proof.
  unfold try_except, int_of_arg, arg_value, arg_errors, py_int.
  destruct arg as [s |].
  - destruct (int_of_str s) as [n |].
    + unfold ret. rewrite app_nil_r. reflexivity.
    + reflexivity.
  - unfold ret. rewrite app_nil_r. reflexivity.
Qed.

Lemma return_all_settled {A} (data : list A) limit offset w :
  return_all data limit offset w
  = collect_page data (arg_value offset 0)
      (py_range (arg_value limit (Z.of_nat (length data)))) []
      (w ++ arg_errors limit "'limit' parameter must be a positive integer"
         ++ arg_errors offset "'offset' parameter must be a positive integer").
Proof.
  unfold return_all.
  rewrite (bind_returned _ _ w _ _ (int_of_arg_settled limit _ _ w)).
  rewrite (bind_returned _ _ _ _ _ (int_of_arg_settled offset _ _ _)).
  rewrite <- app_assoc. reflexivity.
Qed.

(** The loop over indices that all land at or after the start of the
    list. *)
Lemma collect_page_forward {A} (data : list A) (offset : Z) w :
  forall (n k : nat) (acc : list A),
    0 <= Z.of_nat k + offset ->
    collect_page data offset (map Z.of_nat (seq k n)) acc w
    = (Returned (acc ++ take n (drop (Z.to_nat (Z.of_nat k + offset)) data)), w).
Proof.
  induction n as [| n IH]; intros k acc Hk.
  - cbn. unfold ret. rewrite take_0, app_nil_r. reflexivity.
  - cbn [seq map collect_page].
    destruct (Z.of_nat k + offset <? Z.of_nat (length data)) eqn:Hlt.
    + apply Z.ltb_lt in Hlt.
      destruct (lookup_lt_is_Some_2 data (Z.to_nat (Z.of_nat k + offset)))
        as [a Ha]; [lia |].
      assert (Hget : list_getitem data (Z.of_nat k + offset) w = (Returned a, w)).
      { rewrite <- (Z2Nat.id (Z.of_nat k + offset)) by lia.
        apply list_getitem_nonneg. exact Ha. }
      rewrite (bind_returned _ _ w a w Hget).
      rewrite (IH (S k) (acc ++ [a])) by lia.
      rewrite (drop_S _ _ _ Ha). cbn [take]. rewrite <- app_assoc.
      replace (Z.to_nat (Z.of_nat (S k) + offset))
        with (S (Z.to_nat (Z.of_nat k + offset))) by lia.
      reflexivity.
    + apply Z.ltb_ge in Hlt.
      rewrite (IH (S k) acc) by lia.
      rewrite !drop_ge by lia. rewrite !take_nil. reflexivity.
Qed.

(** For an offset that is not negative the page is the slice
    [data[offset : offset + limit]]: an absent or non-numeric [limit]
    counts as [len(data)], an absent or non-numeric [offset] as 0, and
    each parameter that is present and no int logs one error.  Nothing
    is raised, and a limit below 1 gives the empty page. *)
Theorem return_all_slice :
  forall (A : Type) (data : list A) (limit offset : option string) w,
    0 <= arg_value offset 0 ->
    return_all data limit offset w
    = (Returned
         (take (Z.to_nat (arg_value limit (Z.of_nat (length data))))
               (drop (Z.to_nat (arg_value offset 0)) data)),
       w ++ arg_errors limit "'limit' parameter must be a positive integer"
         ++ arg_errors offset "'offset' parameter must be a positive integer").
Proof.
  intros A data limit offset w Hoff.
  rewrite return_all_settled. unfold py_range.
  rewrite (collect_page_forward data (arg_value offset 0) _ _ 0%nat []) by lia.
  reflexivity.
Qed.

Lemma return_all_slice_witness :
  return_all [1; 2; 3; 4; 5] (Some "2") (Some "abc") []
  = (Returned [1; 2],
     [] ++ [] ++ [LogRecord ERROR "'offset' parameter must be a positive integer"]).
Proof.
  exact (return_all_slice Z [1; 2; 3; 4; 5] (Some "2") (Some "abc") []
           ltac:(vm_compute; discriminate)).
Defined.

(** Without usable parameters the whole list comes back: when [limit]
    and [offset] are each absent or no int, the page is [data]. *)
Theorem return_all_everything :
  forall (A : Type) (data : list A) (limit offset : option string) w,
    (forall s, limit = Some s -> int_of_str s = None) ->
    (forall s, offset = Some s -> int_of_str s = None) ->
    fst (return_all data limit offset w) = Returned data.
Proof.
  intros A data limit offset w Hl Ho.
  assert (El : arg_value limit (Z.of_nat (length data)) = Z.of_nat (length data)).
  { unfold arg_value. destruct limit as [s |]; [| reflexivity].
    rewrite (Hl s eq_refl). reflexivity. }
  assert (Eo : arg_value offset 0 = 0).
  { unfold arg_value. destruct offset as [s |]; [| reflexivity].
    rewrite (Ho s eq_refl). reflexivity. }
  rewrite return_all_settled, El, Eo. unfold py_range.
  rewrite (collect_page_forward data 0 _ _ 0%nat []) by lia.
  cbn [fst]. rewrite Nat2Z.id. cbn [app drop Z.to_nat Z.add Z.of_nat].
  rewrite firstn_all. reflexivity.
Qed.

Lemma return_all_everything_witness :
  fst (return_all [1; 2; 3] (Some "abc") None []) = Returned [1; 2; 3].
Proof.
  apply (return_all_everything Z [1; 2; 3] (Some "abc") None []).
  - intros s H. injection H as <-. reflexivity.
  - intros s H. discriminate H.
Defined.

Lemma list_getitem_negative {A} (l : list A) (i : Z) (a : A) w :
  i < 0 -> l !! Z.to_nat (i + Z.of_nat (length l)) = Some a ->
  0 <= i + Z.of_nat (length l) ->
  list_getitem l i w = (Returned a, w).
Proof.
  intros Hneg Hl Hin. pose proof (lookup_lt_Some _ _ _ Hl) as Hlt.
  unfold list_getitem.
  replace (i <? 0) with true by (symmetry; apply Z.ltb_lt; lia).
  cbv iota.
  replace ((0 <=? i + Z.of_nat (length l))
           && (i + Z.of_nat (length l) <? Z.of_nat (length l))) with true.
  - rewrite Hl. reflexivity.
  - symmetry. apply andb_true_iff. split; [apply Z.leb_le | apply Z.ltb_lt]; lia.
Qed.

(** The loop over indices that all land before the start of the list,
    and no further back than its length. *)
Lemma collect_page_wrapped {A} (data : list A) (offset : Z) w :
  forall (n k : nat) (rest : list Z) (acc : list A),
    Z.of_nat (k + n) + offset <= 0 ->
    0 <= Z.of_nat (length data) + Z.of_nat k + offset ->
    collect_page data offset (map Z.of_nat (seq k n) ++ rest) acc w
    = collect_page data offset rest
        (acc ++ take n (drop (Z.to_nat (Z.of_nat (length data) + Z.of_nat k + offset))
                          data)) w.
Proof.
  induction n as [| n IH]; intros k rest acc Hk Hin.
  - cbn [seq map app]. rewrite take_0, app_nil_r. reflexivity.
  - cbn [seq map app collect_page].
    replace (Z.of_nat k + offset <? Z.of_nat (length data)) with true
      by (symmetry; apply Z.ltb_lt; lia).
    destruct (lookup_lt_is_Some_2 data
                (Z.to_nat (Z.of_nat (length data) + Z.of_nat k + offset)))
      as [a Ha]; [lia |].
    assert (Hget : list_getitem data (Z.of_nat k + offset) w = (Returned a, w)).
    { apply list_getitem_negative; [lia | | lia].
      replace (Z.of_nat k + offset + Z.of_nat (length data))
        with (Z.of_nat (length data) + Z.of_nat k + offset) by lia.
      exact Ha. }
    rewrite (bind_returned _ _ w a w Hget).
    rewrite (IH (S k) rest (acc ++ [a])) by lia.
    rewrite (drop_S _ _ _ Ha). cbn [take]. rewrite <- app_assoc.
    replace (Z.to_nat (Z.of_nat (length data) + Z.of_nat (S k) + offset))
      with (S (Z.to_nat (Z.of_nat (length data) + Z.of_nat k + offset))) by lia.
    reflexivity.
Qed.

(** A negative offset is not refused: down to [-len(data)] it wraps
    around, since [data[i + offset]] counts a negative index from the
    end.  The page then is the first [limit] elements of the last
    [-offset] records followed by the whole list. *)
Theorem return_all_negative_offset_wraps :
  forall (A : Type) (data : list A) (limit offset : option string) w,
    - Z.of_nat (length data) <= arg_value offset 0 < 0 ->
    return_all data limit offset w
    = (Returned
         (take (Z.to_nat (arg_value limit (Z.of_nat (length data))))
               (drop (Z.to_nat (Z.of_nat (length data) + arg_value offset 0)) data
                ++ data)),
       w ++ arg_errors limit "'limit' parameter must be a positive integer"
         ++ arg_errors offset "'offset' parameter must be a positive integer").
Proof.
  intros A data limit offset w Hoff. rewrite return_all_settled.
  set (o := arg_value offset 0) in *.
  set (N := Z.to_nat (arg_value limit (Z.of_nat (length data)))).
  set (w' := w ++ _ ++ _).
  unfold py_range. fold N.
  set (K := Z.to_nat (- o)).
  assert (Hlen : length (drop (Z.to_nat (Z.of_nat (length data) + o)) data) = K).
  { rewrite length_drop. subst K. lia. }
  destruct (le_lt_dec N K) as [Hle | Hgt].
  - rewrite <- (app_nil_r (map Z.of_nat (seq 0 N))).
    rewrite (collect_page_wrapped data o w' N 0 [] []) by lia.
    cbn [collect_page app Z.of_nat]. rewrite Z.add_0_r.
    rewrite take_app_le by lia. reflexivity.
  - replace N with (K + (N - K))%nat at 1 by lia.
    rewrite seq_app, map_app.
    rewrite (collect_page_wrapped data o w' K 0 _ []) by lia.
    rewrite (collect_page_forward data o w' (N - K) (0 + K)) by lia.
    cbn [app Z.of_nat]. rewrite Z.add_0_r.
    replace (Z.to_nat (Z.of_nat (0 + K) + o)) with 0%nat by lia.
    rewrite drop_0, take_app, Hlen.
    rewrite (take_ge _ K) by lia. rewrite (take_ge _ N) by lia. reflexivity.
Qed.

Lemma return_all_negative_offset_wraps_witness :
  return_all [1; 2; 3; 4; 5] (Some "3") (Some "-2") []
  = (Returned [4; 5; 1], [] ++ [] ++ []).
Proof.
  apply (return_all_negative_offset_wraps Z [1; 2; 3; 4; 5] (Some "3") (Some "-2") []).
  split; [vm_compute; discriminate | reflexivity].
Defined.

(** An offset below [-len(data)] is the one input that makes the page
    fail: as soon as the loop runs once, [data[offset]] raises
    [IndexError], which nothing catches. *)
Theorem return_all_offset_out_of_range :
  forall (A : Type) (data : list A) (limit offset : option string) w,
    arg_value offset 0 < - Z.of_nat (length data) ->
    1 <= arg_value limit (Z.of_nat (length data)) ->
    fst (return_all data limit offset w) = Raised IndexError.
Proof.
  intros A data limit offset w Hoff Hlim. rewrite return_all_settled.
  set (o := arg_value offset 0) in *.
  unfold py_range.
  destruct (Z.to_nat (arg_value limit (Z.of_nat (length data)))) as [| n] eqn:En;
    [lia |].
  cbn [seq map collect_page]. change (Z.of_nat 0 + o) with o.
  replace (o <? Z.of_nat (length data)) with true
    by (symmetry; apply Z.ltb_lt; lia).
  unfold bind, list_getitem.
  replace (o <? 0) with true by (symmetry; apply Z.ltb_lt; lia).
  cbv iota.
  replace (0 <=? o + Z.of_nat (length data)) with false
    by (symmetry; apply Z.leb_gt; lia).
  reflexivity.
Qed.

Lemma return_all_offset_out_of_range_witness :
  fst (return_all [1; 2; 3] None (Some "-4") []) = Raised IndexError.
Proof.
  apply (return_all_offset_out_of_range Z [1; 2; 3] None (Some "-4") []).
  - reflexivity.
  - vm_compute. discriminate.
Defined.

(** ** What [int] refuses of a query parameter *)

Lemma int_digits_all_digits s :
  forallb is_digit s = true ->
  forall acc count,
    int_digits acc count s
    = (fold_left (fun a c => 10 * a + digit_value c) s acc,
       count + Z.of_nat (length s), []).
Proof.
  induction s as [| c s IH]; intros Hs acc count.
  - cbn. rewrite Z.add_0_r. reflexivity.
  - cbn [forallb] in Hs. apply andb_true_iff in Hs. destruct Hs as [Hc Hs].
    cbn [int_digits]. rewrite Hc, (IH Hs). cbn [fold_left length].
    do 2 f_equal. lia.
Qed.

(** [int] on a string of digits: the number when there are at most
    4300 of them, a [ValueError] beyond. *)
Lemma int_of_str_all_digits s :
  all_digits s = true -> s <> EmptyString ->
  int_of_str s
  = if Z.of_nat (String.length s) <=? int_max_str_digits
    then Some (decimal (list_ascii_of_string s))
    else None.
Proof.
  unfold all_digits. destruct s as [| d s]; [congruence |].
  intros Hs _. cbn [list_ascii_of_string forallb] in Hs.
  apply andb_true_iff in Hs. destruct Hs as [Hd Hs].
  pose proof (is_digit_code d Hd) as Hc.
  unfold int_of_str. cbn [list_ascii_of_string lstrip].
  rewrite (is_digit_not_space d Hd).
  replace (code d =? 43) with false by (symmetry; apply Z.eqb_neq; lia).
  replace (code d =? 45) with false by (symmetry; apply Z.eqb_neq; lia).
  unfold int_unsigned. rewrite Hd, (int_digits_all_digits _ Hs).
  cbn [forallb]. rewrite andb_true_r.
  replace (1 + Z.of_nat (length (list_ascii_of_string s)))
    with (Z.of_nat (String.length (String d s))).
  - unfold decimal. cbn [fold_left].
    replace (10 * 0 + digit_value d) with (digit_value d) by lia.
    reflexivity.
  - cbn [String.length]. rewrite Nat2Z.inj_succ.
    assert (E : length (list_ascii_of_string s) = String.length s).
    { clear. induction s as [| c s IH]; [reflexivity |].
      cbn. rewrite IH. reflexivity. }
    rewrite E. lia.
Qed.

(** A [limit] that [int] refuses makes [return_all] log the error of
    the limit and return the whole list.  The separator [chr(28)]
    before a digit is refused, although [str.isspace] holds of it, and
    so is every literal of more than 4300 digits; a literal of at most
    4300 digits is read, and so is a number between blanks. *)
Theorem return_all_unreadable_limit :
  (forall (A : Type) (data : list A) (limit : string) w,
      int_of_str limit = None ->
      return_all data (Some limit) None w
      = (Returned data,
         w ++ [LogRecord ERROR "'limit' parameter must be a positive integer"]))
  /\ int_of_str (String (ascii_of_nat 28) "2") = None
  /\ (forall s : string,
        all_digits s = true -> (4300 < String.length s)%nat ->
        int_of_str s = None)
  /\ (forall s : string,
        all_digits s = true -> (1 <= String.length s <= 4300)%nat ->
        int_of_str s = Some (decimal (list_ascii_of_string s)))
  /\ int_of_str " 12 " = Some 12.
Proof.
  split; [| split; [| split; [| split]]].
  - intros A data limit w Hl. rewrite return_all_settled.
    unfold arg_value, arg_errors. rewrite Hl. unfold py_range.
    rewrite (collect_page_forward data 0 _ _ 0%nat []) by lia.
    rewrite Nat2Z.id. cbn [app drop Z.to_nat Z.add Z.of_nat].
    rewrite firstn_all. reflexivity.
  - reflexivity.
  - intros s Hs Hlen. rewrite (int_of_str_all_digits s Hs).
    + unfold int_max_str_digits.
      replace (Z.of_nat (String.length s) <=? 4300) with false
        by (symmetry; apply Z.leb_gt; lia).
      reflexivity.
    + intros ->. cbn in Hlen. lia.
  - intros s Hs Hlen. rewrite (int_of_str_all_digits s Hs).
    + unfold int_max_str_digits.
      replace (Z.of_nat (String.length s) <=? 4300) with true
        by (symmetry; apply Z.leb_le; lia).
      reflexivity.
    + intros ->. cbn in Hlen. lia.
  - reflexivity.
Qed.

Lemma return_all_unreadable_limit_witness :
  return_all [1; 2; 3] (Some (String (ascii_of_nat 28) "2")) None []
  = (Returned [1; 2; 3],
     [] ++ [LogRecord ERROR "'limit' parameter must be a positive integer"])
  /\ int_of_str "2024" = Some 2024.
Proof.
  split.
  - exact (proj1 return_all_unreadable_limit Z [1; 2; 3]
             (String (ascii_of_nat 28) "2") [] eq_refl).
  - apply (proj1 (proj2 (proj2 (proj2 return_all_unreadable_limit))) "2024").
    + reflexivity.
    + cbn. lia.
Defined.

(** ** [return_comments] *)

Lemma blank_comments_run w :
  forall (n k : nat) (cur : list xval),
    (k + n)%nat = length cur ->
    blank_comments (seq k n) cur w
    = (Returned (take k cur ++ map blank_none (drop k cur)), w).
Proof.
  induction n as [| n IH]; intros k cur Hlen.
  - cbn [seq blank_comments]. rewrite drop_ge by lia. rewrite take_ge by lia.
    cbn [map]. rewrite app_nil_r. reflexivity.
  - cbn [seq blank_comments].
    destruct (lookup_lt_is_Some_2 cur k) as [c Hc]; [lia |].
    rewrite Hc. rewrite (drop_S _ _ _ Hc). cbn [map].
    destruct (eq_none c) eqn:Ec.
    + rewrite (IH (S k) (<[k := XStr EmptyString]> cur))
        by (rewrite length_insert; lia).
      assert (Hk : (<[k := XStr EmptyString]> cur) !! k = Some (XStr EmptyString))
        by (apply list_lookup_insert_eq; lia).
      rewrite (take_S_r _ _ _ Hk), take_insert_ge by lia.
      rewrite drop_insert_lt by lia.
      unfold blank_none at 2. rewrite Ec, <- app_assoc. reflexivity.
    + rewrite (IH (S k) cur) by lia.
      rewrite (take_S_r _ _ _ Hc).
      unfold blank_none at 2. rewrite Ec, <- app_assoc. reflexivity.
Qed.

(** On a list of comments the loop replaces every [None] by the empty
    string and leaves every other entry, the order and the length as
    they are; it raises nothing and logs nothing. *)
Theorem return_comments_blanks_none :
  forall (l : list xval) w,
    return_comments (XList l) w = (Returned (XList (map blank_none l)), w)
    /\ length (map blank_none l) = length l
    /\ Forall (fun c => eq_none c = false) (map blank_none l).
Proof.
  intros l w. split; [| split].
  - unfold return_comments.
    rewrite (bind_returned _ _ w _ w (blank_comments_run w (length l) 0 l eq_refl)).
    rewrite take_0, drop_0. reflexivity.
  - apply length_map.
  - induction l as [| c l IH]; cbn [map]; constructor; [| exact IH].
    unfold blank_none. destruct (eq_none c) eqn:E; [reflexivity | exact E].
Qed.

(** ** [return_epoch] *)

Lemma return_epoch_skip epoch item rest w :
  other_epoch epoch item ->
  return_epoch (item :: rest) epoch w = return_epoch rest epoch w.
Proof.
  intros [m [e [-> [Hm He]]]]. cbn [return_epoch xgetitem]. rewrite Hm.
  unfold bind, ret. rewrite He. reflexivity.
Qed.

Lemma return_epoch_skip_all epoch pre rest w :
  Forall (other_epoch epoch) pre ->
  return_epoch (pre ++ rest) epoch w = return_epoch rest epoch w.
Proof.
  induction 1 as [| item pre Hitem _ IH]; [reflexivity |].
  change ((item :: pre) ++ rest) with (item :: (pre ++ rest)).
  rewrite (return_epoch_skip epoch item _ w Hitem). exact IH.
Qed.

(** The first state vector whose epoch is the requested string comes
    back, untouched and with nothing logged, whatever follows it. *)
Theorem return_epoch_first_match :
  forall (pre : list xval) (item : xval) (post : list xval) (epoch : string) w,
    Forall (other_epoch epoch) pre -> has_epoch epoch item ->
    return_epoch (pre ++ item :: post) epoch w = (Returned item, w).
Proof.
  intros pre item post epoch w Hpre [m [-> Hm]].
  rewrite (return_epoch_skip_all epoch pre _ w Hpre).
  cbn [return_epoch xgetitem]. rewrite Hm. unfold bind, ret.
  cbn [eq_str]. rewrite String.eqb_refl. reflexivity.
Qed.

(** When no state vector has the requested epoch, the result is the
    empty dictionary and one error is logged. *)
Theorem return_epoch_not_found :
  forall (data : list xval) (epoch : string) w,
    Forall (other_epoch epoch) data ->
    return_epoch data epoch w
    = (Returned (XDict ∅),
       w ++ [LogRecord ERROR
               (epoch_not_found_msg
                  "'yyyy-dddThh:mm:ss.xxxZ'. Empty dictionary returned")]).
Proof.
  intros data epoch w Hall.
  rewrite <- (app_nil_r data), (return_epoch_skip_all epoch data [] w Hall).
  reflexivity.
Qed.

(** Whatever comes back is the empty dictionary or a state vector of
    the data whose epoch is the requested string: the route never
    answers with another epoch's record. *)
Theorem return_epoch_sound :
  forall (data : list xval) (epoch : string) (d : xval) w,
    fst (return_epoch data epoch w) = Returned d ->
    (d ∈ data /\ has_epoch epoch d) \/ d = XDict ∅.
Proof.
  induction data as [| item rest IH]; intros epoch d w.
  - cbn. intros H. injection H as <-. right. reflexivity.
  - cbn [return_epoch]. unfold bind at 1.
    destruct item as [| s | l | m]; cbn [xgetitem]; try discriminate.
    destruct (m !! "EPOCH") as [e |] eqn:Hm; [| discriminate].
    cbn [ret]. destruct (eq_str e epoch) eqn:He.
    + intros H. injection H as <-. left. split; [apply list_elem_of_here |].
      exists m. split; [reflexivity |].
      destruct e as [| t | |]; try discriminate.
      cbn [eq_str] in He. apply String.eqb_eq in He. subst t. exact Hm.
    + intros H. destruct (IH epoch d w H) as [[Hin Hd] | Hd].
      * left. split; [apply list_elem_of_further, Hin | exact Hd].
      * right. exact Hd.
Qed.

(** A state vector without an ["EPOCH"] entry, met before any match,
    ends the route with [KeyError], even if a later one would match. *)
Theorem return_epoch_key_error :
  forall (pre : list xval) (m : gmap string xval) (post : list xval)
         (epoch : string) w,
    Forall (other_epoch epoch) pre -> m !! "EPOCH" = None ->
    return_epoch (pre ++ XDict m :: post) epoch w = (Raised KeyError, w).
Proof.
  intros pre m post epoch w Hpre Hm.
  rewrite (return_epoch_skip_all epoch pre _ w Hpre).
  cbn [return_epoch xgetitem]. rewrite Hm. reflexivity.
Qed.


(** ** The speed and location routes *)

Lemma calc_speed_3d_floats_quiet pow2 a b c w :
  snd (calc_speed_3d pow2 (PyFloat a) (PyFloat b) (PyFloat c) w) = w.
Proof.
  unfold calc_speed_3d, try_except, bind, sum_of_squares, bind, py_pow2.
  destruct (float_pow2_cases pow2 a) as [Ea | [ra Ea]]; rewrite Ea;
    [reflexivity |].
  destruct (float_pow2_cases pow2 b) as [Eb | [rb Eb]]; rewrite Eb;
    [reflexivity |].
  cbn [ret py_add].
  destruct (float_pow2_cases pow2 c) as [Ec | [rc Ec]]; rewrite Ec;
    [reflexivity |].
  cbn [ret py_add]. unfold math_sqrt, bind, lift. cbn [as_double].
  destruct (nonneg (fadd (fadd ra rb) rc)); reflexivity.
Qed.

Lemma calc_speed_3d_floats_run pow2 x y z w :
  (forall a, nonneg (pow2 a) = true) ->
  square_overflows pow2 x = false -> square_overflows pow2 y = false ->
  square_overflows pow2 z = false ->
  calc_speed_3d pow2 (PyFloat x) (PyFloat y) (PyFloat z) w
  = (Returned (fsqrt (fadd (fadd (float_sq pow2 x) (float_sq pow2 y))
                           (float_sq pow2 z))), w).
Proof.
  intros Hpow Hx Hy Hz. unfold calc_speed_3d, try_except, bind.
  rewrite (sum_of_squares_floats pow2 x y z w Hx Hy Hz).
  rewrite (math_sqrt_float _ w (sum_float_squares_nonneg pow2 x y z Hpow)).
  reflexivity.
Qed.

Section RoutesProofs.

Variable pow2 : spec_float -> spec_float.
Variable float_of_str : string -> option spec_float.
Variable str_float : spec_float -> string.
Variable str_xval : xval -> string.
Variable atan2 : spec_float -> spec_float -> spec_float.
Variable geocoder_reverse : spec_float -> spec_float -> outcome (option string).

Local Abbreviation speed_route :=
  (return_epoch_speed pow2 float_of_str str_float str_xval).
Local Abbreviation location_route :=
  (return_epoch_location pow2 float_of_str str_float atan2 geocoder_reverse).
Local Abbreviation field := (float_field float_of_str).

Lemma float_field_text item name s f w :
  text_field item name = Some s -> float_of_str s = Some f ->
  field item name w = (Returned f, w).
Proof.
  unfold text_field, float_field. intros Ht Hf.
  destruct item as [| ? | ? | m]; try discriminate.
  cbn [xgetitem]. destruct (m !! name) as [[| ? | ? | inner] |]; try discriminate.
  unfold bind at 1. cbn [ret xgetitem].
  destruct (inner !! "#text") as [[| t | ? | ?] |]; try discriminate.
  injection Ht as ->. unfold bind, ret, py_float. rewrite Hf. reflexivity.
Qed.

Lemma float_field_unreadable item name s w :
  text_field item name = Some s -> float_of_str s = None ->
  field item name w = (Raised ValueError, w).
Proof.
  unfold text_field, float_field. intros Ht Hf.
  destruct item as [| ? | ? | m]; try discriminate.
  cbn [xgetitem]. destruct (m !! name) as [[| ? | ? | inner] |]; try discriminate.
  unfold bind at 1. cbn [ret xgetitem].
  destruct (inner !! "#text") as [[| t | ? | ?] |]; try discriminate.
  injection Ht as ->. unfold bind, ret, py_float. rewrite Hf. reflexivity.
Qed.

Lemma float_field_quiet item name w : snd (field item name w) = w.
Proof.
  unfold float_field, bind.
  destruct item as [| ? | ? | m]; try reflexivity.
  cbn [xgetitem]. destruct (m !! name) as [[| ? | ? | inner] |]; try reflexivity.
  cbn [ret xgetitem].
  destruct (inner !! "#text") as [[| t | ? | ?] |]; try reflexivity.
  cbn [ret py_float]. destruct (float_of_str t); reflexivity.
Qed.

Lemma return_epoch_speed_skip_all epoch pre rest w :
  Forall (other_epoch epoch) pre ->
  speed_route (pre ++ rest) epoch w = speed_route rest epoch w.
Proof.
  induction 1 as [| item pre [m [e [-> [Hm He]]]] _ IH]; [reflexivity |].
  change ((XDict m :: pre) ++ rest) with (XDict m :: (pre ++ rest)).
  cbn [return_epoch_speed xgetitem]. rewrite Hm.
  unfold bind at 1. cbn [ret]. rewrite He. exact IH.
Qed.

Lemma return_epoch_location_skip_all epoch pre rest w :
  Forall (other_epoch epoch) pre ->
  location_route (pre ++ rest) epoch w = location_route rest epoch w.
Proof.
  induction 1 as [| item pre [m [e [-> [Hm He]]]] _ IH]; [reflexivity |].
  change ((XDict m :: pre) ++ rest) with (XDict m :: (pre ++ rest)).
  cbn [return_epoch_location xgetitem]. rewrite Hm.
  unfold bind at 1. cbn [ret]. rewrite He. exact IH.
Qed.

(** The speed route once the state vector with the epoch is reached. *)
Lemma return_epoch_speed_at pre m post epoch w :
  Forall (other_epoch epoch) pre -> m !! "EPOCH" = Some (XStr epoch) ->
  speed_route (pre ++ XDict m :: post) epoch w
  = (x_dot <- field (XDict m) "X_DOT" ;;
     y_dot <- field (XDict m) "Y_DOT" ;;
     z_dot <- field (XDict m) "Z_DOT" ;;
     speed <- calc_speed_3d pow2 (PyFloat x_dot) (PyFloat y_dot) (PyFloat z_dot) ;;
     ret (str_float speed +:+ newline))
      (w ++ [LogRecord DEBUG (str_xval (XDict m))]).
Proof.
  intros Hpre Hm.
  rewrite (return_epoch_speed_skip_all epoch pre _ w Hpre).
  cbn [return_epoch_speed xgetitem]. rewrite Hm.
  unfold bind at 1. cbn [ret eq_str]. rewrite String.eqb_refl.
  unfold bind at 1, logging_debug. reflexivity.
Qed.

(** For the first state vector with the requested epoch, whose three
    velocity texts read as floats with squares in range, the speed
    route answers [str] of the square root of the sum of the squares,
    followed by a line feed, and logs the state vector at debug level. *)
Theorem return_epoch_speed_found :
  forall (pre : list xval) (item : xval) (post : list xval) (epoch : string)
         (sx sy sz : string) (x y z : spec_float) w,
    (forall a, nonneg (pow2 a) = true) ->
    Forall (other_epoch epoch) pre -> has_epoch epoch item ->
    text_field item "X_DOT" = Some sx -> float_of_str sx = Some x ->
    text_field item "Y_DOT" = Some sy -> float_of_str sy = Some y ->
    text_field item "Z_DOT" = Some sz -> float_of_str sz = Some z ->
    square_overflows pow2 x = false -> square_overflows pow2 y = false ->
    square_overflows pow2 z = false ->
    return_epoch_speed pow2 float_of_str str_float str_xval
      (pre ++ item :: post) epoch w
    = (Returned
         (str_float (fsqrt (fadd (fadd (float_sq pow2 x) (float_sq pow2 y))
                                 (float_sq pow2 z)))
          +:+ newline),
       w ++ [LogRecord DEBUG (str_xval item)]).
Proof.
  intros pre item post epoch sx sy sz x y z w Hpow Hpre [m [-> Hm]]
    Tx Fx Ty Fy Tz Fz Hx Hy Hz.
  rewrite (return_epoch_speed_at pre m post epoch w Hpre Hm).
  rewrite (bind_returned _ _ _ _ _ (float_field_text _ _ _ _ _ Tx Fx)).
  rewrite (bind_returned _ _ _ _ _ (float_field_text _ _ _ _ _ Ty Fy)).
  rewrite (bind_returned _ _ _ _ _ (float_field_text _ _ _ _ _ Tz Fz)).
  rewrite (bind_returned _ _ _ _ _
             (calc_speed_3d_floats_run pow2 x y z _ Hpow Hx Hy Hz)).
  reflexivity.
Qed.

(** When no state vector has the requested epoch, the speed route
    answers [str(0.0)] and a line feed, and logs one error. *)
Theorem return_epoch_speed_not_found :
  forall (data : list xval) (epoch : string) w,
    Forall (other_epoch epoch) data ->
    return_epoch_speed pow2 float_of_str str_float str_xval data epoch w
    = (Returned (str_float (S754_zero false) +:+ newline),
       w ++ [LogRecord ERROR
               (epoch_not_found_msg "'yyyy-dddThh:mm:ss.xxxZ'. Zero value returned")]).
Proof.
  intros data epoch w Hall.
  rewrite <- (app_nil_r data), (return_epoch_speed_skip_all epoch data [] w Hall).
  reflexivity.
Qed.

(** Through the speed route the handler of [calc_speed_3d] is never
    entered: the arguments are always floats, so whatever the data and
    the epoch, the records that the route appends to the log never
    include the "Non numerical values" error. *)
Theorem return_epoch_speed_never_defaults :
  forall (data : list xval) (epoch : string) w,
    exists d,
      snd (return_epoch_speed pow2 float_of_str str_float str_xval data epoch w)
      = w ++ d
      /\ Forall (fun r => r <> LogRecord ERROR speed_error_msg) d.
Proof.
  induction data as [| item rest IH]; intros epoch w.
  - eexists. split; [reflexivity |]. repeat constructor. discriminate.
  - cbn [return_epoch_speed]. unfold bind at 1.
    destruct item as [| s | l | m]; cbn [xgetitem];
      try (exists []; split; [cbn; rewrite app_nil_r; reflexivity | constructor]).
    destruct (m !! "EPOCH") as [e |];
      [| exists []; split; [cbn; rewrite app_nil_r; reflexivity | constructor]].
    cbn [ret]. destruct (eq_str e epoch); [| apply IH].
    exists [LogRecord DEBUG (str_xval (XDict m))].
    split; [| repeat constructor; discriminate].
    unfold bind at 1, logging_debug.
    set (w1 := w ++ [LogRecord DEBUG (str_xval (XDict m))]).
    unfold bind at 1.
    pose proof (float_field_quiet (XDict m) "X_DOT" w1) as Qx.
    destruct (field (XDict m) "X_DOT" w1) as [[x | ?] wx]; cbn [snd] in Qx; subst wx;
      [| reflexivity].
    unfold bind at 1.
    pose proof (float_field_quiet (XDict m) "Y_DOT" w1) as Qy.
    destruct (field (XDict m) "Y_DOT" w1) as [[y | ?] wy]; cbn [snd] in Qy; subst wy;
      [| reflexivity].
    unfold bind at 1.
    pose proof (float_field_quiet (XDict m) "Z_DOT" w1) as Qz.
    destruct (field (XDict m) "Z_DOT" w1) as [[z | ?] wz]; cbn [snd] in Qz; subst wz;
      [| reflexivity].
    unfold bind at 1.
    pose proof (calc_speed_3d_floats_quiet pow2 x y z w1) as Qs.
    destruct (calc_speed_3d pow2 (PyFloat x) (PyFloat y) (PyFloat z) w1)
      as [[r | ?] ws];
      cbn [snd] in Qs; subst ws; reflexivity.
Qed.

(** A velocity text that does not read as a float ends the speed route
    with the [ValueError] of [float], which nothing catches: the text
    of [X_DOT], the text of [Y_DOT] behind a readable [X_DOT], or the
    text of [Z_DOT] behind two readable ones.  The state vector has
    been logged by then. *)
Theorem return_epoch_speed_bad_number :
  forall (pre : list xval) (item : xval) (post : list xval) (epoch : string) w,
    Forall (other_epoch epoch) pre -> has_epoch epoch item ->
    (forall sx,
        text_field item "X_DOT" = Some sx -> float_of_str sx = None ->
        return_epoch_speed pow2 float_of_str str_float str_xval
          (pre ++ item :: post) epoch w
        = (Raised ValueError, w ++ [LogRecord DEBUG (str_xval item)]))
    /\ (forall sx x sy,
          text_field item "X_DOT" = Some sx -> float_of_str sx = Some x ->
          text_field item "Y_DOT" = Some sy -> float_of_str sy = None ->
          return_epoch_speed pow2 float_of_str str_float str_xval
            (pre ++ item :: post) epoch w
          = (Raised ValueError, w ++ [LogRecord DEBUG (str_xval item)]))
    /\ (forall sx x sy y sz,
          text_field item "X_DOT" = Some sx -> float_of_str sx = Some x ->
          text_field item "Y_DOT" = Some sy -> float_of_str sy = Some y ->
          text_field item "Z_DOT" = Some sz -> float_of_str sz = None ->
          return_epoch_speed pow2 float_of_str str_float str_xval
            (pre ++ item :: post) epoch w
          = (Raised ValueError, w ++ [LogRecord DEBUG (str_xval item)])).
Proof.
  intros pre item post epoch w Hpre [m [-> Hm]].
  rewrite (return_epoch_speed_at pre m post epoch w Hpre Hm).
  split; [| split].
  - intros sx Tx Fx.
    apply bind_raised, (float_field_unreadable _ _ sx); assumption.
  - intros sx x sy Tx Fx Ty Fy.
    rewrite (bind_returned _ _ _ _ _ (float_field_text _ _ _ _ _ Tx Fx)).
    apply bind_raised, (float_field_unreadable _ _ sy); assumption.
  - intros sx x sy y sz Tx Fx Ty Fy Tz Fz.
    rewrite (bind_returned _ _ _ _ _ (float_field_text _ _ _ _ _ Tx Fx)).
    rewrite (bind_returned _ _ _ _ _ (float_field_text _ _ _ _ _ Ty Fy)).
    apply bind_raised, (float_field_unreadable _ _ sz); assumption.
Qed.

(** For the first state vector with the requested epoch, whose three
    position texts read as floats, the location route is
    [find_location] on those floats and the requested epoch: same
    outcome, same log.  So an epoch that is in the data but whose hour
    or minute does not read as an int gives the empty list with the
    time-format error; an epoch that is not in the data gives the empty
    list with the not-found error. *)
Theorem return_epoch_location_found :
  (forall (pre : list xval) (item : xval) (post : list xval) (epoch : string)
          (sx sy sz : string) (x y z : spec_float) w,
      Forall (other_epoch epoch) pre -> has_epoch epoch item ->
      text_field item "X" = Some sx -> float_of_str sx = Some x ->
      text_field item "Y" = Some sy -> float_of_str sy = Some y ->
      text_field item "Z" = Some sz -> float_of_str sz = Some z ->
      return_epoch_location pow2 float_of_str str_float atan2 geocoder_reverse
        (pre ++ item :: post) epoch w
      = find_location pow2 str_float atan2 geocoder_reverse
          (PyFloat x) (PyFloat y) (PyFloat z) epoch w
      /\ (int_of_str (slice 9 11 epoch) = None
          \/ int_of_str (slice 12 14 epoch) = None ->
          return_epoch_location pow2 float_of_str str_float atan2 geocoder_reverse
            (pre ++ item :: post) epoch w
          = (Returned [],
             w ++ [LogRecord ERROR (time_format_msg "Empty list returned.")])))
  /\ (forall (data : list xval) (epoch : string) w,
        Forall (other_epoch epoch) data ->
        return_epoch_location pow2 float_of_str str_float atan2 geocoder_reverse
          data epoch w
        = (Returned [],
           w ++ [LogRecord ERROR
                   (epoch_not_found_msg "'yyyy-dddThh:mm:ss'. Empty list returned")])).
Proof.
  split.
  - intros pre item post epoch sx sy sz x y z w Hpre [m [-> Hm]]
      Tx Fx Ty Fy Tz Fz.
    assert (Hrun : location_route (pre ++ XDict m :: post) epoch w
                   = find_location pow2 str_float atan2 geocoder_reverse
                       (PyFloat x) (PyFloat y) (PyFloat z) epoch w).
    { rewrite (return_epoch_location_skip_all epoch pre _ w Hpre).
      cbn [return_epoch_location xgetitem]. rewrite Hm.
      unfold bind at 1. cbn [ret eq_str]. rewrite String.eqb_refl.
      rewrite (bind_returned _ _ _ _ _ (float_field_text _ _ _ _ _ Tx Fx)).
      rewrite (bind_returned _ _ _ _ _ (float_field_text _ _ _ _ _ Ty Fy)).
      rewrite (bind_returned _ _ _ _ _ (float_field_text _ _ _ _ _ Tz Fz)).
      reflexivity. }
    split; [exact Hrun |].
    intros Hbad. rewrite Hrun. apply find_location_bad_epoch, Hbad.
  - intros data epoch w Hall.
    rewrite <- (app_nil_r data),
      (return_epoch_location_skip_all epoch data [] w Hall).
    reflexivity.
Qed.

End RoutesProofs.

(** The theorems on the routes at a feed of two state vectors. *)

Lemma other_epoch_vector epoch epoch' f1 f2 f3 t1 t2 t3 :
  String.eqb epoch' epoch = false ->
  other_epoch epoch (vector epoch' f1 f2 f3 t1 t2 t3).
Proof.
  intros H. unfold vector. eexists _, (XStr epoch').
  split; [reflexivity |]. split; [apply lookup_insert_eq | exact H].
Qed.

Lemma has_epoch_vector epoch f1 f2 f3 t1 t2 t3 :
  has_epoch epoch (vector epoch f1 f2 f3 t1 t2 t3).
Proof.
  unfold vector. eexists. split; [reflexivity | apply lookup_insert_eq].
Qed.

Lemma return_epoch_first_match_witness :
  return_epoch
    ([SampleFeed.velocity "2024-049T12:00:00.000Z" "1" "2" "2"]
       ++ SampleFeed.velocity "2024-050T12:00:00.000Z" "3" "4" "12" :: [])
    "2024-050T12:00:00.000Z" []
  = (Returned (SampleFeed.velocity "2024-050T12:00:00.000Z" "3" "4" "12"), []).
Proof.
  apply return_epoch_first_match.
  - repeat constructor. apply other_epoch_vector. reflexivity.
  - apply has_epoch_vector.
Defined.

Lemma return_epoch_not_found_witness :
  return_epoch [SampleFeed.velocity "2024-049T12:00:00.000Z" "1" "2" "2"]
    "2024-200" []
  = (Returned (XDict ∅),
     [] ++ [LogRecord ERROR
              (epoch_not_found_msg
                 "'yyyy-dddThh:mm:ss.xxxZ'. Empty dictionary returned")]).
Proof.
  apply return_epoch_not_found.
  repeat constructor. apply other_epoch_vector. reflexivity.
Defined.

Lemma return_epoch_sound_witness :
  (XDict ∅ ∈ [SampleFeed.velocity "2024-049T12:00:00.000Z" "1" "2" "2"]
   /\ has_epoch "2024-200" (XDict ∅))
  \/ XDict ∅ = XDict ∅.
Proof.
  apply (return_epoch_sound
           [SampleFeed.velocity "2024-049T12:00:00.000Z" "1" "2" "2"]
           "2024-200" (XDict ∅) []).
  rewrite <- (app_nil_r [_]), (return_epoch_skip_all "2024-200" [_] [] []);
    [reflexivity |].
  repeat constructor. apply other_epoch_vector. reflexivity.
Defined.

Lemma return_epoch_key_error_witness :
  return_epoch
    ([SampleFeed.velocity "2024-049T12:00:00.000Z" "1" "2" "2"]
       ++ XDict ∅ :: [SampleFeed.velocity "2024-050T12:00:00.000Z" "3" "4" "12"])
    "2024-050T12:00:00.000Z" []
  = (Raised KeyError, []).
Proof.
  apply return_epoch_key_error.
  - repeat constructor. apply other_epoch_vector. reflexivity.
  - reflexivity.
Defined.

Lemma return_epoch_speed_found_witness :
  return_epoch_speed Sample.pow2 SampleFeed.float_of_str Sample.str_float
    SampleFeed.str_xval
    ([SampleFeed.velocity "2024-049T12:00:00.000Z" "1" "2" "2"]
       ++ SampleFeed.velocity "2024-050T12:00:00.000Z" "3" "4" "12" :: [])
    "2024-050T12:00:00.000Z" []
  = (Returned ("13.0" +:+ newline),
     [LogRecord DEBUG
        (SampleFeed.str_xval
           (SampleFeed.velocity "2024-050T12:00:00.000Z" "3" "4" "12"))]).
Proof.
  rewrite (return_epoch_speed_found Sample.pow2 SampleFeed.float_of_str
             Sample.str_float SampleFeed.str_xval _ _ _ _ "3" "4" "12"
             (of_Z 3) (of_Z 4) (of_Z 12)).
  - vm_compute. reflexivity.
  - exact sample_pow2_nonneg.
  - repeat constructor. apply other_epoch_vector. reflexivity.
  - apply has_epoch_vector.
  - reflexivity.
  - reflexivity.
  - reflexivity.
  - reflexivity.
  - reflexivity.
  - reflexivity.
  - reflexivity.
  - reflexivity.
  - reflexivity.
Defined.

Lemma return_epoch_speed_not_found_witness :
  return_epoch_speed Sample.pow2 SampleFeed.float_of_str Sample.str_float
    SampleFeed.str_xval
    [SampleFeed.velocity "2024-049T12:00:00.000Z" "1" "2" "2"] "2024-200" []
  = (Returned (Sample.str_float (S754_zero false) +:+ newline),
     [] ++ [LogRecord ERROR
              (epoch_not_found_msg "'yyyy-dddThh:mm:ss.xxxZ'. Zero value returned")]).
Proof.
  apply return_epoch_speed_not_found.
  repeat constructor. apply other_epoch_vector. reflexivity.
Defined.

Lemma return_epoch_speed_bad_number_witness :
  return_epoch_speed Sample.pow2 SampleFeed.float_of_str Sample.str_float
    SampleFeed.str_xval
    ([] ++ SampleFeed.velocity "2024-050T12:00:00.000Z" "3" "fast" "12" :: [])
    "2024-050T12:00:00.000Z" []
  = (Raised ValueError,
     [] ++ [LogRecord DEBUG
              (SampleFeed.str_xval
                 (SampleFeed.velocity "2024-050T12:00:00.000Z" "3" "fast" "12"))]).
Proof.
  apply (proj1 (proj2 (return_epoch_speed_bad_number Sample.pow2
                         SampleFeed.float_of_str Sample.str_float
                         SampleFeed.str_xval [] _ [] "2024-050T12:00:00.000Z" []
                         (List.Forall_nil _) (has_epoch_vector _ _ _ _ _ _ _)))
           "3" (of_Z 3) "fast").
  - reflexivity.
  - reflexivity.
  - reflexivity.
  - reflexivity.
Defined.

Lemma return_epoch_location_found_witness :
  return_epoch_location Sample.pow2 SampleFeed.float_of_str Sample.str_float
    Sample.atan2 Sample.geocoder_reverse
    ([SampleFeed.position "2024-049T12:00:00.000Z" "1" "2" "2"]
       ++ SampleFeed.position "2024-100" "4000" "1500" "-5000" :: [])
    "2024-100" []
  = (Returned [], [] ++ [LogRecord ERROR (time_format_msg "Empty list returned.")]).
Proof.
  apply (proj1 (return_epoch_location_found Sample.pow2 SampleFeed.float_of_str
                  Sample.str_float Sample.atan2 Sample.geocoder_reverse)
           _ _ _ _ "4000" "1500" "-5000" (of_Z 4000) (of_Z 1500) (of_Z (-5000))).
  - repeat constructor. apply other_epoch_vector. reflexivity.
  - apply has_epoch_vector.
  - reflexivity.
  - reflexivity.
  - reflexivity.
  - reflexivity.
  - reflexivity.
  - reflexivity.
  - left. reflexivity.
Defined.
